(** * cxxprops: the parse / mutate / render pipeline of [cxxprops::Properties]

    A shallow embedding of [cxxprops.h].  A [std::string] is a list of
    bytes ([list ascii]); the member [props] (an [unordered_map]) is a
    [gmap]; the members [lines] and [prefixStack] (vectors) are lists; an
    exception is a value of [exn] carried by the result.  The nested
    [while (getline ...)] loops are written as folds of a per-line
    transition over the lines of the stream. *)

From Stdlib Require Import Ascii String ZArith Lia.
From stdpp Require Import gmap strings list fin_maps.

(** ** Strings *)

Abbreviation cstring := (list ascii).

(** A string literal denotes the list of its bytes. *)
Coercion list_ascii_of_string : string >-> list.

Definition LF : ascii := "010"%char.
Definition DQUOTE : ascii := "034"%char.
Definition SQUOTE : ascii := "039"%char.
Definition BSLASH : ascii := "092"%char.

(** [const std::string WS = " \n\r\t\v\f"] *)
Definition WS : cstring :=
  [" "; "010"; "013"; "009"; "011"; "012"]%char.

(** [std::isspace] in the "C" locale *)
Definition isspace (c : ascii) : bool :=
  bool_decide (c ∈ [" "; "009"; "010"; "011"; "012"; "013"]%char).

(** [str.find_first_not_of(set)]; [None] is [npos] *)
Fixpoint find_first_not_of (str set : cstring) : option nat :=
  match str with
  | [] => None
  | c :: s =>
      if bool_decide (c ∈ set) then S <$> find_first_not_of s set else Some 0
  end.

(** [str.find_last_not_of(set)] *)
Fixpoint find_last_not_of (str set : cstring) : option nat :=
  match str with
  | [] => None
  | c :: s =>
      match find_last_not_of s set with
      | Some i => Some (S i)
      | None => if bool_decide (c ∈ set) then None else Some 0
      end
  end.

(** [str.find_first_of(set)] *)
Fixpoint find_first_of (str set : cstring) : option nat :=
  match str with
  | [] => None
  | c :: s =>
      if bool_decide (c ∈ set) then Some 0 else S <$> find_first_of s set
  end.

(** [str.substr(pos)] and [str.substr(pos, n)], for [pos <= str.size()] *)
Definition substr_from (str : cstring) (pos : nat) : cstring := drop pos str.
Definition substr (str : cstring) (pos n : nat) : cstring :=
  take n (drop pos str).

(** [str.pop_back()] *)
Definition pop_back (str : cstring) : cstring := take (length str - 1) str.

(** [replaceAll(str, from, to)]: every occurrence of [from], scanning left to
    right and resuming after the text just put in.  [skip] counts the bytes
    of the occurrence under the cursor that are still to be passed over.
    [from] is not empty at its only call site. *)
Fixpoint replaceAll_skip (skip : nat) (str from to : cstring) : cstring :=
  match str with
  | [] => []
  | c :: s =>
      match skip with
      | S k => replaceAll_skip k s from to
      | O =>
          if bool_decide (from `prefix_of` str)
          then to ++ replaceAll_skip (length from - 1) s from to
          else c :: replaceAll_skip 0 s from to
      end
  end.

Definition replaceAll (str from to : cstring) : cstring :=
  replaceAll_skip 0 str from to.

(** [escape]: a backslash before each leading whitespace byte, and every
    newline of the rest becomes backslash, newline, four spaces. *)
Definition escape (str : cstring) : cstring :=
  match find_first_not_of str WS with
  | Some s =>
      flat_map (fun c => [BSLASH; c]) (take s str)
      ++ replaceAll (substr_from str s) [LF] (BSLASH :: LF :: "    ")
  | None => str
  end.

(** The loop of [unescape]: [for (; i < str.size()-1; i+=2)], followed by
    [ss << str.substr(i)]. *)
Fixpoint unescape_pairs (str : cstring) : cstring :=
  match str with
  | c :: d :: rest =>
      if bool_decide (c = BSLASH) then d :: unescape_pairs rest else str
  | _ => str
  end.

Definition unescape (str : cstring) : cstring :=
  if bool_decide (1 < length str) && bool_decide (head str = Some BSLASH)
  then unescape_pairs str
  else str.

(** [unquote] *)
Definition unquote (str : cstring) : cstring :=
  if bool_decide (2 < length str)
     && ((bool_decide (head str = Some SQUOTE)
          && bool_decide (last str = Some SQUOTE))
         || (bool_decide (head str = Some DQUOTE)
             && bool_decide (last str = Some DQUOTE)))
  then substr str 1 (length str - 2)
  else str.

(** [trimright(str, trimmed)]: the result and the new content of the output
    parameter, which is left as it was when [str] is all whitespace. *)
Definition trimright2 (str trimmed : cstring) : cstring * cstring :=
  match find_last_not_of str WS with
  | None => ([], trimmed)
  | Some s => (substr str 0 (s + 1), substr_from str (s + 1))
  end.

Definition trimright (str : cstring) : cstring := fst (trimright2 str []).

Definition trimleft (str trimmed : cstring) : cstring * cstring :=
  match find_first_not_of str WS with
  | None => ([], trimmed)
  | Some s => (substr_from str s, substr str 0 s)
  end.

(** [trim(str, trimmedLeft, trimmedRight)]: the result, then the two output
    parameters. *)
Definition trim3 (str trimmedLeft trimmedRight : cstring)
  : cstring * cstring * cstring :=
  let '(l, trimmedLeft') := trimleft str trimmedLeft in
  let '(r, trimmedRight') := trimright2 l trimmedRight in
  (r, trimmedLeft', trimmedRight').

Definition trim (str : cstring) : cstring := (trim3 str [] []).1.1.

(** [endswith(str, ch)], ignoring trailing whitespace *)
Definition endswith (str : cstring) (ch : ascii) : bool :=
  match find_last_not_of str WS with
  | None => false
  | Some pos => bool_decide (str !! pos = Some ch)
  end.

(** [join(vs, sep, append)] *)
Definition join (vs : list cstring) (sep : cstring) (append : bool) : cstring :=
  match vs with
  | [] => []
  | v0 :: rest =>
      let str := fold_left (fun a b => a ++ sep ++ b) rest v0 in
      if append && negb (bool_decide (str = [])) then str ++ sep else str
  end.

(** [str[pos]] for [pos = str.find_first_not_of(WS)]: the first byte that is
    not whitespace, if there is one *)
Definition first_nonws (str : cstring) : option ascii :=
  match find_first_not_of str WS with
  | None => None
  | Some pos => str !! pos
  end.

Definition isTemplateVariable (str : cstring) : bool :=
  bool_decide (first_nonws str = Some "%"%char).

Definition isTemplateStart (str : cstring) : bool :=
  bool_decide (first_nonws str = Some "<"%char).

Definition isTemplateEnd (str : cstring) : bool :=
  match find_first_not_of str WS with
  | None => false
  | Some pos =>
      bool_decide (str !! pos = Some "<"%char)
      && bool_decide (pos + 1 < length str)
      && bool_decide (str !! (pos + 1) = Some "/"%char)
  end.

Definition isComment (str : cstring) : bool :=
  bool_decide (first_nonws str = Some "#"%char)
  || bool_decide (first_nonws str = Some "!"%char).

Definition isBlockStart (str : cstring) : bool :=
  bool_decide (first_nonws str = Some "{"%char).

Definition isBlockEnd (str : cstring) : bool :=
  bool_decide (first_nonws str = Some "}"%char).

Definition isMultiLine (str : cstring) : bool := endswith str BSLASH.

Definition isEmptyLine (str : cstring) : bool := forallb isspace str.

(** The lines that [while (getline(is, line))] reads from a stream holding
    [s]: a line ends at a newline, which is dropped, or at the end of the
    stream; nothing is read after the last newline. *)
Fixpoint getlines (s : cstring) : list cstring :=
  match s with
  | [] => []
  | c :: s' =>
      if bool_decide (c = LF) then [] :: getlines s'
      else match getlines s' with
           | [] => [[c]]
           | l :: ls => (c :: l) :: ls
           end
  end.

(** [os << line << std::endl] for each line *)
Definition unlines (ls : list cstring) : cstring :=
  flat_map (fun l => l ++ [LF]) ls.

(** A list of string literals as a list of byte strings *)
Definition cstrings (l : list string) : list cstring :=
  list_ascii_of_string <$> l.

(** ** Exceptions *)

Inductive exn :=
  | runtime_error (what : cstring)
  | length_error.

(** The error of a reference to a template that is not defined, by the
    message its [std::runtime_error] carries *)
Definition UndefinedTemplate (varname : cstring) : exn :=
  runtime_error ("Template variable is not defined: " ++ varname).

(** ** Data model *)

Inductive LineType :=
  | Property | Comment | Empty | MultilineValue
  | BlockStart | BlockEnd
  | TemplateStart | TemplateLine | TemplateEnd.

#[global] Instance LineType_eq_dec : EqDecision LineType.
Proof. solve_decision. Defined.

(** [struct Line] *)
Record Line := {
  line : cstring;
  linetype : LineType;
  key : cstring;
  bareKey : cstring;
  beforeKey : cstring;
  afterKey : cstring;
  beforeValue : cstring;
  afterValue : cstring;
  lacksAssignment : bool
}.

(** [Line(std::string str)] with the default member initialisers *)
Definition mkLine (str : cstring) : Line :=
  {| line := str; linetype := Property; key := ""; bareKey := "";
     beforeKey := ""; afterKey := " "; beforeValue := " "; afterValue := "";
     lacksAssignment := false |}.

(** [struct Prop]; its member [key] is [pkey] here, [key] being the member
    of [Line]. *)
Record Prop_ := {
  pkey : cstring;
  value : cstring;
  modified : bool
}.

(** The members of [class Properties] *)
Record Properties := {
  props : gmap cstring Prop_;
  lines : list Line;
  prefixStack : list cstring
}.

(** A default-constructed [Properties] *)
Definition empty_doc : Properties :=
  {| props := ∅; lines := []; prefixStack := [] |}.

(** [props.insert(std::make_pair(k, p))]: no effect when [k] is present *)
Definition props_insert (k : cstring) (p : Prop_) (m : gmap cstring Prop_)
  : gmap cstring Prop_ :=
  match m !! k with
  | Some _ => m
  | None => <[k := p]> m
  end.

(** ** Template expansion: [preprocess] *)

(** The state of [preprocess] between two [getline]s: the output stream, the
    definitions, and, inside the inner loop, the name and the lines captured
    so far. *)
Record PreState := {
  os : cstring;
  vars : gmap cstring (list cstring);
  capturing : option (cstring * list cstring)
}.

Definition pre_init : PreState :=
  {| os := []; vars := ∅; capturing := None |}.

(** One [getline] of [preprocess] *)
Definition preprocess_line (st : PreState) (ln : cstring) : exn + PreState :=
  match capturing st with
  | Some (varname, templatelines) =>
      if isTemplateEnd ln
      then inr {| os := os st;
                  vars := <[varname := templatelines]> (vars st);
                  capturing := None |}
      else inr {| os := os st; vars := vars st;
                  capturing := Some (varname, templatelines ++ [ln]) |}
  | None =>
      if isTemplateStart ln then
        let trimmed := trim ln in
        if bool_decide (length trimmed < 3)
        then inl (runtime_error "Invalid template definition syntax")
        else
          let varname := substr trimmed 1 (length trimmed - 2) in
          inr {| os := os st; vars := vars st;
                 capturing := Some (varname, []) |}
      else if isTemplateVariable ln then
        let trimmed := trim ln in
        if bool_decide (length trimmed < 3)
        then inl (runtime_error "Invalid template variable syntax")
        else
          let varname := substr trimmed 1 (length trimmed - 2) in
          match vars st !! varname with
          | None => inl (UndefinedTemplate varname)
          | Some templatelines =>
              inr {| os := os st ++ unlines templatelines;
                     vars := vars st; capturing := None |}
          end
      else
        inr {| os := os st ++ ln ++ [LF]; vars := vars st;
               capturing := None |}
  end.

(** The [getline] loops of [preprocess] over the lines still to be read *)
Fixpoint preprocess_lines (st : PreState) (ls : list cstring)
  : exn + PreState :=
  match ls with
  | [] => inr st
  | ln :: rest =>
      match preprocess_line st ln with
      | inl e => inl e
      | inr st' => preprocess_lines st' rest
      end
  end.

(** The end of the stream: inside a definition, [endedOK] is false *)
Definition preprocess_end (st : PreState) : exn + cstring :=
  match capturing st with
  | Some _ => inl (runtime_error "Missing closing tag in template definition")
  | None => inr (os st)
  end.

Definition preprocess (stream : cstring) : exn + cstring :=
  match preprocess_lines pre_init (getlines stream) with
  | inl e => inl e
  | inr st => preprocess_end st
  end.

(** ** Parsing: [parse] *)

(** [prependPrefix(key)] *)
Definition prependPrefix (stack : list cstring) (k : cstring) : cstring :=
  if negb (bool_decide (stack = [])) then join stack "." true ++ k else k.

(** The state of [parse] between two [getline]s: the object, the local
    [prefix], and, inside the inner loop, the property being built. *)
Record ParseState := {
  doc : Properties;
  prefix : cstring;
  pending : option Prop_
}.

Definition push_line (d : Properties) (l : Line) : Properties :=
  {| props := props d; lines := lines d ++ [l];
     prefixStack := prefixStack d |}.

Definition insert_prop (d : Properties) (p : Prop_) : Properties :=
  {| props := props_insert (pkey p) p (props d); lines := lines d;
     prefixStack := prefixStack d |}.

Definition with_linetype (l : Line) (t : LineType) : Line :=
  {| line := line l; linetype := t; key := key l; bareKey := bareKey l;
     beforeKey := beforeKey l; afterKey := afterKey l;
     beforeValue := beforeValue l; afterValue := afterValue l;
     lacksAssignment := lacksAssignment l |}.

(** The [Property] branch of the outer loop, up to [isMultiLine(value)]:
    the line entry, the new [prefix], and the property with its raw value. *)
Definition scan_property (stack : list cstring) (ln : cstring)
  : Line * cstring * Prop_ :=
  let trimmedStr := ln in
  let entry := mkLine ln in
  match find_first_of trimmedStr "=" with
  | None =>
      (* [substr(0, npos)] is the whole line *)
      let '(k, bk, ak) :=
        trim3 trimmedStr (beforeKey entry) (afterKey entry) in
      ({| line := ln; linetype := Property;
          key := prependPrefix stack k; bareKey := k;
          beforeKey := bk; afterKey := ak;
          beforeValue := beforeValue entry; afterValue := afterValue entry;
          lacksAssignment := true |},
       k,
       {| pkey := prependPrefix stack k; value := ""; modified := false |})
  | Some assignPos =>
      let '(k, bk, ak) :=
        trim3 (substr trimmedStr 0 assignPos)
              (beforeKey entry) (afterKey entry) in
      let '(v, bv, av) :=
        trim3 (substr_from trimmedStr (assignPos + 1))
              (beforeValue entry) (afterValue entry) in
      ({| line := ln; linetype := Property;
          key := prependPrefix stack k; bareKey := k;
          beforeKey := bk; afterKey := ak;
          beforeValue := bv; afterValue := av;
          lacksAssignment := false |},
       [],
       {| pkey := prependPrefix stack k; value := unescape v;
          modified := false |})
  end.

Definition with_value (p : Prop_) (v : cstring) : Prop_ :=
  {| pkey := pkey p; value := v; modified := modified p |}.

(** One [getline] of [parse] *)
Definition parse_line (st : ParseState) (ln : cstring) : ParseState :=
  let d := doc st in
  match pending st with
  | Some prop =>
      (* inner loop: a line of a multi-line value *)
      let d' := push_line d (with_linetype (mkLine ln) MultilineValue) in
      let theline := trim ln in
      if isMultiLine theline then
        let theline := pop_back theline in
        let theline :=
          if endswith theline DQUOTE || endswith theline BSLASH
          then unquote (trimright theline) else theline in
        {| doc := d'; prefix := prefix st;
           pending := Some (with_value prop (value prop ++ theline)) |}
      else
        {| doc := insert_prop d' (with_value prop (value prop ++ unquote theline));
           prefix := prefix st; pending := None |}
  | None =>
      if isComment ln then
        {| doc := push_line d (with_linetype (mkLine ln) Comment);
           prefix := prefix st; pending := None |}
      else if isEmptyLine ln then
        {| doc := push_line d (with_linetype (mkLine ln) Empty);
           prefix := prefix st; pending := None |}
      else if isBlockStart ln then
        let d' := push_line d (with_linetype (mkLine ln) BlockStart) in
        {| doc :=
             (if negb (bool_decide (prefix st = []))
              then {| props := props d'; lines := lines d';
                      prefixStack := prefixStack d' ++ [prefix st] |}
              else d');
           prefix := prefix st; pending := None |}
      else if isBlockEnd ln then
        let d' := push_line d (with_linetype (mkLine ln) BlockEnd) in
        {| doc :=
             (if negb (bool_decide (prefixStack d' = []))
              then {| props := props d'; lines := lines d';
                      prefixStack := removelast (prefixStack d') |}
              else d');
           prefix := prefix st; pending := None |}
      else
        let '(entry, prefix', prop) := scan_property (prefixStack d) ln in
        let d' := push_line d entry in
        if isMultiLine (value prop) then
          {| doc := d'; prefix := prefix';
             pending :=
               Some (with_value prop
                       (unquote (trimright (pop_back (value prop))))) |}
        else
          {| doc := insert_prop d' (with_value prop (unquote (value prop)));
             prefix := prefix'; pending := None |}
  end.

(** The end of the stream: when it is reached inside the inner loop, the
    property built so far is still inserted. *)
Definition parse_end (st : ParseState) : Properties :=
  match pending st with
  | Some prop => insert_prop (doc st) prop
  | None => doc st
  end.

Definition parse_lines (st : ParseState) (ls : list cstring) : ParseState :=
  fold_left parse_line ls st.

Definition parse_init (d : Properties) : ParseState :=
  {| doc := d; prefix := ""; pending := None |}.

(** What a call leaves behind: the object after a normal return, or the
    exception and the object as it was when the exception left the call. *)
Inductive outcome :=
  | Returned (d : Properties)
  | Thrown (e : exn) (d : Properties).

(** [parse(stream)]: [preprocess] runs to its end before the first member
    is touched. *)
Definition parse (d : Properties) (stream : cstring) : outcome :=
  match preprocess stream with
  | inl e => Thrown e d
  | inr buf => Returned (parse_end (parse_lines (parse_init d) (getlines buf)))
  end.

(** The object after the call, whichever way it ended *)
Definition after (o : outcome) : Properties :=
  match o with Returned d => d | Thrown _ d => d end.

(** ** Lookup and mutation *)

Definition hasKey (d : Properties) (k : cstring) : bool :=
  bool_decide (is_Some (props d !! k)).

Definition get (d : Properties) (k : cstring) : cstring :=
  match props d !! k with
  | Some p => value p
  | None => ""
  end.

(** [get(key, defaultValue)] *)
Definition get_default (d : Properties) (k defaultValue : cstring) : cstring :=
  if hasKey d k then get d k else defaultValue.

Definition getBool (d : Properties) (k : cstring) (defaultValue : bool) : bool :=
  if hasKey d k then
    let val := get d k in
    bool_decide (val = "true") || bool_decide (val = "1")
    || bool_decide (val = "yes")
  else defaultValue.

(** The line entry that [put] appends for a new key *)
Definition put_line (k v : cstring) : Line :=
  let entry := mkLine (k ++ " = " ++ v) in
  {| line := line entry; linetype := Property; key := k; bareKey := k;
     beforeKey := beforeKey entry; afterKey := afterKey entry;
     beforeValue := beforeValue entry; afterValue := afterValue entry;
     lacksAssignment := lacksAssignment entry |}.

(** [put(key, value)]: the object after the call and the returned string *)
Definition put (d : Properties) (k v : cstring) : Properties * cstring :=
  match props d !! k with
  | Some prop =>
      ({| props := <[k := {| pkey := pkey prop; value := v; modified := true |}]>
                     (props d);
          lines := lines d; prefixStack := prefixStack d |},
       value prop)
  | None =>
      ({| props := props_insert k {| pkey := k; value := v; modified := true |}
                     (props d);
          lines := lines d ++ [put_line k v];
          prefixStack := prefixStack d |},
       [])
  end.

Definition remove (d : Properties) (k : cstring) : Properties :=
  {| props := delete k (props d); lines := lines d;
     prefixStack := prefixStack d |}.

Definition putEmptyLine (d : Properties) : Properties :=
  push_line d (with_linetype (mkLine "") Empty).

Definition putComment (d : Properties) (comment : cstring) : Properties :=
  let ln := trim comment in
  if negb (bool_decide (ln = [])) then
    let ln :=
      if negb (bool_decide (head ln = Some "#"%char))
         && negb (bool_decide (head ln = Some "!"%char))
      then "# " ++ ln else ln in
    push_line d (with_linetype (mkLine ln) Comment)
  else d.

(** ** Rendering: [text] *)

(** [std::string(n, ch)] for an [int] count: converted to [size_type], a
    negative count is above [max_size()] and the constructor throws.  The
    counter itself is not wrapped: it stays far inside [int] for any
    document that fits in memory. *)
Definition string_n (n : Z) (ch : ascii) : exn + cstring :=
  if (n <? 0)%Z then inl length_error else inr (replicate (Z.to_nat n) ch).

(** The locals of [text] between two entries *)
Record TextState := {
  ss : cstring;
  prev : option Line;
  prefixDepth : Z
}.

Definition text_init : TextState :=
  {| ss := []; prev := None; prefixDepth := 0 |}.

(** One iteration of the loop of [text] *)
Definition text_line (d : Properties) (prettyPrint : bool)
    (st : TextState) (entry : Line) : exn + TextState :=
  let out (s : cstring) (depth : Z) : exn + TextState :=
    inr {| ss := s; prev := Some entry; prefixDepth := depth |} in
  match linetype entry with
  | Empty =>
      if negb prettyPrint
         || negb (bool_decide (linetype <$> prev st = Some Empty))
      then out (ss st ++ [LF]) (prefixDepth st)
      else out (ss st) (prefixDepth st)
  | Comment =>
      out (ss st ++ (if prettyPrint then trim (line entry) else line entry)
             ++ [LF])
          (prefixDepth st)
  | Property =>
      match props d !! key entry with
      | Some p =>
          if prettyPrint then
            match (if (0 <? prefixDepth st)%Z
                   then string_n (prefixDepth st * 4) " "
                   else inr []) with
            | inl e => inl e
            | inr indent =>
                out (ss st ++ indent ++ bareKey entry
                       ++ (if negb (bool_decide (value p = []))
                           then " = " ++ escape (value p) else [])
                       ++ [LF])
                    (prefixDepth st)
            end
          else
            out (ss st ++ beforeKey entry ++ bareKey entry ++ afterKey entry
                   ++ (if negb (lacksAssignment entry) || modified p
                       then "=" ++ beforeValue entry ++ escape (value p)
                              ++ afterValue entry
                       else [])
                   ++ [LF])
                (prefixDepth st)
      | None => out (ss st) (prefixDepth st)
      end
  | BlockStart =>
      match string_n (prefixDepth st * 4) " " with
      | inl e => inl e
      | inr indent =>
          out (ss st ++ indent ++ "{" ++ [LF]) (prefixDepth st + 1)%Z
      end
  | BlockEnd =>
      let depth := (prefixDepth st - 1)%Z in
      match string_n (depth * 4) " " with
      | inl e => inl e
      | inr indent => out (ss st ++ indent ++ "}" ++ [LF]) depth
      end
  | _ => out (ss st) (prefixDepth st)
  end.

Fixpoint text_lines (d : Properties) (prettyPrint : bool)
    (st : TextState) (ls : list Line) : exn + TextState :=
  match ls with
  | [] => inr st
  | entry :: rest =>
      match text_line d prettyPrint st entry with
      | inl e => inl e
      | inr st' => text_lines d prettyPrint st' rest
      end
  end.

(** [text(prettyPrint)] *)
Definition text (d : Properties) (prettyPrint : bool) : exn + cstring :=
  match text_lines d prettyPrint text_init (lines d) with
  | inl e => inl e
  | inr st => inr (ss st)
  end.

(** ** Vocabulary of the statements *)

(** The branch of the outer loop of [parse] that a line takes *)
Definition classify (ln : cstring) : LineType :=
  if isComment ln then Comment
  else if isEmptyLine ln then Empty
  else if isBlockStart ln then BlockStart
  else if isBlockEnd ln then BlockEnd
  else Property.

(** The key text of a property line: what stands before the first [=], or
    the whole line when there is none, trimmed. *)
Definition line_key (ln : cstring) : cstring :=
  match find_first_of ln "=" with
  | None => trim ln
  | Some assignPos => trim (substr ln 0 assignPos)
  end.

(** The value text of a property line, trimmed; empty without [=]. *)
Definition line_value (ln : cstring) : cstring :=
  match find_first_of ln "=" with
  | None => []
  | Some assignPos => trim (substr_from ln (assignPos + 1))
  end.

Definition has_nonws (str : cstring) : bool :=
  bool_decide (is_Some (find_first_not_of str WS)).

(** A value wrapped in one pair of quotes *)
Definition quoted (v : cstring) : bool :=
  bool_decide (2 < length v)
  && ((bool_decide (head v = Some SQUOTE) && bool_decide (last v = Some SQUOTE))
      || (bool_decide (head v = Some DQUOTE)
          && bool_decide (last v = Some DQUOTE))).

(** A value that is written back as it was read: not empty, not quoted, and
    neither starting nor ending with a backslash. *)
Definition plain_value (v : cstring) : bool :=
  negb (bool_decide (v = []))
  && negb (bool_decide (head v = Some BSLASH))
  && negb (bool_decide (last v = Some BSLASH))
  && negb (quoted v).

(** A property line of the round-trip statement: a bare key, or [key=value]
    with any whitespace around a key that is not empty and a plain value.
    Template lines are left out. *)
Definition faithful_property (ln : cstring) : bool :=
  negb (isTemplateStart ln) && negb (isTemplateVariable ln)
  && match find_first_of ln "=" with
     | None => true
     | Some assignPos =>
         has_nonws (substr ln 0 assignPos) && plain_value (line_value ln)
     end.

(** A brace on a line of its own behind four spaces per open block *)
Definition brace_line (depth : nat) (brace : ascii) : cstring :=
  replicate (4 * depth) " "%char ++ [brace].

(** The lines of the round-trip statement inside [depth] open blocks, with
    the number of open blocks after the line: the empty line, a comment, a
    property line as above, or a brace line that opens a block or closes an
    open one. *)
Definition faithful_line (depth : nat) (ln : cstring) : option nat :=
  match classify ln with
  | Comment => Some depth
  | Empty => if bool_decide (ln = []) then Some depth else None
  | Property => if faithful_property ln then Some depth else None
  | BlockStart =>
      if bool_decide (ln = brace_line depth "{") then Some (S depth) else None
  | BlockEnd =>
      match depth with
      | S depth' =>
          if bool_decide (ln = brace_line depth' "}") then Some depth'
          else None
      | O => None
      end
  | _ => None
  end.

Fixpoint faithful_lines (depth : nat) (ls : list cstring) : bool :=
  match ls with
  | [] => true
  | ln :: rest =>
      match faithful_line depth ln with
      | Some depth' => faithful_lines depth' rest
      | None => false
      end
  end.

(** The qualified keys of the property entries of a document, in order *)
Definition entry_keys (d : Properties) : list cstring :=
  key <$> filter (fun e => linetype e = Property) (lines d).


(** A close tag for [name], as the definition of a template is meant to
    end: the trimmed line is [</name>]. *)
Definition isCloseTagOf (name ln : cstring) : bool :=
  bool_decide (trim ln = "</" ++ name ++ ">").

(** Some inputs *)
Definition multiline_input : cstring :=
  unlines (cstrings ["multiline = a \"; "            b \"; "            c"]).

Definition duplicate_input : cstring :=
  unlines (cstrings ["a = 1"; "a = 2"]).

Definition unmatched_end_input : cstring := unlines (cstrings ["}"]).

Definition server_input : cstring :=
  unlines (cstrings ["server = x"; "server"; "{"; "port = 1234"; "}"]).

Definition mismatched_close_lines : list cstring :=
  cstrings ["<a>"; "x = 1"; "</b>"].


Definition trailing_content_input : cstring :=
  unlines (cstrings ["{ x = 1"; "} y"]).

(** Lines of the property files shown in the README *)
Definition in_quotes (s : cstring) : cstring := [DQUOTE] ++ s ++ [DQUOTE].

Definition readme_input : cstring :=
  unlines
    (cstrings ["# A comment starts with # or !"; "myvalue = abc"]
     ++ ["othervalue = " ++ in_quotes "some value"]
     ++ ["quotes = " ++ in_quotes (in_quotes "quoting the entire string")]
     ++ cstrings ["leading = \ \ Two leading spaces in the value"]
     ++ ["spaces = " ++ in_quotes "  to spaces before and after  "]
     ++ cstrings ["key1 ="; "key2"; "    prop.indented = some value";
                  "production = true";
                  "<logsettings>"; "log"; "{"; "    level = debug";
                  "    output = console"; "}"; "</logsettings>";
                  "backend.database"; "{"; "    host = db-host";
                  "    %logsettings%"; "}";
                  "backend.appserver"; "{"; "    apikey = 0xfe4cce";
                  "    %logsettings%"; "}"]).

(** The calls of the test driver, on a small file *)
Definition session_input : cstring :=
  unlines (cstrings ["# demo"; ""; ""; "  bind = 0.0.0.0"; "removeme = 1";
                     "server"; "{"; "  port = 1234"; "}"]).

Definition session : Properties :=
  let d := after (parse empty_doc session_input) in
  let d := remove d "removeme" in
  let d := (put d "bind" "127.0.0.0").1 in
  let d := (put d "str.with.leading.ws"
              ("   " ++ ["009"%char] ++ "127.0.0.0")).1 in
  let d := putEmptyLine d in
  let d := putComment d "A new comment!" in
  (put d "new-multiline"
     ("this takes " ++ [LF] ++ "multiple " ++ [LF] ++ "lines")).1.

(** The invariant of the round trip, after the lines [ls] have been read
    into [st] from a fresh object, [depth] blocks being open: the scanner is
    in its outer loop, every Property is unmodified and is the Property of
    an entry, every property entry has its Property, and the entries so far
    are rendered as [ls]. *)
Definition roundtrip_inv (ls : list cstring) (st : ParseState) (depth : nat)
  : Prop :=
  pending st = None
  /\ (forall k p, props (doc st) !! k = Some p ->
                  modified p = false /\ k ∈ entry_keys (doc st))
  /\ (forall k, k ∈ entry_keys (doc st) -> is_Some (props (doc st) !! k))
  /\ exists tst,
       text_lines (doc st) false text_init (lines (doc st)) = inr tst
       /\ ss tst = unlines ls
       /\ prefixDepth tst = Z.of_nat depth.

(** ** Further members and vocabulary *)

(** [keys()] and [values()]: the keys and the values met by one iteration
    over [props].  [unordered_map] leaves the order of the iteration open;
    the order of [map_to_list] stands for it, the same in both. *)
Definition keys (d : Properties) : list cstring :=
  (fun pair => pair.1) <$> map_to_list (props d).

Definition values (d : Properties) : list cstring :=
  (fun pair => value pair.2) <$> map_to_list (props d).

(** No entry that closes a block comes before an entry that opens one for
    it, [depth] blocks being open at the start. *)
Fixpoint balanced (depth : nat) (ls : list Line) : bool :=
  match ls with
  | [] => true
  | e :: rest =>
      match linetype e with
      | BlockStart => balanced (S depth) rest
      | BlockEnd =>
          match depth with
          | O => false
          | S depth' => balanced depth' rest
          end
      | _ => balanced depth rest
      end
  end.

(** What the inner loop of [parse] appends to the value for a line that
    ends in a backslash *)
Definition continuation_piece (ln : cstring) : cstring :=
  let theline := pop_back (trim ln) in
  if endswith theline DQUOTE || endswith theline BSLASH
  then unquote (trimright theline) else theline.

(** Every prefix of the stack followed by a dot *)
Definition dotted (stack : list cstring) : cstring :=
  flat_map (fun p => p ++ ".") stack.

(** A key that [parse] reads back as it is written: on one line, not empty,
    without [=], starting and ending with a byte that is not whitespace, and
    not starting like a comment, a brace or a template line. *)
Definition plain_key (k : cstring) : bool :=
  negb (bool_decide ("="%char ∈ k)) && negb (bool_decide (LF ∈ k))
  && match head k, last k with
     | Some c1, Some c2 =>
         negb (bool_decide (c1 ∈ WS)) && negb (bool_decide (c2 ∈ WS))
         && negb (bool_decide (c1 ∈ ["#"; "!"; "{"; "}"; "<"; "%"]%char))
     | _, _ => false
     end.

(** A value that [parse] reads back from what [escape] writes for it: on
    one line, empty or ending with a byte that is neither whitespace nor a
    backslash, not quoted, and with no backslash right after its leading
    whitespace. *)
Definition storable_value (v : cstring) : bool :=
  negb (bool_decide (LF ∈ v))
  && negb (bool_decide (first_nonws v = Some BSLASH))
  && negb (quoted v)
  && match last v with
     | Some c => negb (bool_decide (c ∈ WS)) && negb (bool_decide (c = BSLASH))
     | None => true
     end.

(** A bare key and the brace that opens its block, for each prefix *)
Definition open_blocks (ps : list cstring) : list cstring :=
  flat_map (fun p => [p; list_ascii_of_string "{"]) ps.

(** * Properties of the embedding *)

(** ** Searching *)

Section Searching.
Variable set : cstring.

Lemma find_first_not_of_None str :
  find_first_not_of str set = None <-> Forall (fun c => c ∈ set) str.
Proof.
  induction str as [|c s IH]; simpl.
  - split; [constructor | done].
  - case_bool_decide as Hc.
    + destruct (find_first_not_of s set) eqn:E; simpl.
      * split; [done |]. intros H. inversion H; subst.
        destruct IH as [_ IH]. by specialize (IH ltac:(done)).
      * split; [| done]. intros _. constructor; [done | by apply IH].
    + split; [done |]. intros H. by inversion H.
Qed.

Lemma find_first_not_of_Some str i :
  find_first_not_of str set = Some i ->
  Forall (fun c => c ∈ set) (take i str)
  /\ exists c, str !! i = Some c /\ c ∉ set.
Proof.
  revert i. induction str as [|c s IH]; intros i; simpl; [done |].
  case_bool_decide as Hc.
  - destruct (find_first_not_of s set) as [j|] eqn:E; simpl; [| done].
    intros [= <-]. destruct (IH j eq_refl) as [Hall Hex].
    split; [by constructor | done].
  - intros [= <-]. split; [constructor | by exists c].
Qed.

Lemma find_first_not_of_app l c r :
  Forall (fun c => c ∈ set) l -> c ∉ set ->
  find_first_not_of (l ++ c :: r) set = Some (length l).
Proof.
  intros Hl Hc. induction Hl as [|x l Hx Hl IH]; simpl.
  - by rewrite bool_decide_eq_false_2.
  - by rewrite bool_decide_eq_true_2, IH.
Qed.

Lemma find_last_not_of_None str :
  find_last_not_of str set = None <-> Forall (fun c => c ∈ set) str.
Proof.
  induction str as [|c s IH]; simpl.
  - split; [constructor | done].
  - destruct (find_last_not_of s set) eqn:E.
    + split; [done |]. intros H. inversion H; subst.
      destruct IH as [_ IH]. by specialize (IH ltac:(done)).
    + case_bool_decide as Hc.
      * split; [| done]. intros _. constructor; [done | by apply IH].
      * split; [done |]. intros H. by inversion H.
Qed.

Lemma find_last_not_of_Some str i :
  find_last_not_of str set = Some i ->
  Forall (fun c => c ∈ set) (drop (S i) str)
  /\ exists c, str !! i = Some c /\ c ∉ set.
Proof.
  revert i. induction str as [|c s IH]; intros i; simpl; [done |].
  destruct (find_last_not_of s set) as [j|] eqn:E.
  - intros [= <-]. by apply IH.
  - case_bool_decide as Hc; [done |]. intros [= <-]. split.
    + simpl. rewrite drop_0. by apply find_last_not_of_None.
    + by exists c.
Qed.

Lemma find_last_not_of_app l c r :
  c ∉ set -> Forall (fun c => c ∈ set) r ->
  find_last_not_of (l ++ c :: r) set = Some (length l).
Proof.
  intros Hc Hr. induction l as [|x l IH]; simpl.
  - apply find_last_not_of_None in Hr. rewrite Hr.
    by rewrite bool_decide_eq_false_2.
  - by rewrite IH.
Qed.

Lemma find_first_of_Some str i :
  find_first_of str set = Some i ->
  Forall (fun c => c ∉ set) (take i str)
  /\ exists c, str !! i = Some c /\ c ∈ set.
Proof.
  revert i. induction str as [|c s IH]; intros i; simpl; [done |].
  case_bool_decide as Hc.
  - intros [= <-]. split; [constructor | by exists c].
  - destruct (find_first_of s set) as [j|] eqn:E; simpl; [| done].
    intros [= <-]. destruct (IH j eq_refl) as [Hall Hex].
    split; [by constructor | done].
Qed.

End Searching.

(** ** Trimming *)

Lemma has_nonws_true str :
  has_nonws str = true <-> exists i, find_first_not_of str WS = Some i.
Proof. unfold has_nonws. rewrite bool_decide_eq_true. done. Qed.

Lemma trimleft_spec str t i :
  find_first_not_of str WS = Some i ->
  trimleft str t = (drop i str, take i str).
Proof. intros H. unfold trimleft, substr_from, substr. by rewrite H, drop_0. Qed.

Lemma trimright2_spec str t i :
  find_last_not_of str WS = Some i ->
  trimright2 str t = (take (S i) str, drop (S i) str).
Proof.
  intros H. unfold trimright2, substr_from, substr.
  by rewrite H, drop_0, Nat.add_1_r.
Qed.

(** A string with a byte that is not whitespace splits into the whitespace
    trimmed off on the left, the trimmed text, which starts and ends with a
    byte that is not whitespace, and the whitespace trimmed off on the right. *)
Lemma trim3_decompose str a b :
  has_nonws str = true ->
  exists core l r c1 c2,
    trim3 str a b = (core, l, r)
    /\ str = l ++ core ++ r
    /\ head core = Some c1 /\ (c1 ∉ WS)
    /\ last core = Some c2 /\ (c2 ∉ WS)
    /\ Forall (fun c => c ∈ WS) l /\ Forall (fun c => c ∈ WS) r.
Proof.
  intros [i Hi]%has_nonws_true.
  destruct (find_first_not_of_Some _ _ _ Hi) as [Hl (c1 & Hc1 & Hn1)].
  destruct (find_last_not_of (drop i str) WS) as [j|] eqn:Hj.
  2:{ apply find_last_not_of_None in Hj.
      assert (c1 ∈ drop i str) as Hin.
      { apply list_elem_of_lookup. exists 0. by rewrite lookup_drop, Nat.add_0_r. }
      rewrite Forall_forall in Hj. by specialize (Hj _ Hin). }
  destruct (find_last_not_of_Some _ _ _ Hj) as [Hr (c2 & Hc2 & Hn2)].
  exists (take (S j) (drop i str)), (take i str), (drop (S j) (drop i str)), c1, c2.
  unfold trim3. rewrite (trimleft_spec _ _ _ Hi), (trimright2_spec _ _ _ Hj).
  repeat split; try done.
  - by rewrite !take_drop.
  - rewrite head_lookup, lookup_take_lt by lia.
    by rewrite lookup_drop, Nat.add_0_r.
  - rewrite last_lookup.
    assert (j < length (drop i str)) by (by eapply lookup_lt_Some).
    rewrite length_take, Nat.min_l by lia. simpl.
    by rewrite lookup_take_lt by lia.
Qed.

Lemma trim3_all_ws str a b :
  has_nonws str = false -> trim3 str a b = ([], a, b).
Proof.
  unfold has_nonws. rewrite bool_decide_eq_false. intros H.
  unfold trim3, trimleft. destruct (find_first_not_of str WS); [by destruct H |].
  done.
Qed.

Lemma trim3_trim str a b : (trim3 str a b).1.1 = trim str.
Proof.
  unfold trim, trim3, trimleft, trimright2.
  destruct (find_first_not_of str WS); simpl;
    [by destruct (find_last_not_of _ WS) | done].
Qed.

Lemma isspace_WS c : isspace c = bool_decide (c ∈ WS).
Proof.
  unfold isspace, WS. apply bool_decide_ext.
  rewrite !elem_of_cons, !elem_of_nil. tauto.
Qed.

Lemma isEmptyLine_has_nonws str : isEmptyLine str = negb (has_nonws str).
Proof.
  unfold isEmptyLine, has_nonws.
  destruct (find_first_not_of str WS) as [i|] eqn:E.
  - rewrite bool_decide_eq_true_2 by eauto. simpl.
    apply find_first_not_of_Some in E as [_ (c & Hc & Hn)].
    apply not_true_is_false. intros H. rewrite forallb_forall in H.
    specialize (H c). rewrite isspace_WS, bool_decide_eq_true in H.
    apply Hn, H. apply list_elem_of_In. by eapply list_elem_of_lookup_2.
  - rewrite bool_decide_eq_false_2 by (by intros [? ?]). simpl.
    apply find_first_not_of_None in E. apply forallb_forall. intros c Hc.
    rewrite isspace_WS, bool_decide_eq_true.
    rewrite Forall_forall in E. apply E. by apply list_elem_of_In.
Qed.

Lemma first_nonws_Some str c :
  first_nonws str = Some c -> has_nonws str = true /\ c ∉ WS.
Proof.
  unfold first_nonws, has_nonws.
  destruct (find_first_not_of str WS) as [i|] eqn:E; [| done].
  intros H. split; [by apply bool_decide_eq_true_2; eauto |].
  apply find_first_not_of_Some in E as [_ (c' & Hc' & Hn)]. congruence.
Qed.

(** The first byte that is not whitespace is the first byte of the trimmed
    string. *)
Lemma first_nonws_trim str : first_nonws str = head (trim str).
Proof.
  unfold first_nonws. destruct (has_nonws str) eqn:E.
  - destruct (trim3_decompose str [] [] E)
      as (core & l & r & c1 & c2 & H1 & H2 & H3 & H4 & _ & _ & Hl & _).
    unfold trim. rewrite H1. simpl. rewrite H3.
    destruct core as [|x core]; [done |]. simpl in H3. injection H3 as ->.
    rewrite H2. cbn [app].
    rewrite (find_first_not_of_app WS l c1 (core ++ r)) by done.
    by apply list_lookup_middle.
  - unfold trim. rewrite trim3_all_ws by done. simpl.
    unfold has_nonws in E. rewrite bool_decide_eq_false in E.
    destruct (find_first_not_of str WS); [destruct E; eauto | done].
Qed.

Lemma last_nonws_find str c :
  last str = Some c -> c ∉ WS ->
  find_last_not_of str WS = Some (length str - 1).
Proof.
  intros Hl Hc. apply last_Some in Hl as [l' ->].
  rewrite find_last_not_of_app by (done || constructor).
  rewrite length_app. simpl. f_equal. lia.
Qed.

Lemma endswith_last str c ch :
  last str = Some c -> c ∉ WS -> endswith str ch = bool_decide (c = ch).
Proof.
  intros Hl Hc. unfold endswith. rewrite (last_nonws_find _ _ Hl Hc).
  rewrite last_lookup in Hl.
  replace (length str - 1) with (pred (length str)) by lia. rewrite Hl.
  apply bool_decide_ext. split; congruence.
Qed.

Lemma endswith_nil ch : endswith [] ch = false.
Proof. done. Qed.

Lemma unescape_id str : head str ≠ Some BSLASH -> unescape str = str.
Proof.
  intros H. unfold unescape. rewrite (bool_decide_eq_false_2 _ H).
  by rewrite andb_false_r.
Qed.

Lemma unquote_id str : quoted str = false -> unquote str = str.
Proof. unfold quoted, unquote. by intros ->. Qed.

Lemma replaceAll_id str c to :
  c ∉ str -> replaceAll str [c] to = str.
Proof.
  unfold replaceAll. induction str as [|x s IH]; intros Hc; simpl; [done |].
  apply not_elem_of_cons in Hc as [Hx Hs].
  rewrite bool_decide_eq_false_2.
  - by rewrite IH.
  - intros [k Hk]. simpl in Hk. congruence.
Qed.

Lemma escape_id str c :
  head str = Some c -> c ∉ WS -> LF ∉ str -> escape str = str.
Proof.
  intros Hh Hc Hlf. destruct str as [|x s]; [done |]. injection Hh as ->.
  unfold escape. simpl. rewrite bool_decide_eq_false_2 by done. simpl.
  unfold substr_from. simpl. by apply replaceAll_id.
Qed.

Lemma escape_nil : escape [] = [].
Proof. done. Qed.

(** ** Streams and lines *)


Lemma getlines_cons_other c s :
  c ≠ LF ->
  getlines (c :: s)
  = match getlines s with [] => [[c]] | l :: ls => (c :: l) :: ls end.
Proof. intros H. simpl. by rewrite bool_decide_eq_false_2. Qed.


Lemma getlines_line l rest :
  LF ∉ l -> getlines (l ++ LF :: rest) = l :: getlines rest.
Proof.
  induction l as [|c l IH]; intros Hl; [done |].
  apply not_elem_of_cons in Hl as [Hc Hl].
  rewrite <- app_comm_cons, getlines_cons_other by done. by rewrite IH.
Qed.

Lemma getlines_unlines ls :
  Forall (fun l => LF ∉ l) ls -> getlines (unlines ls) = ls.
Proof.
  unfold unlines. induction 1 as [|l ls Hl _ IH]; [done |].
  cbn [flat_map]. rewrite <- app_assoc. cbn [app].
  by rewrite getlines_line, IH.
Qed.


Lemma unlines_app l1 l2 : unlines (l1 ++ l2) = unlines l1 ++ unlines l2.
Proof. unfold unlines. apply flat_map_app. Qed.

(** ** Template expansion *)

Ltac not_ws := apply (bool_decide_unpack _); vm_compute; exact I.

Lemma preprocess_lines_app st l1 l2 :
  preprocess_lines st (l1 ++ l2)
  = match preprocess_lines st l1 with
    | inl e => inl e
    | inr st' => preprocess_lines st' l2
    end.
Proof.
  revert st. induction l1 as [|ln l1 IH]; intros st; simpl; [done |].
  destruct (preprocess_line st ln); [done | apply IH].
Qed.

Lemma substr_inner (c1 c2 : ascii) (name : cstring) :
  substr (c1 :: name ++ [c2]) 1 (length (c1 :: name ++ [c2]) - 2) = name.
Proof.
  unfold substr.
  replace (length (c1 :: name ++ [c2]) - 2) with (length name)
    by (cbn [length]; rewrite length_app; simpl; lia).
  cbn [drop]. rewrite drop_0. by rewrite take_app_length.
Qed.

(** Inside a definition every line is captured as it is, up to the first
    line that [isTemplateEnd] accepts. *)
Lemma preprocess_lines_capture st name acc body closer rest :
  capturing st = Some (name, acc) ->
  Forall (fun l => isTemplateEnd l = false) body ->
  isTemplateEnd closer = true ->
  preprocess_lines st (body ++ closer :: rest)
  = preprocess_lines
      {| os := os st; vars := <[name := acc ++ body]> (vars st);
         capturing := None |} rest.
Proof.
  intros Hc Hbody Hend. revert st acc Hc.
  induction Hbody as [|ln body Hln _ IH]; intros st acc Hc.
  - simpl. unfold preprocess_line. by rewrite Hc, Hend, app_nil_r.
  - simpl. unfold preprocess_line at 1. rewrite Hc, Hln.
    rewrite (IH _ (acc ++ [ln])) by done. simpl. by rewrite <- app_assoc.
Qed.

Lemma isTemplateEnd_trim str rest :
  trim str = "<"%char :: "/"%char :: rest -> isTemplateEnd str = true.
Proof.
  intros Ht. destruct (has_nonws str) eqn:E.
  2:{ unfold trim in Ht. by rewrite trim3_all_ws in Ht. }
  destruct (trim3_decompose str [] [] E)
    as (core & l & r & c1 & c2 & H1 & H2 & _ & _ & _ & _ & Hl & _).
  unfold trim in Ht. rewrite H1 in Ht. simpl in Ht. subst core.
  unfold isTemplateEnd. rewrite H2. simpl.
  rewrite find_first_not_of_app by (done || not_ws).
  rewrite !andb_true_iff, !bool_decide_eq_true. repeat split.
  - by apply list_lookup_middle.
  - rewrite length_app. simpl. lia.
  - rewrite lookup_app_r by lia.
    by replace (length l + 1 - length l) with 1 by lia.
Qed.

Lemma head_trim_isTemplateStart str c :
  head (trim str) = Some c ->
  isTemplateStart str = bool_decide (c = "<"%char)
  /\ isTemplateVariable str = bool_decide (c = "%"%char).
Proof.
  intros H. unfold isTemplateStart, isTemplateVariable.
  rewrite first_nonws_trim, H. split; apply bool_decide_ext; naive_solver.
Qed.

(** C5.  A [%name%] line that the template pass reaches outside a definition
    while [name] has no definition makes [parse] throw the runtime error
    "Template variable is not defined: name"; the exception leaves
    [preprocess] before [parse] has touched [lines] or [props], so the
    object is the one [parse] was called on. *)
Theorem parse_undefined_template_throws
    (d : Properties) (stream : cstring) (pre post : list cstring)
    (ref name : cstring) (st : PreState) :
  getlines stream = pre ++ ref :: post ->
  preprocess_lines pre_init pre = inr st ->
  capturing st = None ->
  trim ref = "%"%char :: name ++ "%" ->
  name ≠ [] ->
  vars st !! name = None ->
  parse d stream = Thrown (UndefinedTemplate name) d
  /\ after (parse d stream) = d.
Proof.
  intros Hls Hpre Hcap Href Hname Hvars.
  assert (preprocess stream = inl (UndefinedTemplate name)) as Hp.
  { unfold preprocess. rewrite Hls, preprocess_lines_app, Hpre. simpl.
    unfold preprocess_line. rewrite Hcap.
    destruct (head_trim_isTemplateStart ref "%"%char) as [-> ->];
      [by rewrite Href |].
    rewrite bool_decide_eq_false_2 by discriminate.
    rewrite bool_decide_eq_true_2 by done.
    rewrite Href.
    change (list_ascii_of_string "%") with ["%"%char].
    rewrite substr_inner, Hvars.
    rewrite bool_decide_eq_false_2; [done |].
    destruct name; [done |]. simpl. rewrite length_app. simpl. lia. }
  unfold parse. by rewrite Hp.
Qed.

Lemma parse_undefined_template_throws_witness :
  let d := (put empty_doc "k" "v").1 in
  let stream :=
    unlines (cstrings ["<t>"; "x = 2"; "</t>"; "%t%"; "  %nope%  "; "b = 2"]) in
  parse d stream = Thrown (UndefinedTemplate "nope") d
  /\ after (parse d stream) = d.
Proof.
  eapply (parse_undefined_template_throws _ _
            (cstrings ["<t>"; "x = 2"; "</t>"; "%t%"]) (cstrings ["b = 2"])
            "  %nope%  " "nope").
  - vm_compute. reflexivity.
  - vm_compute. reflexivity.
  - reflexivity.
  - vm_compute. reflexivity.
  - discriminate.
  - vm_compute. reflexivity.
Defined.

(** C6, as the code has it.  A definition opened by [<name>] captures the
    following lines as they are up to the first line that [isTemplateEnd]
    accepts, that is, whose first bytes after the leading whitespace are
    [</]: that line ends the definition whatever follows the two bytes, be
    it the same name, another name or nothing, and the lines before it are
    stored under [name]. *)
Theorem template_block_ends_at_first_close_tag
    (st : PreState) (start closer name : cstring)
    (body rest : list cstring) :
  capturing st = None ->
  trim start = "<"%char :: name ++ ">" ->
  name ≠ [] ->
  Forall (fun l => isTemplateEnd l = false) body ->
  isTemplateEnd closer = true ->
  preprocess_lines st (start :: body ++ closer :: rest)
  = preprocess_lines
      {| os := os st; vars := <[name := body]> (vars st); capturing := None |}
      rest.
Proof.
  intros Hcap Hstart Hname Hbody Hcloser.
  cbn [preprocess_lines]. unfold preprocess_line at 1. rewrite Hcap.
  destruct (head_trim_isTemplateStart start "<"%char) as [-> _];
    [by rewrite Hstart |].
  rewrite bool_decide_eq_true_2 by done. rewrite Hstart.
  change (list_ascii_of_string ">") with [">"%char].
  rewrite substr_inner.
  rewrite bool_decide_eq_false_2.
  2:{ destruct name; [done |]. simpl. rewrite length_app. simpl. lia. }
  by rewrite (preprocess_lines_capture _ name [] body closer rest).
Qed.

Lemma template_block_ends_at_first_close_tag_witness :
  preprocess_lines pre_init
    (cstrings ["<a>"; "x = 1"; "y = 2"; "  </b c"; "z = 3"])
  = preprocess_lines
      {| os := []; vars := <["a" : cstring := cstrings ["x = 1"; "y = 2"]]> ∅;
         capturing := None |}
      (cstrings ["z = 3"]).
Proof.
  apply (template_block_ends_at_first_close_tag pre_init
           "<a>" "  </b c" "a" (cstrings ["x = 1"; "y = 2"])
           (cstrings ["z = 3"])).
  - reflexivity.
  - vm_compute. reflexivity.
  - discriminate.
  - repeat constructor.
  - vm_compute. reflexivity.
Defined.

(** C6, as stated, fails: after [<a>], [x = 1], [</b>] the definition of [a]
    is closed, although [</b>] is not the close tag of [a]. *)
Lemma template_block_closed_by_other_name :
  isCloseTagOf "a" "</b>" = false
  /\ preprocess_lines pre_init mismatched_close_lines
     = inr {| os := [];
              vars := <["a" : cstring := cstrings ["x = 1"]]> ∅;
              capturing := None |}
  /\ ~ (exists st captured,
          preprocess_lines pre_init mismatched_close_lines = inr st
          /\ capturing st = Some ("a" : cstring, captured)).
Proof.
  split; [reflexivity |]. split; [vm_compute; reflexivity |].
  intros (st & captured & H1 & H2). vm_compute in H1.
  injection H1 as <-. discriminate.
Qed.

(** ** The scanner *)

Lemma parse_lines_app st l1 l2 :
  parse_lines st (l1 ++ l2) = parse_lines (parse_lines st l1) l2.
Proof. apply fold_left_app. Qed.

Lemma props_insert_lookup_old k p m k' p' :
  m !! k' = Some p' -> props_insert k p m !! k' = Some p'.
Proof.
  intros H. unfold props_insert. destruct (m !! k) eqn:E; [done |].
  rewrite lookup_insert_ne; [done |]. intros ->. congruence.
Qed.

Lemma props_insert_lookup_new k p m :
  m !! k = None -> props_insert k p m !! k = Some p.
Proof. intros H. unfold props_insert. by rewrite H, lookup_insert_eq. Qed.

Lemma props_insert_is_Some k p m : is_Some (props_insert k p m !! k).
Proof.
  unfold props_insert. destruct (m !! k) eqn:E; [by rewrite E |].
  by rewrite lookup_insert_eq.
Qed.

(** What one [getline] of [parse] does to the object: the entry it appends
    and the property it inserts, if any. *)
Lemma parse_line_effect st ln :
  exists entry,
    lines (doc (parse_line st ln)) = lines (doc st) ++ [entry]
    /\ line entry = ln
    /\ (props (doc (parse_line st ln)) = props (doc st)
        \/ exists p, props (doc (parse_line st ln))
                     = props_insert (pkey p) p (props (doc st))).
Proof.
  assert (forall stack, line (scan_property stack ln).1.1 = ln) as Hscan.
  { intros stack. unfold scan_property. destruct (find_first_of ln "=").
    - destruct (trim3 _ _ _) as [[? ?] ?].
      by destruct (trim3 _ _ _) as [[? ?] ?].
    - by destruct (trim3 _ _ _) as [[? ?] ?]. }
  unfold parse_line.
  repeat match goal with
         | |- context [match ?x with _ => _ end] =>
             lazymatch x with
             | scan_property ?stack ln =>
                 specialize (Hscan stack);
                 destruct x as [[? ?] ?]; simpl in Hscan
             | _ => destruct x
             end
         end;
    eexists; (split; [reflexivity |]); (split; [done |]);
    first [by left | right; eexists; reflexivity].
Qed.

Lemma parse_line_props_mono st ln k p :
  props (doc st) !! k = Some p ->
  props (doc (parse_line st ln)) !! k = Some p.
Proof.
  intros H. destruct (parse_line_effect st ln) as (e & _ & _ & [-> | [q ->]]);
    [done | by apply props_insert_lookup_old].
Qed.

Lemma parse_lines_props_mono st ls k p :
  props (doc st) !! k = Some p ->
  props (doc (parse_lines st ls)) !! k = Some p.
Proof.
  revert st. induction ls as [|ln ls IH]; intros st H; [done |].
  simpl. apply IH. by apply parse_line_props_mono.
Qed.

Lemma parse_end_props_mono st k p :
  props (doc st) !! k = Some p -> props (parse_end st) !! k = Some p.
Proof.
  intros H. unfold parse_end. destruct (pending st); [| done].
  simpl. by apply props_insert_lookup_old.
Qed.

(** A Property that is in the table stays in it, unchanged, to the end of
    [parse]. *)
Create HintDb cxxprops.
#[local] Hint Resolve props_insert_lookup_old props_insert_is_Some
  parse_line_props_mono parse_lines_props_mono parse_end_props_mono
  : cxxprops.

Lemma parse_end_lines st : lines (parse_end st) = lines (doc st).
Proof. unfold parse_end. by destruct (pending st). Qed.

Lemma parse_lines_prefix st ls :
  lines (doc st) `prefix_of` lines (doc (parse_lines st ls)).
Proof.
  revert st. induction ls as [|ln ls IH]; intros st; [done |].
  simpl. etrans; [| apply IH].
  destruct (parse_line_effect st ln) as (e & -> & _). by apply prefix_app_r.
Qed.

(** Every line read becomes one entry, in order. *)
Lemma parse_lines_lines st ls :
  line <$> lines (doc (parse_lines st ls)) = (line <$> lines (doc st)) ++ ls.
Proof.
  revert st. induction ls as [|ln ls IH]; intros st; simpl.
  - by rewrite app_nil_r.
  - change (fold_left parse_line ls (parse_line st ln))
      with (parse_lines (parse_line st ln) ls). rewrite IH.
    destruct (parse_line_effect st ln) as (e & -> & <- & _).
    by rewrite fmap_app, <- app_assoc.
Qed.

Ltac classify_cases ln :=
  unfold classify;
  destruct (isComment ln); [done |];
  destruct (isEmptyLine ln); [done |];
  destruct (isBlockStart ln); [done |];
  by destruct (isBlockEnd ln).

Lemma classify_Property ln :
  classify ln = Property ->
  isComment ln = false /\ isEmptyLine ln = false
  /\ isBlockStart ln = false /\ isBlockEnd ln = false.
Proof. classify_cases ln. Qed.

Lemma classify_Comment ln : classify ln = Comment -> isComment ln = true.
Proof. classify_cases ln. Qed.

Lemma classify_BlockStart ln :
  classify ln = BlockStart ->
  isComment ln = false /\ isEmptyLine ln = false /\ isBlockStart ln = true.
Proof. classify_cases ln. Qed.

Lemma classify_BlockEnd ln :
  classify ln = BlockEnd ->
  isComment ln = false /\ isEmptyLine ln = false
  /\ isBlockStart ln = false /\ isBlockEnd ln = true.
Proof. classify_cases ln. Qed.

(** The entry and the property that the [Property] branch builds carry the
    qualified key of the line. *)
Lemma scan_property_key stack ln :
  let '(entry, _, prop) := scan_property stack ln in
  key entry = prependPrefix stack (line_key ln)
  /\ pkey prop = prependPrefix stack (line_key ln)
  /\ bareKey entry = line_key ln
  /\ line entry = ln /\ linetype entry = Property
  /\ value prop = unescape (line_value ln) /\ modified prop = false.
Proof.
  unfold scan_property, line_key, line_value.
  destruct (find_first_of ln "=") as [pos|].
  - pose proof (trim3_trim (substr ln 0 pos) "" " ") as Hk.
    pose proof (trim3_trim (substr_from ln (pos + 1)) " " "") as Hv.
    destruct (trim3 (substr ln 0 pos) _ _) as [[k bk] ak].
    destruct (trim3 (substr_from ln (pos + 1)) _ _) as [[v bv] av].
    simpl in *. by subst.
  - pose proof (trim3_trim ln "" " ") as Hk.
    destruct (trim3 ln _ _) as [[k bk] ak]. simpl in *. by subst.
Qed.

(** The outer loop on a property line *)
Lemma parse_line_property st ln :
  pending st = None -> classify ln = Property ->
  let '(entry, prefix', prop) := scan_property (prefixStack (doc st)) ln in
  parse_line st ln
  = if isMultiLine (value prop) then
      {| doc := push_line (doc st) entry; prefix := prefix';
         pending :=
           Some (with_value prop (unquote (trimright (pop_back (value prop))))) |}
    else
      {| doc := insert_prop (push_line (doc st) entry)
                  (with_value prop (unquote (value prop)));
         prefix := prefix'; pending := None |}.
Proof.
  intros Hp (H1 & H2 & H3 & H4)%classify_Property.
  unfold parse_line. rewrite Hp, H1, H2, H3, H4.
  by destruct (scan_property _ ln) as [[entry prefix'] prop].
Qed.

Lemma parse_Returned d stream buf :
  preprocess stream = inr buf ->
  parse d stream
  = Returned (parse_end (parse_lines (parse_init d) (getlines buf))).
Proof. intros H. unfold parse. by rewrite H. Qed.

(** C2, as the code has it.  [props.insert] does not overwrite: when the
    outer loop reads a property line whose qualified key [k] already has a
    Property, that Property is the one [get] returns after [parse]; when [k]
    has none and the value stays on one line, the Property of this line is
    the one after [parse], whatever follows.  Either way the entry of the
    line stays in [lines], behind the entries that were there, and [lines]
    has one entry per line read, in the order read. *)
Theorem parse_keeps_first_occurrence
    (d : Properties) (stream buf : cstring) (ls1 ls2 : list cstring)
    (ln k : cstring) :
  preprocess stream = inr buf ->
  getlines buf = ls1 ++ ln :: ls2 ->
  pending (parse_lines (parse_init d) ls1) = None ->
  classify ln = Property ->
  k = prependPrefix (prefixStack (doc (parse_lines (parse_init d) ls1)))
        (line_key ln) ->
  let st1 := parse_lines (parse_init d) ls1 in
  let d' := after (parse d stream) in
  match props (doc st1) !! k with
  | Some old => props d' !! k = Some old /\ get d' k = value old
  | None =>
      isMultiLine (unescape (line_value ln)) = false ->
      get d' k = unquote (unescape (line_value ln))
  end
  /\ (exists entry, entry ∈ lines d' /\ line entry = ln /\ key entry = k
                    /\ linetype entry = Property)
  /\ lines (doc st1) `prefix_of` lines d'
  /\ line <$> lines d' = (line <$> lines d) ++ ls1 ++ ln :: ls2.
Proof.
  intros Hpre Hls Hpend Hcls Hk st1 d'.
  assert (d' = parse_end (parse_lines (parse_line st1 ln) ls2)) as Hd'.
  { unfold d'. rewrite (parse_Returned _ _ _ Hpre), Hls. simpl.
    by rewrite parse_lines_app. }
  pose proof (parse_line_property st1 ln Hpend Hcls) as Hstep.
  pose proof (scan_property_key (prefixStack (doc st1)) ln) as Hscan.
  destruct (scan_property (prefixStack (doc st1)) ln)
    as [[entry prefix'] prop].
  destruct Hscan as (Hke & Hkp & _ & Hle & Hte & Hv & _).
  fold st1 in Hk. rewrite <- Hk in Hke, Hkp.
  assert (lines (doc (parse_line st1 ln)) = lines (doc st1) ++ [entry]) as Hl.
  { rewrite Hstep. by destruct (isMultiLine (value prop)). }
  assert (lines (doc (parse_line st1 ln)) `prefix_of` lines d') as Hpref.
  { rewrite Hd', parse_end_lines. apply parse_lines_prefix. }
  split; [| split; [| split]].
  - destruct (props (doc st1) !! k) as [old|] eqn:Hold.
    + assert (props d' !! k = Some old) as H.
      { rewrite Hd'. eauto with cxxprops. }
      split; [done |]. unfold get. by rewrite H.
    + intros Hml. rewrite <- Hv in Hml.
      assert (props d' !! k
              = Some (with_value prop (unquote (value prop)))) as H.
      { rewrite Hd'. apply parse_end_props_mono, parse_lines_props_mono.
        rewrite Hstep, Hml. simpl. rewrite Hkp.
        by apply props_insert_lookup_new. }
      unfold get. rewrite H. simpl. by rewrite Hv.
  - exists entry. split; [| done].
    rewrite Hl in Hpref. destruct Hpref as [tl ->].
    rewrite !elem_of_app, list_elem_of_singleton. auto.
  - etrans; [| exact Hpref]. rewrite Hl. by apply prefix_app_r.
  - rewrite Hd', parse_end_lines, parse_lines_lines.
    destruct (parse_line_effect st1 ln) as (e & -> & <- & _).
    unfold st1. rewrite fmap_app, parse_lines_lines. simpl.
    by rewrite <- !app_assoc.
Qed.

Lemma parse_keeps_first_occurrence_witness :
  let d' := after (parse empty_doc duplicate_input) in
  (props d' !! ("a" : cstring)
   = Some {| pkey := "a"; value := "1"; modified := false |}
   /\ get d' "a" = "1")
  /\ (exists entry, entry ∈ lines d' /\ line entry = "a = 2" /\ key entry = "a"
                    /\ linetype entry = Property)
  /\ lines (doc (parse_lines (parse_init empty_doc) (cstrings ["a = 1"])))
       `prefix_of` lines d'
  /\ line <$> lines d' = cstrings ["a = 1"; "a = 2"].
Proof.
  apply (parse_keeps_first_occurrence empty_doc duplicate_input
           duplicate_input (cstrings ["a = 1"]) [] "a = 2" "a").
  - vm_compute. reflexivity.
  - vm_compute. reflexivity.
  - vm_compute. reflexivity.
  - vm_compute. reflexivity.
  - vm_compute. reflexivity.
Defined.

(** C2, as stated, fails: the key [a] is given the values 1 and then 2, and
    [get] returns 1 after [parse]. *)
Lemma duplicate_key_last_occurrence_loses :
  get (after (parse empty_doc duplicate_input)) "a" = "1"
  /\ get (after (parse empty_doc duplicate_input)) "a" ≠ "2".
Proof. split; [vm_compute; reflexivity | vm_compute; discriminate]. Qed.

Lemma trim_nonempty str : has_nonws str = true -> trim str ≠ [].
Proof.
  intros E. destruct (trim3_decompose str [] [] E)
    as (core & l & r & c1 & c2 & H1 & _ & H3 & _).
  unfold trim. rewrite H1. simpl. by destruct core.
Qed.

Lemma scan_property_bare stack ln :
  find_first_of ln "=" = None ->
  exists entry,
    scan_property stack ln
    = (entry, trim ln,
       {| pkey := prependPrefix stack (trim ln); value := [];
          modified := false |})
    /\ key entry = prependPrefix stack (trim ln)
    /\ bareKey entry = trim ln
    /\ lacksAssignment entry = true.
Proof.
  intros H. unfold scan_property. rewrite H.
  pose proof (trim3_trim ln "" " ") as Hk.
  destruct (trim3 ln _ _) as [[k bk] ak]. simpl in *. subst k.
  by eexists.
Qed.

(** C10, as the code has it.  A bare key line read by the outer loop and
    followed by a line that opens a block is inserted under its qualified
    key with the empty value before the block is opened: after [parse] the
    key exists, [get] returns the empty string unless the key already had a
    Property when the line was read, which is then kept, and the block is
    opened under the bare key. *)
Theorem bare_key_before_block_is_a_property
    (d : Properties) (stream buf : cstring) (ls1 ls2 : list cstring)
    (bare brace : cstring) :
  preprocess stream = inr buf ->
  getlines buf = ls1 ++ bare :: brace :: ls2 ->
  pending (parse_lines (parse_init d) ls1) = None ->
  classify bare = Property ->
  find_first_of bare "=" = None ->
  classify brace = BlockStart ->
  let st1 := parse_lines (parse_init d) ls1 in
  let k := prependPrefix (prefixStack (doc st1)) (trim bare) in
  let d' := after (parse d stream) in
  hasKey d' k = true
  /\ (props (doc st1) !! k = None -> get d' k = [])
  /\ (forall old, props (doc st1) !! k = Some old -> get d' k = value old)
  /\ prefixStack (doc (parse_lines st1 [bare; brace]))
     = prefixStack (doc st1) ++ [trim bare].
Proof.
  intros Hpre Hls Hpend Hcls Hbare Hbrace st1 k d'.
  assert (d' = parse_end (parse_lines (parse_line st1 bare) (brace :: ls2)))
    as Hd'.
  { unfold d'. rewrite (parse_Returned _ _ _ Hpre), Hls. simpl.
    by rewrite parse_lines_app. }
  pose proof (parse_line_property st1 bare Hpend Hcls) as Hstep.
  destruct (scan_property_bare (prefixStack (doc st1)) bare Hbare)
    as (entry & Hscan & Hke & _).
  rewrite Hscan in Hstep. simpl in Hstep. fold k in Hstep.
  assert (forall p, props (doc (parse_line st1 bare)) !! k = Some p ->
                    props d' !! k = Some p) as Hmono.
  { intros p Hp. rewrite Hd'. eauto with cxxprops. }
  assert (is_Some (props (doc (parse_line st1 bare)) !! k)) as [p Hp].
  { rewrite Hstep. simpl. apply (props_insert_is_Some k). }
  split; [| split; [| split]].
  - unfold hasKey. rewrite (Hmono _ Hp). by apply bool_decide_eq_true_2.
  - intros Hnone. unfold get.
    rewrite (Hmono {| pkey := k; value := []; modified := false |});
      [done |].
    rewrite Hstep. simpl. by apply props_insert_lookup_new.
  - intros old Hold. unfold get. erewrite Hmono; [reflexivity |].
    by apply parse_line_props_mono.
  - destruct (classify_BlockStart _ Hbrace) as (H1 & H2 & H3).
    destruct (classify_Property _ Hcls) as (_ & Hne & _).
    simpl. rewrite Hstep. unfold parse_line at 1. simpl.
    rewrite H1, H2, H3. rewrite bool_decide_eq_false_2; [done |].
    apply trim_nonempty. rewrite isEmptyLine_has_nonws in Hne.
    by destruct (has_nonws bare).
Qed.

Lemma bare_key_before_block_is_a_property_witness :
  let stream := unlines (cstrings ["outer"; "{"; "server"; "{"; "port = 1"; "}"; "}"]) in
  let st1 := parse_lines (parse_init empty_doc) (cstrings ["outer"; "{"]) in
  let d' := after (parse empty_doc stream) in
  hasKey d' "outer.server" = true
  /\ (props (doc st1) !! ("outer.server" : cstring) = None
      -> get d' "outer.server" = [])
  /\ (forall old, props (doc st1) !! ("outer.server" : cstring) = Some old
                  -> get d' "outer.server" = value old)
  /\ prefixStack (doc (parse_lines st1 (cstrings ["server"; "{"])))
     = cstrings ["outer"; "server"].
Proof.
  apply (bare_key_before_block_is_a_property empty_doc
           (unlines (cstrings ["outer"; "{"; "server"; "{"; "port = 1"; "}"; "}"]))
           (unlines (cstrings ["outer"; "{"; "server"; "{"; "port = 1"; "}"; "}"]))
           (cstrings ["outer"; "{"]) (cstrings ["port = 1"; "}"; "}"])
           "server" "{").
  - vm_compute. reflexivity.
  - vm_compute. reflexivity.
  - vm_compute. reflexivity.
  - vm_compute. reflexivity.
  - vm_compute. reflexivity.
  - vm_compute. reflexivity.
Defined.

(** C10, as stated, fails: [server] is a bare key followed by a line that
    opens a block, and [get] returns x, the value the key was given two
    lines above. *)
Lemma bare_key_with_earlier_value :
  hasKey (after (parse empty_doc server_input)) "server" = true
  /\ get (after (parse empty_doc server_input)) "server" = "x"
  /\ get (after (parse empty_doc server_input)) "server" ≠ []
  /\ get (after (parse empty_doc server_input)) "server.port" = "1234".
Proof. repeat split; vm_compute; (reflexivity || discriminate). Qed.

(** ** The renderer *)

Lemma text_lines_app d pretty st l1 l2 :
  text_lines d pretty st (l1 ++ l2)
  = match text_lines d pretty st l1 with
    | inl e => inl e
    | inr st' => text_lines d pretty st' l2
    end.
Proof.
  revert st. induction l1 as [|e l1 IH]; intros st; simpl; [done |].
  destruct (text_line d pretty st e); [done | apply IH].
Qed.

(** [text] reads [props] only at the keys of the property entries. *)
Lemma text_line_props_ext d1 d2 pretty st e :
  (linetype e = Property -> props d1 !! key e = props d2 !! key e) ->
  text_line d1 pretty st e = text_line d2 pretty st e.
Proof.
  intros H. unfold text_line. destruct (linetype e); try done.
  by rewrite H.
Qed.

Lemma text_lines_props_ext d1 d2 pretty st ls :
  (forall e, e ∈ ls -> linetype e = Property ->
             props d1 !! key e = props d2 !! key e) ->
  text_lines d1 pretty st ls = text_lines d2 pretty st ls.
Proof.
  revert st. induction ls as [|e ls IH]; intros st H; simpl; [done |].
  rewrite (text_line_props_ext d1 d2) by (apply H; by left).
  destruct (text_line d2 pretty st e); [done |].
  apply IH. intros e' He'. apply H. by right.
Qed.

(** The entry that [put] appends is rendered as [key = escape(value)]. *)
Lemma text_line_put_line d st k v p :
  props d !! k = Some p -> value p = v ->
  text_line d false st (put_line k v)
  = inr {| ss := ss st ++ k ++ " = " ++ escape v ++ [LF];
           prev := Some (put_line k v); prefixDepth := prefixDepth st |}.
Proof.
  intros Hp Hv. unfold text_line. simpl. rewrite Hp, Hv. simpl.
  by rewrite <- !app_assoc.
Qed.

(** C7, as the code has it.  [put] on a key without a Property returns the
    empty string, appends the one entry [put_line key value] (a [Property]
    entry whose text is [key = value]) behind the entries that were there,
    inserts the Property with [modified] set, and changes no other Property;
    the new entry is rendered as [key = escape(value)] in original mode,
    after the text of the entries that were there when none of them refers
    to the key.  [put] on a key with a Property returns its value and
    replaces the value and the flag of that Property only; [lines] is not
    touched. *)
Theorem put_frame (d : Properties) (k v : cstring) :
  (props d !! k = None ->
   (put d k v).2 = []
   /\ lines (put d k v).1 = lines d ++ [put_line k v]
   /\ linetype (put_line k v) = Property
   /\ line (put_line k v) = k ++ " = " ++ v
   /\ props (put d k v).1
      = <[k := {| pkey := k; value := v; modified := true |}]> (props d)
   /\ (forall k', k' ≠ k -> props (put d k v).1 !! k' = props d !! k')
   /\ prefixStack (put d k v).1 = prefixStack d
   /\ ((forall e, e ∈ lines d -> linetype e = Property -> key e ≠ k) ->
       text (put d k v).1 false
       = match text d false with
         | inl e => inl e
         | inr s => inr (s ++ k ++ " = " ++ escape v ++ [LF])
         end))
  /\ (forall p, props d !! k = Some p ->
      (put d k v).2 = value p
      /\ lines (put d k v).1 = lines d
      /\ props (put d k v).1
         = <[k := {| pkey := pkey p; value := v; modified := true |}]> (props d)
      /\ (forall k', k' ≠ k -> props (put d k v).1 !! k' = props d !! k')
      /\ prefixStack (put d k v).1 = prefixStack d).
Proof.
  split.
  - intros Hnone. unfold put. rewrite Hnone. simpl.
    unfold props_insert. rewrite Hnone.
    repeat split.
    + intros k' Hk'. by rewrite lookup_insert_ne.
    + intros Hfresh. unfold text. simpl. rewrite text_lines_app.
      set (d' := {| props := _; lines := _ ++ _; prefixStack := _ |}).
      rewrite (text_lines_props_ext d' d).
      2:{ intros e He Ht. simpl. rewrite lookup_insert_ne; [done |].
          intros Heq. by apply (Hfresh e He Ht). }
      destruct (text_lines d false text_init (lines d)) as [e | st]; [done |].
      cbn [text_lines].
      rewrite (text_line_put_line d' st k v
                 {| pkey := k; value := v; modified := true |});
        [done | | done].
      simpl. by rewrite lookup_insert_eq.
  - intros p Hp. unfold put. rewrite Hp. simpl. repeat split.
    intros k' Hk'. by rewrite lookup_insert_ne.
Qed.

Lemma put_frame_witness :
  let d := after (parse empty_doc (unlines (cstrings ["a = 1"]))) in
  (put d "new.key" "v").2 = []
  /\ lines (put d "new.key" "v").1 = lines d ++ [put_line "new.key" "v"]
  /\ text (put d "new.key" "v").1 false
     = inr (unlines (cstrings ["a = 1"; "new.key = v"]))
  /\ (put d "a" "2").2 = "1"
  /\ lines (put d "a" "2").1 = lines d.
Proof.
  intros d.
  destruct (put_frame d "new.key" "v") as [Hnew _].
  destruct (put_frame d "a" "2") as [_ Hold].
  specialize (Hnew ltac:(vm_compute; reflexivity)).
  specialize (Hold {| pkey := "a"; value := "1"; modified := false |}
                ltac:(vm_compute; reflexivity)).
  destruct Hnew as (H1 & H2 & _ & _ & _ & _ & _ & H3).
  destruct Hold as (H4 & H5 & _).
  refine (conj H1 (conj H2 (conj _ (conj H4 H5)))).
  rewrite H3; [vm_compute; reflexivity |].
  intros e He _ Hk. vm_compute in He.
  apply list_elem_of_singleton in He. subst e. vm_compute in Hk. discriminate.
Defined.

(** C7, as stated, fails: the new entry is rendered as [key = value] only
    when [escape] leaves the value alone.  For a value that starts with
    whitespace or holds a newline the rendered line differs from
    [key = value]: [put] of [k] and the value [ v] on a fresh object is
    rendered as [k = \ v]. *)
Lemma put_value_is_rendered_escaped :
  let d := (put empty_doc "k" " v").1 in
  let d2 := (put empty_doc "k" ("a" ++ [LF] ++ "b")).1 in
  props empty_doc !! ("k" : cstring) = None
  /\ text d false = inr ("k = " ++ [BSLASH] ++ " v" ++ [LF])
  /\ text d false ≠ inr ("k = " ++ " v" ++ [LF])
  /\ text d2 false
     = inr ("k = a" ++ [BSLASH; LF] ++ "    b" ++ [LF])
  /\ text d2 false ≠ inr ("k = " ++ ("a" ++ [LF] ++ "b") ++ [LF]).
Proof.
  repeat split; try (vm_compute; reflexivity); vm_compute; discriminate.
Qed.

(** C8.  [getBool] returns the default for a key without a Property;
    otherwise it returns true exactly when the value is one of the strings
    true, 1, yes, compared byte for byte, and so false for no, 0, false and
    for every other string. *)
Theorem getBool_spec (d : Properties) (k : cstring) (defaultValue : bool) :
  (props d !! k = None -> getBool d k defaultValue = defaultValue)
  /\ (forall p, props d !! k = Some p ->
        (getBool d k defaultValue = true
         <-> value p = "true" \/ value p = "1" \/ value p = "yes")
        /\ (value p ≠ "true" -> value p ≠ "1" -> value p ≠ "yes" ->
            getBool d k defaultValue = false)).
Proof.
  unfold getBool, hasKey, get. split.
  - intros ->. rewrite bool_decide_eq_false_2; [done |]. by intros [? ?].
  - intros p ->. rewrite bool_decide_eq_true_2 by eauto.
    rewrite !orb_true_iff, !bool_decide_eq_true. split; [tauto |].
    intros H1 H2 H3. by rewrite !bool_decide_eq_false_2.
Qed.

Lemma getBool_spec_witness :
  let d := after (parse empty_doc
                    (unlines (cstrings ["x = yes"; "y = Yes"; "z = 0"]))) in
  getBool d "missing" true = true
  /\ getBool d "x" false = true
  /\ getBool d "y" true = false
  /\ getBool d "z" true = false.
Proof.
  intros d. split; [| split; [| split]].
  - apply (proj1 (getBool_spec d "missing" true)). vm_compute. reflexivity.
  - apply (proj2 (getBool_spec d "x" false)
             {| pkey := "x"; value := "yes"; modified := false |});
      [vm_compute; reflexivity | right; right; reflexivity].
  - apply (proj2 (getBool_spec d "y" true)
             {| pkey := "y"; value := "Yes"; modified := false |});
      [vm_compute; reflexivity | discriminate ..].
  - apply (proj2 (getBool_spec d "z" true)
             {| pkey := "z"; value := "0"; modified := false |});
      [vm_compute; reflexivity | discriminate ..].
Defined.

(** ** Round trip *)

Lemma find_first_of_split ln (c : ascii) pos :
  find_first_of ln [c] = Some pos ->
  ln = take pos ln ++ c :: drop (pos + 1) ln.
Proof.
  intros H. apply find_first_of_Some in H as [_ (c' & Hc' & Hin)].
  apply list_elem_of_singleton in Hin. subst c'.
  rewrite Nat.add_1_r. rewrite <- (take_drop_middle _ _ _ Hc') at 1. done.
Qed.

Lemma trim_all_ws str : has_nonws str = false -> trim str = [].
Proof. intros H. unfold trim. by rewrite trim3_all_ws. Qed.

(** The entry and the property built for a bare key *)
Lemma scan_property_bare_parts stack ln :
  find_first_of ln "=" = None -> has_nonws ln = true ->
  exists k bk ak,
    scan_property stack ln
    = ({| line := ln; linetype := Property;
          key := prependPrefix stack k; bareKey := k;
          beforeKey := bk; afterKey := ak;
          beforeValue := " "; afterValue := ""; lacksAssignment := true |},
       k, {| pkey := prependPrefix stack k; value := []; modified := false |})
    /\ ln = bk ++ k ++ ak /\ k = line_key ln.
Proof.
  intros H E. unfold scan_property, line_key. rewrite H.
  pose proof (trim3_trim ln "" " ") as Hk.
  destruct (trim3_decompose ln "" " " E)
    as (k & bk & ak & c1 & c2 & H1 & H2 & _).
  change (beforeKey (mkLine ln)) with (list_ascii_of_string "").
  change (afterKey (mkLine ln)) with (list_ascii_of_string " ").
  rewrite H1 in *. simpl in Hk. exists k, bk, ak. by subst.
Qed.

(** The entry and the property built for [key=value] when neither side is
    blank *)
Lemma scan_property_assign_parts stack ln pos :
  find_first_of ln "=" = Some pos ->
  has_nonws (substr ln 0 pos) = true ->
  has_nonws (substr_from ln (pos + 1)) = true ->
  exists k bk ak v bv av c1 c2,
    scan_property stack ln
    = ({| line := ln; linetype := Property;
          key := prependPrefix stack k; bareKey := k;
          beforeKey := bk; afterKey := ak;
          beforeValue := bv; afterValue := av; lacksAssignment := false |},
       [], {| pkey := prependPrefix stack k; value := unescape v;
              modified := false |})
    /\ ln = bk ++ k ++ ak ++ "=" ++ bv ++ v ++ av
    /\ k = line_key ln /\ v = line_value ln
    /\ head v = Some c1 /\ (c1 ∉ WS) /\ last v = Some c2 /\ (c2 ∉ WS).
Proof.
  intros H Ek Ev. unfold scan_property, line_key, line_value. rewrite H.
  pose proof (trim3_trim (substr ln 0 pos) "" " ") as Hk.
  pose proof (trim3_trim (substr_from ln (pos + 1)) " " "") as Hv.
  destruct (trim3_decompose _ "" " " Ek)
    as (k & bk & ak & ? & ? & Hk1 & Hk2 & _).
  destruct (trim3_decompose _ " " "" Ev)
    as (v & bv & av & c1 & c2 & Hv1 & Hv2 & Hv3 & Hv4 & Hv5 & Hv6 & _).
  change (beforeKey (mkLine ln)) with (list_ascii_of_string "").
  change (afterKey (mkLine ln)) with (list_ascii_of_string " ").
  change (beforeValue (mkLine ln)) with (list_ascii_of_string " ").
  change (afterValue (mkLine ln)) with (list_ascii_of_string "").
  rewrite Hk1, Hv1 in *. simpl in Hk, Hv.
  exists k, bk, ak, v, bv, av, c1, c2. repeat split; try done.
  rewrite (find_first_of_split ln "="%char pos H) at 1.
  unfold substr, substr_from in Hk2, Hv2. rewrite drop_0 in Hk2.
  rewrite Hk2, Hv2. by rewrite <- !app_assoc.
Qed.

Lemma plain_value_facts v :
  plain_value v = true ->
  v ≠ [] /\ head v ≠ Some BSLASH /\ last v ≠ Some BSLASH /\ quoted v = false.
Proof.
  unfold plain_value. rewrite !andb_true_iff, !negb_true_iff.
  rewrite !bool_decide_eq_false. tauto.
Qed.

(** A plain value is stored as it is written and written as it is stored. *)
Lemma plain_value_roundtrip v c1 c2 :
  plain_value v = true ->
  head v = Some c1 -> c1 ∉ WS -> last v = Some c2 -> c2 ∉ WS -> LF ∉ v ->
  isMultiLine (unescape v) = false
  /\ unquote (unescape v) = v
  /\ escape v = v.
Proof.
  intros (Hne & Hh & Hl & Hq)%plain_value_facts Hc1 Hn1 Hc2 Hn2 Hlf.
  rewrite (unescape_id v Hh), (unquote_id v Hq). repeat split.
  - unfold isMultiLine. rewrite (endswith_last v c2 BSLASH Hc2 Hn2).
    apply bool_decide_eq_false_2. congruence.
  - by apply (escape_id v c1).
Qed.

Lemma entry_keys_snoc d d' e :
  lines d' = lines d ++ [e] ->
  entry_keys d'
  = entry_keys d ++ (if decide (linetype e = Property) then [key e] else []).
Proof.
  intros H. unfold entry_keys. rewrite H, filter_app, fmap_app. f_equal.
  rewrite filter_cons, filter_nil. by destruct (decide _).
Qed.

Lemma entry_keys_prefix d d' :
  lines d `prefix_of` lines d' -> entry_keys d `prefix_of` entry_keys d'.
Proof.
  intros [tl H]. unfold entry_keys. rewrite H, filter_app, fmap_app.
  by apply prefix_app_r.
Qed.

Lemma NoDup_prefix (l1 l2 : list cstring) :
  l1 `prefix_of` l2 -> NoDup l2 -> NoDup l1.
Proof. intros [tl ->] H. by apply NoDup_app in H as (? & _). Qed.

Lemma string_n_nat (depth : nat) ch :
  string_n (Z.of_nat depth * 4) ch = inr (replicate (4 * depth) ch).
Proof.
  unfold string_n. destruct (Z.ltb_spec (Z.of_nat depth * 4) 0) as [? | _];
    [lia |].
  do 2 f_equal. lia.
Qed.

(** One step of the round trip, from what the line does to the object and
    how its entry is rendered. *)
Lemma roundtrip_step_gen ls st depth ln d' pfx e depth' :
  roundtrip_inv ls st depth ->
  parse_line st ln = {| doc := d'; prefix := pfx; pending := None |} ->
  lines d' = lines (doc st) ++ [e] ->
  (forall k p, props d' !! k = Some p ->
               modified p = false /\ k ∈ entry_keys d') ->
  (linetype e = Property -> is_Some (props d' !! key e)) ->
  (forall tst, prefixDepth tst = Z.of_nat depth ->
     exists tst',
       text_line d' false tst e = inr tst'
       /\ ss tst' = ss tst ++ ln ++ [LF]
       /\ prefixDepth tst' = Z.of_nat depth') ->
  roundtrip_inv (ls ++ [ln]) (parse_line st ln) depth'.
Proof.
  intros (_ & _ & H4 & tst & H5 & H6 & H7) Hstep Hlines Hprops Hnew Htext.
  assert (forall k p, props (doc st) !! k = Some p -> props d' !! k = Some p)
    as Hmono.
  { intros k p Hp. apply (parse_line_props_mono st ln) in Hp.
    by rewrite Hstep in Hp. }
  rewrite Hstep. unfold roundtrip_inv. cbn [doc pending].
  split; [done |]. split; [done |]. split.
  - intros k. rewrite (entry_keys_snoc _ _ _ Hlines), elem_of_app.
    intros [Hk | Hk].
    + destruct (H4 k Hk) as [p Hp]. exists p. by apply Hmono.
    + destruct (decide (linetype e = Property)) as [Ht | _];
        [| by apply elem_of_nil in Hk].
      apply list_elem_of_singleton in Hk. subst k. by apply Hnew.
  - rewrite Hlines, text_lines_app.
    rewrite (text_lines_props_ext d' (doc st)).
    2:{ intros e' He' Ht.
        assert (key e' ∈ entry_keys (doc st)) as Hin.
        { unfold entry_keys. apply list_elem_of_fmap. exists e'.
          split; [done |]. by apply list_elem_of_filter. }
        destruct (H4 _ Hin) as [p Hp]. by rewrite Hp, (Hmono _ _ Hp). }
    rewrite H5. cbn [text_lines].
    destruct (Htext tst H7) as (tst' & -> & Hss & Hdepth). exists tst'.
    split; [done |]. split; [| done].
    rewrite Hss, H6, unlines_app. unfold unlines. simpl.
    by rewrite app_nil_r.
Qed.

Lemma prependPrefix_nil k : prependPrefix [] k = k.
Proof. done. Qed.

Section TableOfEntries.
Variable st : ParseState.
Hypothesis Hprops :
  forall k p, props (doc st) !! k = Some p ->
              modified p = false /\ k ∈ entry_keys (doc st).

(** The Properties stay those of the entries when an entry is appended
    and the table is left alone. *)
Lemma roundtrip_props_kept d' e :
  props d' = props (doc st) ->
  lines d' = lines (doc st) ++ [e] ->
  forall k p, props d' !! k = Some p ->
              modified p = false /\ k ∈ entry_keys d'.
Proof.
  intros Hp Hl k p Hk. rewrite Hp in Hk.
  destruct (Hprops _ _ Hk). split; [done |].
  rewrite (entry_keys_snoc _ _ _ Hl), elem_of_app. by left.
Qed.

(** The same when the Property of the new entry is inserted. *)
Lemma roundtrip_props_inserted d' e p0 :
  props d' = props_insert (key e) p0 (props (doc st)) ->
  modified p0 = false -> linetype e = Property ->
  lines d' = lines (doc st) ++ [e] ->
  forall k p, props d' !! k = Some p ->
              modified p = false /\ k ∈ entry_keys d'.
Proof.
  intros Hp Hm Ht Hl k p Hk. rewrite Hp in Hk.
  rewrite (entry_keys_snoc _ _ _ Hl), elem_of_app, decide_True by done.
  unfold props_insert in Hk. destruct (props (doc st) !! key e) eqn:E.
  - destruct (Hprops _ _ Hk). auto.
  - apply lookup_insert_Some in Hk as [[<- <-] | [_ Hk]].
    + split; [done |]. right. by apply list_elem_of_singleton.
    + destruct (Hprops _ _ Hk). auto.
Qed.
End TableOfEntries.

Lemma roundtrip_step ls st depth ln depth' :
  roundtrip_inv ls st depth ->
  faithful_line depth ln = Some depth' ->
  LF ∉ ln ->
  NoDup (entry_keys (doc (parse_line st ln))) ->
  roundtrip_inv (ls ++ [ln]) (parse_line st ln) depth'.
Proof.
  intros Hinv Hf Hlf Hnd.
  pose proof Hinv as (Hpend & Hprops & _).
  unfold faithful_line in Hf. destruct (classify ln) eqn:Hcls; try done.
  - (* a property line *)
    destruct (faithful_property ln) eqn:Hfp; [| done]. injection Hf as <-.
    unfold faithful_property in Hfp. apply andb_true_iff in Hfp as [_ Hfp].
    pose proof (parse_line_property st ln Hpend Hcls) as Hstep.
    destruct (classify_Property _ Hcls) as (_ & Hne & _).
    assert (has_nonws ln = true) as Hnw.
    { rewrite isEmptyLine_has_nonws in Hne. by destruct (has_nonws ln). }
    destruct (find_first_of ln "=") as [pos|] eqn:Hpos.
    + apply andb_true_iff in Hfp as [Hk Hplain].
      assert (has_nonws (substr_from ln (pos + 1)) = true) as Hv.
      { destruct (has_nonws (substr_from ln (pos + 1))) eqn:E; [done |].
        unfold line_value in Hplain. rewrite Hpos, (trim_all_ws _ E) in Hplain.
        done. }
      destruct (scan_property_assign_parts (prefixStack (doc st)) ln pos
                  Hpos Hk Hv)
        as (k & bk & ak & v & bv & av & c1 & c2
            & Hscan & Hln & Hkey & Hval & Hc1 & Hn1 & Hc2 & Hn2).
      rewrite <- Hval in Hplain.
      assert (LF ∉ v) as Hlfv.
      { intros Hin. apply Hlf. rewrite Hln, !elem_of_app. auto 10. }
      destruct (plain_value_roundtrip v c1 c2 Hplain Hc1 Hn1 Hc2 Hn2 Hlfv)
        as (Hml & Huq & Hesc).
      rewrite Hscan in Hstep. cbn [value] in Hstep. rewrite Hml in Hstep.
      unfold with_value in Hstep. cbn [value pkey modified] in Hstep.
      rewrite Huq in Hstep.
      set (qk := prependPrefix (prefixStack (doc st)) k) in *.
      set (e := {| line := ln; linetype := Property; key := qk |}) in *.
      assert (props (doc st) !! qk = None) as Hnone.
      { destruct (props (doc st) !! qk) as [p|] eqn:E; [| done].
        destruct (Hprops qk p E) as [_ Hin].
        rewrite Hstep in Hnd. cbn [doc] in Hnd.
        rewrite (entry_keys_snoc (doc st) _ e) in Hnd by done.
        rewrite decide_True in Hnd by done.
        apply NoDup_app in Hnd as (_ & Hdisj & _).
        destruct (Hdisj qk Hin). by apply list_elem_of_singleton. }
      eapply roundtrip_step_gen; [done | exact Hstep | done | | |].
      * by apply (roundtrip_props_inserted st Hprops _ e
                    {| pkey := qk; value := v; modified := false |}).
      * intros _. simpl. apply (props_insert_is_Some qk).
      * intros tst Hdepth. eexists. unfold text_line. simpl.
        rewrite (props_insert_lookup_new qk _ _ Hnone). simpl.
        split; [reflexivity |]. simpl. split; [| done]. rewrite Hesc.
        rewrite Hln at 1. repeat (rewrite <- ?app_assoc; simpl). done.
    + destruct (scan_property_bare_parts (prefixStack (doc st)) ln Hpos Hnw)
        as (k & bk & ak & Hscan & Hln & Hkey).
      rewrite Hscan in Hstep. cbn [value] in Hstep.
      change (isMultiLine []) with false in Hstep.
      unfold with_value in Hstep. cbn [value pkey modified] in Hstep.
      change (unquote []) with (@nil ascii) in Hstep.
      set (qk := prependPrefix (prefixStack (doc st)) k) in *.
      set (e := {| line := ln; linetype := Property; key := qk |}) in *.
      pose proof (roundtrip_props_inserted st Hprops
                    (insert_prop (push_line (doc st) e)
                       {| pkey := qk; value := []; modified := false |})
                    e {| pkey := qk; value := []; modified := false |}
                    eq_refl eq_refl eq_refl eq_refl) as Hnewprops.
      eapply roundtrip_step_gen; [done | exact Hstep | done | | |].
      * exact Hnewprops.
      * intros _. simpl. apply (props_insert_is_Some qk).
      * intros tst Hdepth. eexists. unfold text_line. simpl.
        destruct (props_insert_is_Some qk
                    {| pkey := qk; value := []; modified := false |}
                    (props (doc st))) as [p Hp].
        rewrite Hp. destruct (Hnewprops _ _ Hp) as [-> _]. simpl.
        split; [reflexivity |]. simpl. split; [| done]. rewrite Hln at 1.
        repeat (rewrite <- ?app_assoc; simpl). done.
  - (* a comment *)
    injection Hf as <-. apply classify_Comment in Hcls.
    assert (parse_line st ln
            = {| doc := push_line (doc st) (with_linetype (mkLine ln) Comment);
                 prefix := prefix st; pending := None |}) as Hstep.
    { unfold parse_line. by rewrite Hpend, Hcls. }
    eapply roundtrip_step_gen; [done | exact Hstep | done | | done |].
    + by eapply roundtrip_props_kept.
    + intros tst Hdepth. eexists. split; [reflexivity | done].
  - (* the empty line *)
    case_bool_decide as Hnil; [| done]. injection Hf as <-. subst ln.
    assert (parse_line st []
            = {| doc := push_line (doc st) (with_linetype (mkLine []) Empty);
                 prefix := prefix st; pending := None |}) as Hstep.
    { unfold parse_line. by rewrite Hpend. }
    eapply roundtrip_step_gen; [done | exact Hstep | done | | done |].
    + by eapply roundtrip_props_kept.
    + intros tst Hdepth. eexists. split; [reflexivity | done].
  - (* a brace that opens a block *)
    case_bool_decide as Hbrace; [| done]. injection Hf as <-.
    destruct (classify_BlockStart _ Hcls) as (H1 & H2 & H3).
    set (e := with_linetype (mkLine ln) BlockStart).
    assert (exists d', parse_line st ln
                       = {| doc := d'; prefix := prefix st; pending := None |}
                       /\ props d' = props (doc st)
                       /\ lines d' = lines (doc st) ++ [e])
      as (d' & Hstep & Hp & Hl).
    { unfold parse_line. rewrite Hpend, H1, H2, H3.
      destruct (negb (bool_decide (prefix st = []))); by eexists. }
    eapply roundtrip_step_gen; [done | exact Hstep | done | | done |].
    + by eapply roundtrip_props_kept.
    + intros tst Hdepth. unfold text_line. cbn [linetype e with_linetype].
      rewrite Hdepth, string_n_nat. eexists. split; [reflexivity |].
      cbn [ss prefixDepth]. split; [| lia].
      rewrite Hbrace. unfold brace_line.
      repeat (rewrite <- ?app_assoc; simpl). done.
  - (* a brace that closes a block *)
    destruct depth as [|depth0]; [done |].
    case_bool_decide as Hbrace; [| done]. injection Hf as <-.
    destruct (classify_BlockEnd _ Hcls) as (H1 & H2 & H3 & H4).
    set (e := with_linetype (mkLine ln) BlockEnd).
    assert (exists d', parse_line st ln
                       = {| doc := d'; prefix := prefix st; pending := None |}
                       /\ props d' = props (doc st)
                       /\ lines d' = lines (doc st) ++ [e])
      as (d' & Hstep & Hp & Hl).
    { unfold parse_line. rewrite Hpend, H1, H2, H3, H4.
      destruct (negb (bool_decide (prefixStack _ = []))); by eexists. }
    eapply roundtrip_step_gen; [done | exact Hstep | done | | done |].
    + by eapply roundtrip_props_kept.
    + intros tst Hdepth. unfold text_line. cbn [linetype e with_linetype].
      rewrite Hdepth.
      replace (Z.of_nat (S depth0) - 1)%Z with (Z.of_nat depth0) by lia.
      rewrite string_n_nat. eexists. split; [reflexivity |].
      cbn [ss prefixDepth]. split; [| done].
      rewrite Hbrace. unfold brace_line.
      repeat (rewrite <- ?app_assoc; simpl). done.
Qed.

Lemma roundtrip_inv_init : roundtrip_inv [] (parse_init empty_doc) 0.
Proof.
  unfold roundtrip_inv, parse_init, empty_doc.
  cbn [doc props lines pending prefixStack].
  split; [done |]. split; [| split].
  - intros k p H. by rewrite lookup_empty in H.
  - intros k H. by apply elem_of_nil in H.
  - by exists text_init.
Qed.

Lemma roundtrip_lines rest :
  forall read st depth,
    roundtrip_inv read st depth ->
    faithful_lines depth rest = true ->
    Forall (fun ln => LF ∉ ln) rest ->
    NoDup (entry_keys (doc (parse_lines st rest))) ->
    exists depth', roundtrip_inv (read ++ rest) (parse_lines st rest) depth'.
Proof.
  induction rest as [|ln rest IH]; intros read st depth Hinv Hf Hlf Hnd.
  - exists depth. by rewrite app_nil_r.
  - cbn [faithful_lines] in Hf.
    destruct (faithful_line depth ln) as [depth1|] eqn:Hln; [| done].
    apply Forall_cons in Hlf as [Hlf1 Hlf].
    change (parse_lines st (ln :: rest))
      with (parse_lines (parse_line st ln) rest) in *.
    destruct (IH (read ++ [ln]) (parse_line st ln) depth1) as [depth' H];
      [| done | done | done |].
    + apply (roundtrip_step read st depth ln depth1); [done | done | done |].
      eapply NoDup_prefix; [| exact Hnd].
      apply entry_keys_prefix, parse_lines_prefix.
    + exists depth'. by rewrite <- app_assoc in H.
Qed.

Lemma preprocess_lines_plain st ls :
  capturing st = None ->
  Forall (fun l => isTemplateStart l = false /\ isTemplateVariable l = false) ls ->
  preprocess_lines st ls
  = inr {| os := os st ++ unlines ls; vars := vars st; capturing := None |}.
Proof.
  intros Hc Hls. revert st Hc.
  induction Hls as [|ln ls [H1 H2] _ IH]; intros st Hc; simpl.
  - rewrite app_nil_r. by destruct st; simpl in *; subst.
  - unfold preprocess_line. rewrite Hc, H1, H2. rewrite IH by done. simpl.
    unfold unlines. simpl. by rewrite <- !app_assoc.
Qed.

Lemma first_nonws_not_template ln c :
  first_nonws ln = Some c -> c ≠ "<"%char -> c ≠ "%"%char ->
  isTemplateStart ln = false /\ isTemplateVariable ln = false.
Proof.
  intros H H1 H2. unfold isTemplateStart, isTemplateVariable. rewrite H.
  split; apply bool_decide_eq_false_2; congruence.
Qed.

Lemma faithful_line_not_template depth ln depth' :
  faithful_line depth ln = Some depth' ->
  isTemplateStart ln = false /\ isTemplateVariable ln = false.
Proof.
  unfold faithful_line. destruct (classify ln) eqn:Hcls; try done.
  - destruct (faithful_property ln) eqn:E; [| done]. intros _.
    unfold faithful_property in E.
    rewrite !andb_true_iff, !negb_true_iff in E. tauto.
  - intros _. apply classify_Comment in Hcls. unfold isComment in Hcls.
    apply orb_true_iff in Hcls as [Hc | Hc]; apply bool_decide_eq_true in Hc;
      by eapply first_nonws_not_template.
  - case_bool_decide; [| done]. by subst ln.
  - intros _. destruct (classify_BlockStart _ Hcls) as (_ & _ & H).
    apply bool_decide_eq_true in H. by eapply first_nonws_not_template.
  - intros _. destruct (classify_BlockEnd _ Hcls) as (_ & _ & _ & H).
    apply bool_decide_eq_true in H. by eapply first_nonws_not_template.
Qed.

Lemma faithful_lines_not_template ls :
  forall depth,
    faithful_lines depth ls = true ->
    Forall (fun l => isTemplateStart l = false /\ isTemplateVariable l = false)
      ls.
Proof.
  induction ls as [|ln ls IH]; intros depth H; [constructor |].
  cbn [faithful_lines] in H.
  destruct (faithful_line depth ln) as [depth'|] eqn:E; [| done].
  constructor; [by eapply faithful_line_not_template | by eapply IH].
Qed.



(** ** Evaluations *)


(** Other inputs that [text(false)] does not give back: no newline at the
    end, nothing after [=], a line of spaces, a key given twice, a value
    over several lines, a brace that is indented. *)
Example roundtrip_other_inputs :
  text (after (parse empty_doc "a = b")) false = inr (unlines (cstrings ["a = b"]))
  /\ text (after (parse empty_doc (unlines (cstrings ["key ="])))) false
     = inr (unlines (cstrings ["key = "]))
  /\ text (after (parse empty_doc (unlines (cstrings ["   "])))) false
     = inr (unlines (cstrings [""]))
  /\ text (after (parse empty_doc duplicate_input)) false
     = inr (unlines (cstrings ["a = 1"; "a = 1"]))
  /\ text (after (parse empty_doc multiline_input)) false
     = inr (unlines (cstrings ["multiline = ab c"]))
  /\ text (after (parse empty_doc (unlines (cstrings ["s"; "  {"; "  }"])))) false
     = inr (unlines (cstrings ["s"; "{"; "}"])).
Proof. repeat split; vm_compute; reflexivity. Qed.

(** What the README says a program reads from its example files *)
Example readme_values :
  let d := after (parse empty_doc readme_input) in
  get d "myvalue" = "abc"
  /\ get d "othervalue" = "some value"
  /\ get d "quotes" = in_quotes "quoting the entire string"
  /\ get d "leading" = "  Two leading spaces in the value"
  /\ get d "spaces" = "  to spaces before and after  "
  /\ hasKey d "key1" = true /\ get d "key1" = []
  /\ hasKey d "key2" = true /\ get d "key2" = []
  /\ get d "prop.indented" = "some value"
  /\ getBool d "production" false = true
  /\ get d "backend.database.host" = "db-host"
  /\ get d "backend.database.log.level" = "debug"
  /\ get d "backend.appserver.log.output" = "console"
  /\ get_default d "server.host" "localhost" = "localhost".
Proof. repeat split; vm_compute; reflexivity. Qed.

(** The calls of the test driver: the removed property is skipped, the
    updated one keeps its indentation, the new ones come last, escaped. *)
Example session_text :
  text session false
  = inr (unlines
           (cstrings ["# demo"; ""; ""; "  bind = 127.0.0.0"; "server"; "{";
                      "  port = 1234"; "}"]
            ++ ["str.with.leading.ws = \ \ \ \" ++ ["009"%char] ++ "127.0.0.0"]
            ++ cstrings [""; "# A new comment!";
                         "new-multiline = this takes \"; "    multiple \";
                         "    lines"]))
  /\ text session true
     = inr (unlines
              (cstrings ["# demo"; ""; "bind = 127.0.0.0"; "server"; "{";
                         "    port = 1234"; "}"]
               ++ ["str.with.leading.ws = \ \ \ \" ++ ["009"%char]
                     ++ "127.0.0.0"]
               ++ cstrings [""; "# A new comment!";
                            "new-multiline = this takes \"; "    multiple \";
                            "    lines"])).
Proof. split; vm_compute; reflexivity. Qed.

(** [parse] leaves an empty prefix stack alone on a line that closes a
    block, and touches no Property. *)
Lemma parse_line_unmatched_block_end st ln :
  pending st = None -> classify ln = BlockEnd -> prefixStack (doc st) = [] ->
  prefixStack (doc (parse_line st ln)) = []
  /\ props (doc (parse_line st ln)) = props (doc st)
  /\ lines (doc (parse_line st ln))
     = lines (doc st) ++ [with_linetype (mkLine ln) BlockEnd].
Proof.
  intros Hpend (H1 & H2 & H3 & H4)%classify_BlockEnd Hstack.
  unfold parse_line. rewrite Hpend, H1, H2, H3, H4. cbn [push_line prefixStack].
  by rewrite Hstack.
Qed.

(** [text] throws on every entry that closes a block when none is open. *)
Lemma text_line_block_end_underflow d prettyPrint st e :
  linetype e = BlockEnd -> (prefixDepth st <= 0)%Z ->
  text_line d prettyPrint st e = inl length_error.
Proof.
  intros Ht Hdepth. unfold text_line, string_n. rewrite Ht.
  destruct (Z.ltb_spec ((prefixDepth st - 1) * 4) 0); [done | lia].
Qed.

(** A line whose trimmed text is a brace alone is a block delimiter. *)
Lemma classify_brace_alone ln :
  (trim ln = "{" -> classify ln = BlockStart)
  /\ (trim ln = "}" -> classify ln = BlockEnd).
Proof.
  assert (forall c : ascii,
            trim ln = [c] -> first_nonws ln = Some c /\ isEmptyLine ln = false)
    as Hfirst.
  { intros c H. assert (first_nonws ln = Some c) as Hc
      by (by rewrite first_nonws_trim, H).
    split; [done |]. apply first_nonws_Some in Hc as [Hc _].
    by rewrite isEmptyLine_has_nonws, Hc. }
  split; intros [Hc He]%Hfirst;
    unfold classify, isComment, isBlockStart, isBlockEnd; by rewrite Hc, He.
Qed.

(** C3.  [parse] reads a line holding [}] that closes no block without an
    error and leaves the prefix stack empty; [text] then decrements
    [prefixDepth] to -1 and asks for a string of -4 spaces, and the
    constructor throws, in both modes. *)
Lemma unmatched_block_end_text_throws :
  (exists d, parse empty_doc unmatched_end_input = Returned d
             /\ prefixStack d = []
             /\ linetype <$> lines d = [BlockEnd])
  /\ text (after (parse empty_doc unmatched_end_input)) false = inl length_error
  /\ text (after (parse empty_doc unmatched_end_input)) true = inl length_error.
Proof.
  split; [eexists; split; [vm_compute; reflexivity |]; split; reflexivity |].
  split; vm_compute; reflexivity.
Qed.

(** C4, as the code has it.  The three-line input gives [multiline] the
    value [ab c]: the first piece is trimmed on the right after its backslash
    is dropped, the second piece keeps the space before its backslash. *)
Lemma multiline_join_value :
  get (after (parse empty_doc multiline_input)) "multiline" = "ab c".
Proof. vm_compute. reflexivity. Qed.

(** C4, as stated, fails: the value is not [abc]. *)
Lemma multiline_join_not_abc :
  get (after (parse empty_doc multiline_input)) "multiline" ≠ "abc".
Proof. vm_compute. discriminate. Qed.

(** C9.  [isBlockStart] and [isBlockEnd] look at the first byte after the
    leading whitespace only: [{ x = 1] is entered as a [BlockStart] and
    [} y] as a [BlockEnd], and neither becomes a property. *)
Lemma block_delimiter_with_trailing_content :
  classify "{ x = 1" = BlockStart
  /\ classify "} y" = BlockEnd
  /\ trim "{ x = 1" ≠ "{"
  /\ trim "} y" ≠ "}"
  /\ linetype <$> lines (after (parse empty_doc trailing_content_input))
     = [BlockStart; BlockEnd]
  /\ props (after (parse empty_doc trailing_content_input)) = ∅.
Proof.
  repeat split; try (vm_compute; reflexivity); vm_compute; discriminate.
Qed.

(** * Further properties *)

(** ** Lookup and mutation *)

(** X1.  After [put(key, value)], [get(key)] is [value] and [hasKey(key)]
    holds, whether the key was there or not; every other key is looked up as
    before; a second [put] on the key returns the value of the first. *)
Theorem put_then_get (d : Properties) (k v : cstring) :
  get (put d k v).1 k = v
  /\ hasKey (put d k v).1 k = true
  /\ (forall k', k' ≠ k ->
        get (put d k v).1 k' = get d k'
        /\ hasKey (put d k v).1 k' = hasKey d k')
  /\ (forall v', (put (put d k v).1 k v').2 = v).
Proof.
  assert (exists p, props (put d k v).1 = <[k := p]> (props d) /\ value p = v)
    as (p & Hput & Hv).
  { unfold put. destruct (props d !! k) as [p|] eqn:E; simpl.
    - by eexists.
    - unfold props_insert. rewrite E. by eexists. }
  assert (props (put d k v).1 !! k = Some p) as Hk
    by (by rewrite Hput, lookup_insert_eq).
  split; [| split; [| split]].
  - unfold get. by rewrite Hk.
  - unfold hasKey. rewrite Hk. by apply bool_decide_eq_true_2.
  - intros k' Hne. unfold get, hasKey.
    by rewrite Hput, lookup_insert_ne.
  - intros v'. unfold put at 1. by rewrite Hk.
Qed.

(** X2.  After [remove(key)] the key has no Property: [hasKey] is false and
    [get] returns the empty string; the other keys, the line entries and the
    prefix stack are as before, and removing a key that has no Property
    changes nothing. *)
Theorem remove_then_get (d : Properties) (k : cstring) :
  hasKey (remove d k) k = false
  /\ get (remove d k) k = []
  /\ (forall k', k' ≠ k -> props (remove d k) !! k' = props d !! k')
  /\ lines (remove d k) = lines d
  /\ prefixStack (remove d k) = prefixStack d
  /\ (hasKey d k = false -> remove d k = d).
Proof.
  unfold hasKey, get, remove. simpl. rewrite lookup_delete_eq.
  split; [| split; [done |]; split; [| split; [done |]; split; [done |]]].
  - apply bool_decide_eq_false_2. by intros [? ?].
  - intros k' Hne. by rewrite lookup_delete_ne.
  - intros H%bool_decide_eq_false. rewrite delete_id.
    + by destruct d.
    + destruct (props d !! k); [destruct H; eauto | done].
Qed.

Lemma remove_then_get_witness :
  remove (after (parse empty_doc duplicate_input)) "b"
  = after (parse empty_doc duplicate_input).
Proof.
  apply (remove_then_get (after (parse empty_doc duplicate_input)) "b").
  vm_compute. reflexivity.
Defined.

(** X3.  [remove] keeps the line entry of the key, so a [put] of the key
    after its [remove] does not take the old line over: it appends a second
    entry for the key, and both entries are rendered with the new value. *)
Theorem put_after_remove (d : Properties) (k v : cstring) :
  (put (remove d k) k v).2 = []
  /\ lines (put (remove d k) k v).1 = lines d ++ [put_line k v]
  /\ props (put (remove d k) k v).1 !! k
     = Some {| pkey := k; value := v; modified := true |}
  /\ (forall e st, e ∈ lines d -> linetype e = Property -> key e = k ->
        text_line (put (remove d k) k v).1 false st e
        = inr {| ss := ss st ++ beforeKey e ++ bareKey e ++ afterKey e
                         ++ "=" ++ beforeValue e ++ escape v ++ afterValue e
                         ++ [LF];
                 prev := Some e; prefixDepth := prefixDepth st |}).
Proof.
  assert (props (remove d k) !! k = None) as Hnone
    by (simpl; apply lookup_delete_eq).
  unfold put. rewrite Hnone. cbn [fst snd lines props].
  unfold props_insert. rewrite Hnone.
  split; [done |]. split; [done |]. split; [by rewrite lookup_insert_eq |].
  intros e st _ Ht <-. unfold text_line. rewrite Ht. cbn [props].
  rewrite lookup_insert_eq. cbn [modified value]. by rewrite orb_true_r, <- !app_assoc.
Qed.

Lemma put_after_remove_witness :
  let d := after (parse empty_doc duplicate_input) in
  exists e, e ∈ lines d /\
    text_line (put (remove d "a") "a" "9").1 false text_init e
    = inr {| ss := unlines (cstrings ["a = 9"]); prev := Some e;
             prefixDepth := 0 |}.
Proof.
  intros d.
  exists {| line := "a = 1"; linetype := Property; key := "a"; bareKey := "a";
            beforeKey := ""; afterKey := " "; beforeValue := " ";
            afterValue := ""; lacksAssignment := false |}.
  split; [vm_compute; left |].
  apply (proj2 (proj2 (proj2 (put_after_remove d "a" "9")))).
  - vm_compute. left.
  - reflexivity.
  - reflexivity.
Defined.

Lemma put_then_get_witness :
  let d := after (parse empty_doc duplicate_input) in
  get (put d "b" "2").1 "a" = get d "a"
  /\ hasKey (put d "b" "2").1 "a" = hasKey d "a".
Proof.
  intros d.
  apply (proj1 (proj2 (proj2 (put_then_get d "b" "2")))). discriminate.
Defined.

(** ** Comments and blank lines *)

Lemma first_nonws_head str c :
  head str = Some c -> c ∉ WS -> first_nonws str = Some c.
Proof.
  intros Hh Hc. destruct str as [|x s]; [done |]. injection Hh as ->.
  unfold first_nonws. simpl. by rewrite bool_decide_eq_false_2.
Qed.

(** X4.  [putComment] does nothing for a text without a byte that is not
    whitespace; otherwise it appends one [Comment] entry and touches nothing
    else.  The entry holds the trimmed text, behind a hash and a space unless
    the trimmed text starts with a hash or an exclamation mark, so that
    [isComment] accepts the line that [text] writes for it. *)
Theorem putComment_appends_comment (d : Properties) (comment : cstring) :
  (has_nonws comment = false -> putComment d comment = d)
  /\ (has_nonws comment = true ->
      exists ln,
        putComment d comment = push_line d (with_linetype (mkLine ln) Comment)
        /\ (head (trim comment) = Some "#"%char
            \/ head (trim comment) = Some "!"%char ->
            ln = trim comment)
        /\ (head (trim comment) ≠ Some "#"%char ->
            head (trim comment) ≠ Some "!"%char ->
            ln = "# " ++ trim comment)
        /\ isComment ln = true
        /\ forall st, text_line (putComment d comment) false st
                        (with_linetype (mkLine ln) Comment)
                      = inr {| ss := ss st ++ ln ++ [LF];
                               prev := Some (with_linetype (mkLine ln) Comment);
                               prefixDepth := prefixDepth st |}).
Proof.
  unfold putComment. split.
  - intros H. by rewrite (trim_all_ws _ H).
  - intros H.
    destruct (trim3_decompose comment [] [] H)
      as (core & l & r & c1 & c2 & H1 & _ & Hh & Hn & _).
    assert (trim comment = core) as -> by (unfold trim; by rewrite H1).
    rewrite bool_decide_eq_false_2 by (by destruct core). cbn [negb].
    eexists. split; [reflexivity |]. split; [| split; [| split; [| done]]].
    + intros [Hc | Hc]; rewrite Hc; [done |].
      by rewrite andb_false_r.
    + intros Hc1 Hc2. by rewrite !bool_decide_eq_false_2 by done.
    + rewrite Hh.
      destruct (decide (c1 = "#"%char)) as [-> | H1'].
      { rewrite (bool_decide_eq_true_2 (Some "#"%char = Some "#"%char)) by done.
        cbn [negb andb]. unfold isComment.
        by rewrite (first_nonws_head core "#"%char). }
      destruct (decide (c1 = "!"%char)) as [-> | H2'].
      { rewrite (bool_decide_eq_true_2 (Some "!"%char = Some "!"%char)) by done.
        rewrite andb_false_r. unfold isComment.
        rewrite (first_nonws_head core "!"%char) by done.
        by rewrite orb_true_r. }
      by rewrite !bool_decide_eq_false_2 by congruence.
Qed.

Lemma putComment_appends_comment_witness :
  putComment empty_doc "  A new comment!  "
  = push_line empty_doc (with_linetype (mkLine "# A new comment!") Comment)
  /\ putComment empty_doc " !kept as it is "
     = push_line empty_doc (with_linetype (mkLine "!kept as it is") Comment).
Proof.
  split.
  - destruct (proj2 (putComment_appends_comment empty_doc "  A new comment!  "))
      as (ln & -> & _ & Hln & _); [vm_compute; reflexivity |].
    rewrite Hln; [vm_compute; reflexivity | |]; vm_compute; discriminate.
  - destruct (proj2 (putComment_appends_comment empty_doc " !kept as it is "))
      as (ln & -> & Hln & _); [vm_compute; reflexivity |].
    rewrite Hln; [vm_compute; reflexivity |]. right. vm_compute. reflexivity.
Defined.

(** A whitespace-only line becomes an [Empty] entry. *)
Lemma parse_line_blank st ln :
  pending st = None -> isEmptyLine ln = true ->
  parse_line st ln
  = {| doc := push_line (doc st) (with_linetype (mkLine ln) Empty);
       prefix := prefix st; pending := None |}.
Proof.
  intros Hp He. unfold parse_line. rewrite Hp, He.
  assert (isComment ln = false) as ->; [| done].
  rewrite isEmptyLine_has_nonws in He. unfold isComment, first_nonws.
  unfold has_nonws in He. apply negb_true_iff, bool_decide_eq_false in He.
  destruct (find_first_not_of ln WS); [destruct He; eauto | done].
Qed.

(** X5.  A run of [Empty] entries, wherever it stands, is rendered as one
    newline per entry in original mode; in pretty mode it is rendered as a
    single newline, and as nothing when the entry before the run is [Empty]
    too. *)
Theorem blank_run_rendering (d : Properties) (st : TextState)
    (es : list Line) :
  es ≠ [] ->
  Forall (fun e => linetype e = Empty) es ->
  text_lines d false st es
  = inr {| ss := ss st ++ replicate (length es) LF; prev := last es;
           prefixDepth := prefixDepth st |}
  /\ text_lines d true st es
     = inr {| ss := ss st ++ (if bool_decide (linetype <$> prev st = Some Empty)
                              then [] else [LF]);
              prev := last es; prefixDepth := prefixDepth st |}.
Proof.
  intros Hne Hes. revert st.
  induction Hes as [|e es He Hes IH]; [done |]. intros st.
  assert (text_line d false st e
          = inr {| ss := ss st ++ [LF]; prev := Some e;
                   prefixDepth := prefixDepth st |}) as Hf
    by (unfold text_line; by rewrite He).
  assert (text_line d true st e
          = inr {| ss := ss st ++ (if bool_decide (linetype <$> prev st = Some Empty)
                                   then [] else [LF]);
                   prev := Some e; prefixDepth := prefixDepth st |}) as Ht.
  { unfold text_line. rewrite He. cbn [negb orb].
    destruct (bool_decide _); cbn [negb]; [by rewrite app_nil_r | done]. }
  cbn [text_lines]. rewrite Hf, Ht.
  destruct es as [|e' es'].
  - cbn [text_lines length replicate last]. split; done.
  - destruct (IH ltac:(done) {| ss := ss st ++ [LF]; prev := Some e;
                               prefixDepth := prefixDepth st |}) as [-> _].
    destruct (IH ltac:(done)
                {| ss := ss st ++ (if bool_decide (linetype <$> prev st = Some Empty)
                                   then [] else [LF]);
                   prev := Some e; prefixDepth := prefixDepth st |}) as [_ ->].
    cbn [ss prev prefixDepth]. change (linetype <$> Some e) with (Some (linetype e)).
    rewrite He.
    rewrite (bool_decide_eq_true_2 (Some Empty = Some Empty)) by done.
    split.
    + by rewrite <- app_assoc.
    + by rewrite app_nil_r.
Qed.

Lemma blank_run_rendering_witness :
  let d := after (parse empty_doc (unlines (cstrings [""; "  "; ""]))) in
  text_lines d false text_init (lines d)
  = inr {| ss := replicate 3 LF; prev := last (lines d); prefixDepth := 0 |}
  /\ text_lines d true text_init (lines d)
     = inr {| ss := [LF]; prev := last (lines d); prefixDepth := 0 |}.
Proof.
  intros d.
  apply (blank_run_rendering d text_init (lines d)).
  - vm_compute. discriminate.
  - vm_compute. repeat constructor.
Defined.

(** ** When [text] throws *)

Lemma text_line_depth d prettyPrint st e (depth : nat) :
  prefixDepth st = Z.of_nat depth ->
  match linetype e with
  | BlockStart =>
      exists st', text_line d prettyPrint st e = inr st'
                  /\ prefixDepth st' = Z.of_nat (S depth)
  | BlockEnd =>
      match depth with
      | O => text_line d prettyPrint st e = inl length_error
      | S depth' =>
          exists st', text_line d prettyPrint st e = inr st'
                      /\ prefixDepth st' = Z.of_nat depth'
      end
  | _ =>
      exists st', text_line d prettyPrint st e = inr st'
                  /\ prefixDepth st' = Z.of_nat depth
  end.
Proof.
  intros Hd. unfold text_line. destruct (linetype e) eqn:Ht;
    try (eexists; split; [reflexivity | done]).
  - (* Property *)
    destruct (props d !! key e); [| by eexists].
    destruct prettyPrint; [| by eexists].
    destruct (0 <? prefixDepth st)%Z; [| by eexists].
    rewrite Hd, string_n_nat. by eexists.
  - (* Empty *)
    destruct (_ || _); by eexists.
  - (* BlockStart *)
    rewrite Hd, string_n_nat. eexists. split; [reflexivity |]. simpl. lia.
  - (* BlockEnd *)
    destruct depth as [|depth'].
    + by rewrite Hd.
    + rewrite Hd.
      replace (Z.of_nat (S depth') - 1)%Z with (Z.of_nat depth') by lia.
      rewrite string_n_nat. by eexists.
Qed.

Lemma text_lines_balanced d prettyPrint ls :
  forall st (depth : nat),
    prefixDepth st = Z.of_nat depth ->
    if balanced depth ls
    then exists st', text_lines d prettyPrint st ls = inr st'
    else text_lines d prettyPrint st ls = inl length_error.
Proof.
  induction ls as [|e ls IH]; intros st depth Hd; [by eexists |].
  pose proof (text_line_depth d prettyPrint st e depth Hd) as Hstep.
  cbn [balanced text_lines].
  destruct (linetype e);
    try (destruct Hstep as (st' & -> & Hd'); by apply IH).
  destruct depth as [|depth']; [by rewrite Hstep |].
  destruct Hstep as (st' & -> & Hd'). by apply IH.
Qed.

(** X6.  [text] throws exactly when some entry closes a block that no
    earlier entry has opened, and what it throws then is the length error
    of [std::string]; otherwise it returns a string, in both modes and
    whatever the Properties are. *)
Theorem text_throws_iff_unbalanced (d : Properties) (prettyPrint : bool) :
  if balanced 0 (lines d)
  then exists s, text d prettyPrint = inr s
  else text d prettyPrint = inl length_error.
Proof.
  pose proof (text_lines_balanced d prettyPrint (lines d) text_init 0 eq_refl)
    as H.
  unfold text. destruct (balanced 0 (lines d)).
  - destruct H as [st' ->]. by eexists.
  - by rewrite H.
Qed.

(** ** Template definitions and references *)

Lemma preprocess_lines_capture_open st name acc body :
  capturing st = Some (name, acc) ->
  Forall (fun l => isTemplateEnd l = false) body ->
  preprocess_lines st body
  = inr {| os := os st; vars := vars st;
           capturing := Some (name, acc ++ body) |}.
Proof.
  intros Hc Hbody. revert st acc Hc.
  induction Hbody as [|ln body Hln _ IH]; intros st acc Hc.
  - simpl. rewrite app_nil_r. by destruct st; simpl in *; subst.
  - simpl. unfold preprocess_line. rewrite Hc, Hln.
    rewrite (IH _ (acc ++ [ln])) by done. simpl. by rewrite <- app_assoc.
Qed.

Lemma preprocess_line_start st ln :
  capturing st = None -> isTemplateStart ln = true ->
  preprocess_line st ln
  = if bool_decide (length (trim ln) < 3)
    then inl (runtime_error "Invalid template definition syntax")
    else inr {| os := os st; vars := vars st;
                capturing :=
                  Some (substr (trim ln) 1 (length (trim ln) - 2), []) |}.
Proof. intros Hc Hs. unfold preprocess_line. by rewrite Hc, Hs. Qed.

Lemma isTemplateVariable_not_start ln :
  isTemplateVariable ln = true -> isTemplateStart ln = false.
Proof.
  unfold isTemplateVariable, isTemplateStart.
  intros ->%bool_decide_eq_true. by apply bool_decide_eq_false_2.
Qed.

Lemma parse_Thrown d stream e :
  preprocess stream = inl e -> parse d stream = Thrown e d.
Proof. intros H. unfold parse. by rewrite H. Qed.

(** X7.  A line that opens a definition, read outside a definition and
    followed to the end of the input by no line that starts with [</], makes
    [parse] throw "Missing closing tag in template definition" and leave the
    object as it was.  A close tag outside a definition is such a line. *)
Theorem parse_unclosed_template_throws
    (d : Properties) (stream : cstring) (pre body : list cstring)
    (start : cstring) (st : PreState) :
  getlines stream = pre ++ start :: body ->
  preprocess_lines pre_init pre = inr st ->
  capturing st = None ->
  isTemplateStart start = true ->
  3 <= length (trim start) ->
  Forall (fun l => isTemplateEnd l = false) body ->
  parse d stream
  = Thrown (runtime_error "Missing closing tag in template definition") d.
Proof.
  intros Hls Hpre Hcap Hstart Hlen Hbody. apply parse_Thrown.
  unfold preprocess. rewrite Hls, preprocess_lines_app, Hpre.
  cbn [preprocess_lines]. rewrite (preprocess_line_start _ _ Hcap Hstart).
  rewrite bool_decide_eq_false_2 by lia.
  by erewrite preprocess_lines_capture_open.
Qed.

Lemma parse_unclosed_template_throws_witness :
  parse empty_doc (unlines (cstrings ["a = 1"; "</t>"; "b = 2"]))
  = Thrown (runtime_error "Missing closing tag in template definition")
      empty_doc.
Proof.
  eapply (parse_unclosed_template_throws empty_doc _ (cstrings ["a = 1"])
            (cstrings ["b = 2"]) "</t>").
  - vm_compute. reflexivity.
  - vm_compute. reflexivity.
  - reflexivity.
  - vm_compute. reflexivity.
  - vm_compute. lia.
  - repeat constructor.
Defined.

(** X8.  A line read outside a definition whose trimmed text has fewer than
    three bytes makes [parse] throw and leave the object as it was:
    "Invalid template definition syntax" when it starts with [<],
    "Invalid template variable syntax" when it starts with a percent sign. *)
Theorem parse_short_template_tag_throws
    (d : Properties) (stream : cstring) (pre post : list cstring)
    (ln : cstring) (st : PreState) :
  getlines stream = pre ++ ln :: post ->
  preprocess_lines pre_init pre = inr st ->
  capturing st = None ->
  length (trim ln) < 3 ->
  (isTemplateStart ln = true ->
   parse d stream
   = Thrown (runtime_error "Invalid template definition syntax") d)
  /\ (isTemplateVariable ln = true ->
      parse d stream
      = Thrown (runtime_error "Invalid template variable syntax") d).
Proof.
  intros Hls Hpre Hcap Hlen.
  split; intros H; apply parse_Thrown; unfold preprocess;
    rewrite Hls, preprocess_lines_app, Hpre; cbn [preprocess_lines].
  - rewrite (preprocess_line_start _ _ Hcap H).
    by rewrite bool_decide_eq_true_2.
  - unfold preprocess_line.
    rewrite Hcap, (isTemplateVariable_not_start _ H), H.
    by rewrite bool_decide_eq_true_2.
Qed.

Lemma parse_short_template_tag_throws_witness :
  parse empty_doc (unlines (cstrings ["a = 1"; " <> "; "b = 2"]))
  = Thrown (runtime_error "Invalid template definition syntax") empty_doc
  /\ parse empty_doc (unlines (cstrings ["a = 1"; "%%"]))
     = Thrown (runtime_error "Invalid template variable syntax") empty_doc.
Proof.
  split.
  - eapply (proj1 (parse_short_template_tag_throws empty_doc _
                     (cstrings ["a = 1"]) (cstrings ["b = 2"]) " <> " _
                     _ _ _ _)).
    vm_compute. reflexivity.
  - eapply (proj2 (parse_short_template_tag_throws empty_doc _
                     (cstrings ["a = 1"]) [] "%%" _ _ _ _ _)).
    vm_compute. reflexivity.
  Unshelve.
  all: try (vm_compute; reflexivity).
  all: vm_compute; lia.
Defined.

Lemma preprocess_line_reference st ref name body :
  capturing st = None ->
  trim ref = "%"%char :: name ++ "%" ->
  name ≠ [] ->
  vars st !! name = Some body ->
  preprocess_line st ref
  = inr {| os := os st ++ unlines body; vars := vars st; capturing := None |}.
Proof.
  intros Hcap Href Hname Hvars. unfold preprocess_line. rewrite Hcap.
  destruct (head_trim_isTemplateStart ref "%"%char) as [-> ->];
    [by rewrite Href |].
  rewrite bool_decide_eq_false_2 by discriminate.
  rewrite bool_decide_eq_true_2 by done.
  rewrite Href. change (list_ascii_of_string "%") with ["%"%char].
  rewrite substr_inner, Hvars.
  rewrite bool_decide_eq_false_2; [done |].
  destruct name; [done |]. simpl. rewrite length_app. simpl. lia.
Qed.

(** X9.  The template pass drops the lines of a definition from its output
    and puts the captured lines, as they are, in the place of a later
    reference to it: lines that are not template lines pass through, and
    the captured lines are not scanned again, whatever they hold. *)
Theorem preprocess_expands_reference
    (stream start closer ref name : cstring)
    (before body between after_ref : list cstring) :
  getlines stream
  = before ++ start :: body ++ closer :: between ++ ref :: after_ref ->
  Forall (fun l => isTemplateStart l = false /\ isTemplateVariable l = false)
    (before ++ between ++ after_ref) ->
  trim start = "<"%char :: name ++ ">" ->
  name ≠ [] ->
  Forall (fun l => isTemplateEnd l = false) body ->
  isTemplateEnd closer = true ->
  trim ref = "%"%char :: name ++ "%" ->
  preprocess stream = inr (unlines (before ++ between ++ body ++ after_ref)).
Proof.
  intros Hls Hplain Hstart Hname Hbody Hcloser Href.
  apply Forall_app in Hplain as [Hbefore Hplain].
  apply Forall_app in Hplain as [Hbetween Hafter].
  unfold preprocess. rewrite Hls, preprocess_lines_app.
  rewrite (preprocess_lines_plain pre_init) by done.
  cbn [preprocess_lines]. rewrite preprocess_line_start.
  2: done.
  2:{ destruct (head_trim_isTemplateStart start "<"%char) as [-> _];
        [by rewrite Hstart | done]. }
  rewrite Hstart. change (list_ascii_of_string ">") with [">"%char].
  rewrite substr_inner, bool_decide_eq_false_2.
  2:{ destruct name; [done |]. simpl. rewrite length_app. simpl. lia. }
  rewrite (preprocess_lines_capture _ name [] body closer) by done.
  cbn [os vars app]. rewrite preprocess_lines_app.
  rewrite preprocess_lines_plain by done. cbn [preprocess_lines os vars].
  rewrite (preprocess_line_reference _ ref name body);
    [| reflexivity | exact Href | exact Hname | cbn [vars]; apply lookup_insert_eq].
  rewrite preprocess_lines_plain by done.
  unfold preprocess_end. cbn [capturing os].
  by rewrite !unlines_app, <- !app_assoc.
Qed.

Lemma preprocess_expands_reference_witness :
  preprocess
    (unlines (cstrings ["a = 1"; "<log>"; "level = debug"; "%other%";
                        "  </"; "b"; "{"; "  %log%"; "}"]))
  = inr (unlines (cstrings ["a = 1"; "b"; "{"; "level = debug"; "%other%";
                            "}"])).
Proof.
  apply (preprocess_expands_reference _ "<log>" "  </" "  %log%" "log"
           (cstrings ["a = 1"]) (cstrings ["level = debug"; "%other%"])
           (cstrings ["b"; "{"]) (cstrings ["}"])).
  - vm_compute. reflexivity.
  - repeat constructor.
  - vm_compute. reflexivity.
  - discriminate.
  - repeat constructor.
  - vm_compute. reflexivity.
  - vm_compute. reflexivity.
Defined.

(** ** Escaping *)

Lemma BSLASH_not_ws : BSLASH ∉ WS.
Proof. not_ws. Qed.

Lemma unescape_pairs_escaped l rest :
  head rest ≠ Some BSLASH ->
  unescape_pairs (flat_map (fun c => [BSLASH; c]) l ++ rest) = l ++ rest.
Proof.
  intros Hr. induction l as [|x l IH].
  - simpl. destruct rest as [|c [|d rest']]; [done | done |].
    cbn [unescape_pairs]. rewrite bool_decide_eq_false_2; [done |].
    intros ->. by destruct Hr.
  - cbn [flat_map app unescape_pairs].
    rewrite bool_decide_eq_true_2 by done. by rewrite IH.
Qed.

Lemma escape_no_newline v :
  LF ∉ v ->
  escape v
  = match find_first_not_of v WS with
    | Some s => flat_map (fun c => [BSLASH; c]) (take s v) ++ drop s v
    | None => v
    end.
Proof.
  intros Hlf. unfold escape, substr_from.
  destruct (find_first_not_of v WS) as [s|]; [| done].
  rewrite replaceAll_id; [done |].
  intros Hin. apply Hlf. by apply (subseteq_drop s v).
Qed.

(** The backslashes that [escape] puts before the leading whitespace are
    the ones that [unescape] takes off. *)
Lemma unescape_escaped v :
  LF ∉ v -> first_nonws v ≠ Some BSLASH -> unescape (escape v) = v.
Proof.
  intros Hlf Hfirst. rewrite (escape_no_newline v Hlf).
  unfold first_nonws in Hfirst.
  destruct (find_first_not_of v WS) as [s|] eqn:Hs.
  - assert (head (drop s v) ≠ Some BSLASH) as Hh.
    { by rewrite head_lookup, lookup_drop, Nat.add_0_r. }
    destruct (take s v) as [|x l] eqn:Ht.
    + simpl. assert (s = 0 \/ v = []) as [-> | ->].
      { destruct s; [by left |]. destruct v; [by right | done]. }
      * rewrite drop_0 in *. by apply unescape_id.
      * done.
    + unfold unescape. cbn [flat_map app head length].
      rewrite bool_decide_eq_true_2 by lia.
      rewrite bool_decide_eq_true_2 by done. cbn [andb].
      change (BSLASH :: x :: flat_map (fun c => [BSLASH; c]) l ++ drop s v)
        with (flat_map (fun c => [BSLASH; c]) (x :: l) ++ drop s v).
      rewrite unescape_pairs_escaped by done.
      by rewrite <- Ht, take_drop.
  - apply unescape_id. apply find_first_not_of_None in Hs.
    destruct v as [|c v']; [done |]. simpl. intros [= ->].
    apply Forall_inv in Hs. by apply BSLASH_not_ws.
Qed.

(** X10.  [unescape] undoes [escape] on every value without a newline whose
    first byte after the leading whitespace is not a backslash, and
    [escape] leaves a value without a newline that does not start with
    whitespace as it is. *)
Theorem unescape_escape (v : cstring) :
  LF ∉ v -> first_nonws v ≠ Some BSLASH ->
  unescape (escape v) = v
  /\ (forall c, head v = Some c -> c ∉ WS -> escape v = v).
Proof.
  intros Hlf Hfirst. split; [by apply unescape_escaped |].
  intros c Hc Hn. by apply (escape_id v c).
Qed.

Lemma unescape_escape_witness :
  unescape (escape ("   " ++ ["009"%char] ++ "127.0.0.0"))
  = "   " ++ ["009"%char] ++ "127.0.0.0".
Proof.
  refine (proj1 (unescape_escape ("   " ++ ["009"%char] ++ "127.0.0.0") _ _)).
  - apply (bool_decide_unpack _). vm_compute. exact I.
  - vm_compute. discriminate.
Defined.

(** ** Reading back what was written *)

Lemma find_first_of_app l c r set :
  Forall (fun c => c ∉ set) l -> c ∈ set ->
  find_first_of (l ++ c :: r) set = Some (length l).
Proof.
  intros Hl Hc. induction Hl as [|x l Hx Hl IH]; simpl.
  - by rewrite bool_decide_eq_true_2.
  - by rewrite bool_decide_eq_false_2, IH.
Qed.

(** Trimming gives back a text that starts and ends with a byte that is not
    whitespace, and the whitespace around it. *)
Lemma trim3_tight s l r a b c1 c2 :
  head s = Some c1 -> c1 ∉ WS -> last s = Some c2 -> c2 ∉ WS ->
  Forall (fun c => c ∈ WS) l -> Forall (fun c => c ∈ WS) r ->
  trim3 (l ++ s ++ r) a b = (s, l, r).
Proof.
  intros Hh Hn1 Hl Hn2 Hwl Hwr.
  destruct s as [|x s']; [done |]. injection Hh as ->.
  unfold trim3.
  rewrite (trimleft_spec _ _ (length l)).
  2:{ cbn [app]. by apply find_first_not_of_app. }
  rewrite drop_app_length, take_app_length.
  apply last_Some in Hl as [s'' Hs]. rewrite Hs, <- app_assoc. cbn [app].
  rewrite (trimright2_spec _ _ (length s'')).
  2:{ by apply find_last_not_of_app. }
  replace (S (length s'')) with (length (s'' ++ [c2]))
    by (rewrite length_app; simpl; lia).
  rewrite (cons_middle c2 s'' r), app_assoc.
  by rewrite take_app_length, drop_app_length.
Qed.

Lemma plain_key_facts k :
  plain_key k = true ->
  ("="%char ∉ k) /\ (LF ∉ k)
  /\ exists c1 c2,
       head k = Some c1 /\ last k = Some c2 /\ (c1 ∉ WS) /\ (c2 ∉ WS)
       /\ (c1 ∉ ["#"; "!"; "{"; "}"; "<"; "%"]%char).
Proof.
  unfold plain_key. rewrite !andb_true_iff, !negb_true_iff.
  rewrite !bool_decide_eq_false. intros [[H1 H2] H3].
  split; [done |]. split; [done |].
  destruct (head k) as [c1|]; [| done]. destruct (last k) as [c2|]; [| done].
  rewrite !andb_true_iff, !negb_true_iff, !bool_decide_eq_false in H3.
  exists c1, c2. tauto.
Qed.

(** A line that starts with a byte of a plain key is a property line and
    not a template line. *)
Lemma classify_plain_start ln c1 :
  head ln = Some c1 -> c1 ∉ WS ->
  c1 ∉ ["#"; "!"; "{"; "}"; "<"; "%"]%char ->
  classify ln = Property
  /\ isTemplateStart ln = false /\ isTemplateVariable ln = false.
Proof.
  intros Hh Hn Hs. pose proof (first_nonws_head ln c1 Hh Hn) as Hf.
  assert (isEmptyLine ln = false) as He.
  { apply first_nonws_Some in Hf as [Hf _].
    by rewrite isEmptyLine_has_nonws, Hf. }
  rewrite !not_elem_of_cons in Hs. destruct Hs as (? & ? & ? & ? & ? & ? & _).
  unfold classify, isComment, isBlockStart, isBlockEnd, isTemplateStart,
    isTemplateVariable.
  rewrite Hf, He. rewrite !bool_decide_eq_false_2 by congruence. done.
Qed.

(** The entry and the property that the outer loop builds for the line
    [key = text], the text being empty or starting and ending with a byte
    that is not whitespace. *)
Lemma scan_property_written stack k w :
  plain_key k = true ->
  (w = [] \/ exists c1 c2, head w = Some c1 /\ (c1 ∉ WS)
                            /\ last w = Some c2 /\ (c2 ∉ WS)) ->
  scan_property stack (k ++ " = " ++ w)
  = ({| line := k ++ " = " ++ w; linetype := Property;
        key := prependPrefix stack k; bareKey := k;
        beforeKey := ""; afterKey := " ";
        beforeValue := " "; afterValue := ""; lacksAssignment := false |},
     [],
     {| pkey := prependPrefix stack k; value := unescape w;
        modified := false |}).
Proof.
  intros (Heq & _ & c1 & c2 & Hh & Hl & Hn1 & Hn2 & _)%plain_key_facts Hw.
  unfold scan_property.
  assert (find_first_of (k ++ " = " ++ w) "=" = Some (length (k ++ " ")))
    as ->.
  { change (k ++ " = " ++ w) with (k ++ " "%char :: "="%char :: " " ++ w).
    rewrite (cons_middle " "%char k), app_assoc.
    apply find_first_of_app; [| by left].
    apply Forall_app. split.
    - apply Forall_forall. intros c Hc [-> | H]%elem_of_cons; [done |].
      by apply elem_of_nil in H.
    - repeat constructor. by intros H%list_elem_of_singleton. }
  assert (substr (k ++ " = " ++ w) 0 (length (k ++ " ")) = k ++ " ") as ->.
  { unfold substr. rewrite drop_0.
    change (k ++ " = " ++ w) with (k ++ " "%char :: "="%char :: " " ++ w).
    rewrite (cons_middle " "%char k), app_assoc. by rewrite take_app_length. }
  assert (substr_from (k ++ " = " ++ w) (length (k ++ " ") + 1) = " " ++ w)
    as ->.
  { unfold substr_from.
    change (k ++ " = " ++ w) with (k ++ " "%char :: "="%char :: " " ++ w).
    rewrite (cons_middle " "%char k), app_assoc.
    rewrite (cons_middle "="%char (k ++ [" "%char])), app_assoc.
    replace (length (k ++ " ") + 1)
      with (length ((k ++ [" "%char]) ++ ["="%char]))
      by (rewrite !length_app; simpl; lia).
    by rewrite drop_app_length. }
  change (beforeKey (mkLine _)) with (list_ascii_of_string "").
  change (afterKey (mkLine _)) with (list_ascii_of_string " ").
  change (beforeValue (mkLine _)) with (list_ascii_of_string " ").
  change (afterValue (mkLine _)) with (list_ascii_of_string "").
  assert (Forall (fun c => c ∈ WS) (list_ascii_of_string " ")) as Hsp
    by (repeat constructor).
  pose proof (trim3_tight k [] " " "" " " c1 c2 Hh Hn1 Hl Hn2
                ltac:(constructor) Hsp) as Hkt.
  cbn [app] in Hkt. rewrite Hkt.
  destruct Hw as [-> | (d1 & d2 & Hwh & Hwn1 & Hwl & Hwn2)].
  - done.
  - pose proof (trim3_tight w " " [] " " "" d1 d2 Hwh Hwn1 Hwl Hwn2
                  Hsp ltac:(constructor)) as Hwt.
    rewrite app_nil_r in Hwt. by rewrite Hwt.
Qed.

Lemma last_app_nonempty (l1 l2 : cstring) :
  l2 ≠ [] -> last (l1 ++ l2) = last l2.
Proof.
  intros H. destruct l2 as [|x l2] using rev_ind; [done |].
  by rewrite app_assoc, !last_snoc.
Qed.

(** What [escape] writes for a storable value: nothing for the empty value,
    otherwise a text on one line that starts and ends with a byte that is
    not whitespace; [parse] reads the value back from it. *)
Lemma storable_value_written v :
  storable_value v = true ->
  (escape v = []
   \/ exists c1 c2, head (escape v) = Some c1 /\ (c1 ∉ WS)
                    /\ last (escape v) = Some c2 /\ (c2 ∉ WS))
  /\ (LF ∉ escape v)
  /\ unescape (escape v) = v
  /\ isMultiLine v = false
  /\ unquote v = v.
Proof.
  unfold storable_value. rewrite !andb_true_iff, !negb_true_iff.
  rewrite !bool_decide_eq_false. intros [[[Hlf Hfirst] Hq] Hlast].
  split; [| split; [| split; [by apply unescape_escaped | split;
                                 [| by apply unquote_id]]]].
  - destruct (last v) as [c|] eqn:Hl.
    2:{ left. apply last_None in Hl. by subst v. }
    right. apply andb_true_iff in Hlast as [Hn _].
    apply negb_true_iff, bool_decide_eq_false in Hn.
    rewrite (escape_no_newline v Hlf).
    destruct (find_first_not_of v WS) as [s|] eqn:Hs.
    + destruct (find_first_not_of_Some _ _ _ Hs) as [_ (c1 & Hc1 & Hn1)].
      assert (drop s v ≠ []) as Hne.
      { intros H. apply (f_equal length) in H. rewrite length_drop in H.
        apply lookup_lt_Some in Hc1. simpl in H. lia. }
      assert (last (drop s v) = Some c) as Hld.
      { rewrite <- (take_drop s v) in Hl. by rewrite last_app_nonempty in Hl. }
      destruct (take s v) as [|x l] eqn:Ht.
      * exists c1, c. simpl. repeat split; try done.
        by rewrite head_lookup, lookup_drop, Nat.add_0_r.
      * exists BSLASH, c. cbn [flat_map app head].
        repeat split; [apply BSLASH_not_ws | | done].
        change (BSLASH :: x :: flat_map (fun c => [BSLASH; c]) l ++ drop s v)
          with (flat_map (fun c => [BSLASH; c]) (x :: l) ++ drop s v).
        by rewrite last_app_nonempty.
    + apply find_first_not_of_None in Hs. apply last_Some in Hl as [l' ->].
      apply Forall_app in Hs as [_ Hs]. apply Forall_inv in Hs. done.
  - rewrite (escape_no_newline v Hlf).
    destruct (find_first_not_of v WS) as [s|]; [| done].
    rewrite elem_of_app. intros [Hin | Hin].
    + apply list_elem_of_In, in_flat_map in Hin as (c & Hc & Hin).
      apply list_elem_of_In in Hin.
      apply elem_of_cons in Hin as [H | Hin]; [done |].
      apply list_elem_of_singleton in Hin. subst c.
      apply Hlf. apply list_elem_of_In in Hc. by apply (subseteq_take s v).
    + apply Hlf. by apply (subseteq_drop s v).
  - destruct (last v) as [c|] eqn:Hl.
    2:{ apply last_None in Hl. by subst v. }
    apply andb_true_iff in Hlast as [Hn Hb].
    apply negb_true_iff, bool_decide_eq_false in Hn, Hb.
    unfold isMultiLine. rewrite (endswith_last v c BSLASH Hl Hn).
    by apply bool_decide_eq_false_2.
Qed.

(** X11.  What [put] and [text] write for a plain key and a storable value
    on a fresh object, [parse] reads back: the text is the one line
    [key = escape(value)], and after parsing it into a fresh object the key
    exists and [get] returns the value, leading whitespace included. *)
Theorem put_text_parse_roundtrip (k v : cstring) :
  plain_key k = true ->
  storable_value v = true ->
  text (put empty_doc k v).1 false = inr (k ++ " = " ++ escape v ++ [LF])
  /\ exists d,
       parse empty_doc (k ++ " = " ++ escape v ++ [LF]) = Returned d
       /\ hasKey d k = true
       /\ get d k = v.
Proof.
  intros Hk Hv.
  destruct (storable_value_written v Hv) as (Hw & Hlfw & Hun & Hml & Huq).
  pose proof (plain_key_facts k Hk)
    as (_ & Hlfk & c1 & c2 & Hh & _ & Hn1 & _ & Hs).
  set (ln := k ++ " = " ++ escape v).
  assert (head ln = Some c1) as Hhl by (unfold ln; by destruct k).
  destruct (classify_plain_start ln c1 Hhl Hn1 Hs) as (Hcls & Hts & Htv).
  assert (LF ∉ ln) as Hlfl.
  { assert (LF ∉ list_ascii_of_string " = ") by not_ws.
    unfold ln. rewrite !elem_of_app. by intros [? | [? | ?]]. }
  split.
  - unfold text, put, props_insert. cbn [empty_doc props lines prefixStack].
    rewrite lookup_empty. cbn [fst lines app text_lines].
    unfold text_line. cbn [put_line mkLine linetype key props].
    rewrite lookup_insert_eq. cbn.
    unfold ln. by rewrite <- !app_assoc.
  - assert (k ++ " = " ++ escape v ++ [LF] = unlines [ln]) as ->.
    { unfold unlines, ln. cbn [flat_map]. by rewrite app_nil_r, <- !app_assoc. }
    assert (preprocess (unlines [ln]) = inr (unlines [ln])) as Hpre.
    { unfold preprocess. rewrite getlines_unlines by (by constructor).
      rewrite (preprocess_lines_plain pre_init) by (by repeat constructor).
      done. }
    eexists. split; [by apply parse_Returned |].
    rewrite getlines_unlines by (by constructor).
    unfold parse_lines. cbn [fold_left].
    pose proof (parse_line_property (parse_init empty_doc) ln eq_refl Hcls)
      as Hstep.
    change (prefixStack (doc (parse_init empty_doc))) with (@nil cstring)
      in Hstep.
    unfold ln in Hstep.
    rewrite (scan_property_written [] k (escape v) Hk Hw) in Hstep.
    cbn [value] in Hstep. rewrite Hun, Hml in Hstep.
    subst ln. rewrite Hstep. unfold parse_end, hasKey, get.
    cbn [pending doc insert_prop props with_value pkey value modified].
    rewrite prependPrefix_nil, Huq.
    rewrite props_insert_lookup_new by done.
    split; [by apply bool_decide_eq_true_2 | done].
Qed.

Lemma put_text_parse_roundtrip_witness :
  let k : cstring := "str.with.leading.ws" in
  let v : cstring := "   " ++ ["009"%char] ++ "127.0.0.0" in
  text (put empty_doc k v).1 false = inr (k ++ " = " ++ escape v ++ [LF])
  /\ exists d,
       parse empty_doc (k ++ " = " ++ escape v ++ [LF]) = Returned d
       /\ hasKey d k = true
       /\ get d k = v.
Proof.
  apply put_text_parse_roundtrip; vm_compute; reflexivity.
Defined.

(** ** Prefix blocks *)

Lemma fold_left_join (sep : cstring) rest :
  forall a, fold_left (fun a b => a ++ sep ++ b) rest a
            = a ++ flat_map (fun b => sep ++ b) rest.
Proof.
  induction rest as [|b rest IH]; intros a; simpl.
  - by rewrite app_nil_r.
  - by rewrite IH, <- !app_assoc.
Qed.

Lemma flat_map_sep_shift (sep : cstring) rest :
  flat_map (fun b => sep ++ b) rest ++ sep
  = sep ++ flat_map (fun b => b ++ sep) rest.
Proof.
  induction rest as [|b rest IH]; simpl.
  - by rewrite app_nil_r.
  - by rewrite <- !app_assoc, IH.
Qed.

Lemma dotted_snoc stack p : dotted (stack ++ [p]) = dotted stack ++ p ++ ".".
Proof.
  unfold dotted. rewrite flat_map_app. simpl. by rewrite app_nil_r.
Qed.

Lemma parse_line_stack_nonempty st ln :
  Forall (fun p => p ≠ []) (prefixStack (doc st)) ->
  Forall (fun p => p ≠ []) (prefixStack (doc (parse_line st ln))).
Proof.
  intros H. unfold parse_line.
  destruct (pending st) as [prop|].
  { by destruct (isMultiLine (trim ln)). }
  destruct (isComment ln); [done |]. destruct (isEmptyLine ln); [done |].
  destruct (isBlockStart ln).
  { case_bool_decide as Hp; cbn [negb doc push_line prefixStack]; [done |].
    apply Forall_app. split; [done | by repeat constructor]. }
  destruct (isBlockEnd ln).
  { cbn [push_line prefixStack].
    case_bool_decide as Hs; cbn [negb doc push_line prefixStack]; [done |].
    destruct (prefixStack (doc st)) as [|x l _] using rev_ind; [done |].
    rewrite removelast_last. by apply Forall_app in H as [? _]. }
  destruct (scan_property _ ln) as [[entry prefix'] prop].
  by destruct (isMultiLine (value prop)).
Qed.

Lemma prependPrefix_dotted stack k :
  Forall (fun p : cstring => p ≠ []) stack ->
  prependPrefix stack k = dotted stack ++ k.
Proof.
  intros Hs. unfold prependPrefix, join, dotted.
  destruct Hs as [|v0 rest Hv0 _]; [done |].
  rewrite bool_decide_eq_false_2 by done. cbn [negb andb flat_map].
  rewrite fold_left_join.
  rewrite bool_decide_eq_false_2 by (by destruct v0).
  cbn [negb]. f_equal. rewrite <- !app_assoc. f_equal.
  apply flat_map_sep_shift.
Qed.

Lemma parse_lines_stack_nonempty ls :
  forall st,
    Forall (fun p => p ≠ []) (prefixStack (doc st)) ->
    Forall (fun p => p ≠ []) (prefixStack (doc (parse_lines st ls))).
Proof.
  induction ls as [|ln ls IH]; intros st Hst; [done |].
  apply (IH (parse_line st ln)). by apply parse_line_stack_nonempty.
Qed.

(** X12.  [parse] pushes no empty prefix: when no prefix on the stack is
    empty before [parse], none is after it; and for such a stack the
    qualified key that [prependPrefix] builds is every prefix followed by a
    dot, outermost first, and then the key. *)
Theorem prefixes_are_dotted (d : Properties) (stream : cstring) :
  Forall (fun p => p ≠ []) (prefixStack d) ->
  Forall (fun p => p ≠ []) (prefixStack (after (parse d stream)))
  /\ forall k,
       prependPrefix (prefixStack (after (parse d stream))) k
       = dotted (prefixStack (after (parse d stream))) ++ k.
Proof.
  intros Hd.
  assert (Forall (fun p => p ≠ []) (prefixStack (after (parse d stream))))
    as Hafter.
  { unfold parse. destruct (preprocess stream) as [e | buf]; [done |].
    cbn [after].
    pose proof (parse_lines_stack_nonempty (getlines buf) (parse_init d) Hd)
      as Hls.
    unfold parse_end. by destruct (pending _). }
  split; [done |]. intros k. by apply prependPrefix_dotted.
Qed.

Lemma prefixes_are_dotted_witness :
  let d := after (parse empty_doc (unlines (cstrings ["a"; "{"; "b"; "{"]))) in
  Forall (fun p => p ≠ []) (prefixStack d)
  /\ forall k, prependPrefix (prefixStack d) k = dotted (prefixStack d) ++ k.
Proof.
  apply (prefixes_are_dotted empty_doc). constructor.
Defined.

Lemma find_first_of_None str set :
  Forall (fun c => c ∉ set) str -> find_first_of str set = None.
Proof.
  induction 1 as [|c s Hc _ IH]; simpl; [done |].
  by rewrite bool_decide_eq_false_2, IH.
Qed.

Lemma trim_tight s c1 c2 :
  head s = Some c1 -> c1 ∉ WS -> last s = Some c2 -> c2 ∉ WS -> trim s = s.
Proof.
  intros Hh Hn1 Hl Hn2. unfold trim.
  pose proof (trim3_tight s [] [] [] [] c1 c2 Hh Hn1 Hl Hn2
                ltac:(constructor) ltac:(constructor)) as H.
  cbn [app] in H. rewrite app_nil_r in H. by rewrite H.
Qed.

(** The state of the scanner inside the blocks opened so far: outer loop,
    no empty prefix, and every key of the table shorter than the dotted
    prefix. *)
Lemma parse_lines_open_blocks ps :
  forall st,
    pending st = None ->
    Forall (fun p => p ≠ []) (prefixStack (doc st)) ->
    (forall q, is_Some (props (doc st) !! q) ->
               length q < length (dotted (prefixStack (doc st)))) ->
    Forall (fun p => plain_key p = true) ps ->
    let st' := parse_lines st (open_blocks ps) in
    pending st' = None
    /\ prefixStack (doc st') = prefixStack (doc st) ++ ps
    /\ (forall q, is_Some (props (doc st') !! q) ->
                  length q < length (dotted (prefixStack (doc st')))).
Proof.
  induction ps as [|p ps IH]; intros st Hpend Hne Hlen Hps st'.
  { unfold st'. cbn. by rewrite app_nil_r. }
  apply Forall_cons in Hps as [Hp Hps].
  pose proof (plain_key_facts p Hp)
    as (Heq & _ & c1 & c2 & Hh & Hl & Hn1 & Hn2 & Hs).
  destruct (classify_plain_start p c1 Hh Hn1 Hs) as (Hcls & _).
  assert (find_first_of p "=" = None) as Hnone.
  { apply find_first_of_None, Forall_forall.
    intros c Hc H%list_elem_of_singleton. by subst c. }
  destruct (scan_property_bare (prefixStack (doc st)) p Hnone)
    as (entry & Hscan & _).
  rewrite (trim_tight p c1 c2 Hh Hn1 Hl Hn2) in Hscan.
  pose proof (parse_line_property st p Hpend Hcls) as Hstep.
  rewrite Hscan in Hstep. cbn [value] in Hstep.
  change (isMultiLine []) with false in Hstep.
  unfold with_value in Hstep. cbn [pkey value modified] in Hstep.
  change (unquote []) with (@nil ascii) in Hstep.
  rewrite (prependPrefix_dotted _ p Hne) in Hstep.
  assert (p ≠ []) as Hpne by (by destruct p).
  set (st1 := parse_line (parse_line st p) "{").
  assert (pending st1 = None
          /\ prefixStack (doc st1) = prefixStack (doc st) ++ [p]
          /\ props (doc st1)
             = props_insert (dotted (prefixStack (doc st)) ++ p)
                 {| pkey := dotted (prefixStack (doc st)) ++ p; value := [];
                    modified := false |} (props (doc st)))
    as (Hpend1 & Hstack1 & Hprops1).
  { unfold st1. rewrite Hstep. unfold parse_line.
    cbn [pending prefix doc].
    change (isComment "{") with false. change (isEmptyLine "{") with false.
    change (isBlockStart "{") with true. cbn iota.
    rewrite bool_decide_eq_false_2 by done. by cbn. }
  change (open_blocks (p :: ps)) with (p :: list_ascii_of_string "{" :: open_blocks ps)
    in st'.
  change st' with (parse_lines st1 (open_blocks ps)).
  destruct (IH st1) as (H1 & H2 & H3); [done | | | done |].
  - rewrite Hstack1. apply Forall_app. by split; [| repeat constructor].
  - intros q Hq. rewrite Hstack1, dotted_snoc, !length_app.
    rewrite Hprops1 in Hq. unfold props_insert in Hq.
    assert (is_Some (props (doc st) !! q)
            \/ q = dotted (prefixStack (doc st)) ++ p) as [Hold | ->].
    { destruct (props (doc st) !! _) eqn:E; [by left |].
      destruct (decide (q = dotted (prefixStack (doc st)) ++ p)) as [-> | Hne'];
        [by right | left]. by rewrite lookup_insert_ne in Hq. }
    + specialize (Hlen q Hold). lia.
    + rewrite length_app. simpl. lia.
  - split; [done |]. split; [| done].
    by rewrite H2, Hstack1, <- app_assoc.
Qed.

(** X13.  Blocks nest to any depth: after a bare key and an opening brace
    for each of the plain keys [ps], outermost first, the line
    [key = escape(value)] is stored under the keys of [ps] joined with dots
    and followed by the key; [get] returns the value for it, and the blocks
    that were not closed stay on the prefix stack of the object. *)
Theorem nested_blocks_qualify_key (ps : list cstring) (k v : cstring) :
  Forall (fun p => plain_key p = true) ps ->
  plain_key k = true ->
  storable_value v = true ->
  exists d,
    parse empty_doc (unlines (open_blocks ps ++ [k ++ " = " ++ escape v]))
    = Returned d
    /\ get d (dotted ps ++ k) = v
    /\ hasKey d (dotted ps ++ k) = true
    /\ prefixStack d = ps.
Proof.
  intros Hps Hk Hv.
  destruct (storable_value_written v Hv) as (Hw & Hlfw & Hun & Hml & Huq).
  pose proof (plain_key_facts k Hk)
    as (_ & Hlfk & c1 & c2 & Hh & _ & Hn1 & _ & Hs).
  set (ln := k ++ " = " ++ escape v).
  assert (head ln = Some c1) as Hhl by (unfold ln; by destruct k).
  destruct (classify_plain_start ln c1 Hhl Hn1 Hs) as (Hcls & Hts & Htv).
  assert (LF ∉ ln) as Hlfl.
  { assert (LF ∉ list_ascii_of_string " = ") by not_ws.
    unfold ln. rewrite !elem_of_app. by intros [? | [? | ?]]. }
  assert (Forall (fun l => LF ∉ l) (open_blocks ps ++ [ln])) as Hlf.
  { apply Forall_app. split; [| by constructor].
    unfold open_blocks. apply Forall_flat_map.
    eapply Forall_impl; [exact Hps |]. intros p Hp.
    apply plain_key_facts in Hp as (_ & Hlfp & _).
    repeat constructor; [done | not_ws]. }
  assert (Forall (fun l => isTemplateStart l = false
                           /\ isTemplateVariable l = false)
            (open_blocks ps ++ [ln])) as Hplain.
  { apply Forall_app. split; [| by constructor].
    unfold open_blocks. apply Forall_flat_map.
    eapply Forall_impl; [exact Hps |]. intros p Hp.
    apply plain_key_facts in Hp as (_ & _ & d1 & d2 & Hd1 & _ & Hdn & _ & Hds).
    destruct (classify_plain_start p d1 Hd1 Hdn Hds) as (_ & ? & ?).
    by repeat constructor. }
  assert (preprocess (unlines (open_blocks ps ++ [ln]))
          = inr (unlines (open_blocks ps ++ [ln]))) as Hpre.
  { unfold preprocess. rewrite getlines_unlines by done.
    by rewrite (preprocess_lines_plain pre_init). }
  eexists. split; [by apply parse_Returned |].
  rewrite getlines_unlines by done. rewrite parse_lines_app.
  destruct (parse_lines_open_blocks ps (parse_init empty_doc))
    as (Hpend & Hstack & Hlen); [done | constructor | | done |].
  { intros q [p Hq]. cbn [parse_init doc empty_doc props] in Hq.
    by rewrite lookup_empty in Hq. }
  set (st := parse_lines (parse_init empty_doc) (open_blocks ps)) in *.
  cbn [parse_init doc empty_doc prefixStack app] in Hstack.
  change (parse_lines st [ln]) with (parse_line st ln).
  pose proof (parse_line_property st ln Hpend Hcls) as Hstep.
  unfold ln in Hstep.
  rewrite (scan_property_written _ k (escape v) Hk Hw) in Hstep.
  cbn [value] in Hstep. rewrite Hun, Hml in Hstep.
  assert (Forall (fun p : cstring => p ≠ []) ps) as Hne.
  { eapply Forall_impl; [exact Hps |]. intros p Hp.
    apply plain_key_facts in Hp as (_ & _ & d1 & _ & Hd1 & _). by destruct p. }
  rewrite Hstack, (prependPrefix_dotted ps k Hne) in Hstep.
  subst ln. rewrite Hstep. unfold parse_end, hasKey, get.
  cbn [pending doc insert_prop push_line props prefixStack with_value pkey
       value modified].
  rewrite Huq, props_insert_lookup_new.
  - split; [done |]. split; [by apply bool_decide_eq_true_2 | done].
  - destruct (props (doc st) !! (dotted ps ++ k)) eqn:E; [| done].
    specialize (Hlen (dotted ps ++ k) ltac:(eauto)).
    rewrite Hstack, length_app in Hlen. lia.
Qed.

Lemma nested_blocks_qualify_key_witness :
  exists d,
    parse empty_doc
      (unlines (cstrings ["server"; "{"; "log"; "{"; "level = debug"]))
    = Returned d
    /\ get d "server.log.level" = "debug"
    /\ hasKey d "server.log.level" = true
    /\ prefixStack d = cstrings ["server"; "log"].
Proof.
  apply (nested_blocks_qualify_key (cstrings ["server"; "log"]) "level" "debug").
  - repeat constructor.
  - vm_compute. reflexivity.
  - vm_compute. reflexivity.
Defined.

(** ** Snapshots *)

(** X14.  [keys()] lists exactly the keys that [hasKey] accepts, each once;
    [values()] has one value for each of them, and at the same position as a
    key stands the value that [get] returns for it. *)
Theorem keys_values_snapshot (d : Properties) :
  (forall k, k ∈ keys d <-> hasKey d k = true)
  /\ NoDup (keys d)
  /\ length (keys d) = size (props d)
  /\ length (values d) = size (props d)
  /\ (forall i k, keys d !! i = Some k -> values d !! i = Some (get d k)).
Proof.
  unfold keys, values, hasKey, get.
  split; [| split; [| split; [| split]]].
  - intros k. rewrite bool_decide_eq_true, list_elem_of_fmap. split.
    + intros ([k' p] & -> & Hin%elem_of_map_to_list). by exists p.
    + intros [p Hp]. exists (k, p). by rewrite elem_of_map_to_list.
  - apply (NoDup_fst_map_to_list (props d)).
  - by rewrite length_fmap, length_map_to_list.
  - by rewrite length_fmap, length_map_to_list.
  - intros i k. rewrite !list_lookup_fmap.
    destruct (map_to_list (props d) !! i) as [[k' p]|] eqn:E; [| done].
    simpl. intros [= ->].
    apply list_elem_of_lookup_2, elem_of_map_to_list in E. by rewrite E.
Qed.

Lemma keys_values_snapshot_witness :
  let d := after (parse empty_doc (unlines (cstrings ["a = 1"; "b"]))) in
  ("a" : cstring) ∈ keys d /\ ("c" : cstring) ∉ keys d.
Proof.
  intros d. split.
  - apply (proj1 (keys_values_snapshot d)). vm_compute. reflexivity.
  - intros H. apply (proj1 (keys_values_snapshot d)) in H.
    vm_compute in H. discriminate.
Defined.

(** ** What [parse] keeps *)

(** X15.  [parse] only adds to the object it is called on: every Property
    that was in the table is still there, unchanged, so a key that is
    already present is never given the value of the input; the line entries
    that were there stay in front, and behind them comes one entry per line
    of the expanded input, in the order read and holding the line as read.
    Every Property that [parse] adds is unmodified. *)
Theorem parse_only_adds (d : Properties) (stream buf : cstring) :
  preprocess stream = inr buf ->
  let d' := after (parse d stream) in
  (forall k p, props d !! k = Some p -> props d' !! k = Some p)
  /\ lines d `prefix_of` lines d'
  /\ line <$> lines d' = (line <$> lines d) ++ getlines buf
  /\ (forall k p, props d' !! k = Some p -> props d !! k = None ->
                  modified p = false).
Proof.
  intros Hpre d'. unfold d'. rewrite (parse_Returned _ _ _ Hpre). cbn [after].
  split; [| split; [| split]].
  - intros k p Hp. by apply parse_end_props_mono, parse_lines_props_mono.
  - rewrite parse_end_lines. apply (parse_lines_prefix (parse_init d)).
  - by rewrite parse_end_lines, parse_lines_lines.
  - assert (forall ls st,
              (forall p, pending st = Some p -> modified p = false) ->
              (forall k p, props (doc st) !! k = Some p ->
                           props d !! k = None -> modified p = false) ->
              forall k p, props (parse_end (parse_lines st ls)) !! k = Some p ->
                          props d !! k = None -> modified p = false) as H.
    { induction ls as [|ln ls IH]; intros st Hpend Hprops.
      - unfold parse_end. cbn [parse_lines fold_left].
        destruct (pending st) as [q|] eqn:E; [| done].
        intros k p Hp Hnone. cbn [insert_prop props] in Hp.
        unfold props_insert in Hp.
        destruct (props (doc st) !! pkey q) eqn:E'; [by eapply Hprops |].
        apply lookup_insert_Some in Hp as [[_ <-] | [_ Hp]];
          [by apply Hpend | by eapply Hprops].
      - apply (IH (parse_line st ln)).
        + intros p. unfold parse_line.
          destruct (pending st) as [q|] eqn:E.
          * destruct (isMultiLine (trim ln)); [| done].
            intros [= <-]. cbn [with_value modified]. by apply Hpend.
          * destruct (isComment ln); [done |].
            destruct (isEmptyLine ln); [done |].
            destruct (isBlockStart ln); [done |].
            destruct (isBlockEnd ln); [done |].
            pose proof (scan_property_key (prefixStack (doc st)) ln) as Hs.
            destruct (scan_property _ ln) as [[entry prefix'] prop].
            destruct Hs as (_ & _ & _ & _ & _ & _ & Hm).
            destruct (isMultiLine (value prop)); [| done].
            intros [= <-]. by cbn [with_value modified].
        + intros k p. unfold parse_line.
          assert (forall q m, modified q = false ->
                    props_insert (pkey q) q m !! k = Some p ->
                    (m !! k = Some p \/ modified p = false)) as Hins.
          { intros q m Hq Hp. unfold props_insert in Hp.
            destruct (m !! pkey q); [by left |].
            apply lookup_insert_Some in Hp as [[_ <-] | [_ Hp]]; auto. }
          destruct (pending st) as [q|] eqn:E.
          * destruct (isMultiLine (trim ln)); [by apply Hprops |].
            cbn [doc insert_prop push_line props]. intros Hp Hnone.
            apply (Hins (with_value q _)) in Hp as [Hp | Hp];
              [by eapply Hprops | done |].
            cbn [with_value modified]. by apply Hpend.
          * destruct (isComment ln); [by apply Hprops |].
            destruct (isEmptyLine ln); [by apply Hprops |].
            destruct (isBlockStart ln).
            { destruct (negb _); by apply Hprops. }
            destruct (isBlockEnd ln).
            { destruct (negb _); by apply Hprops. }
            pose proof (scan_property_key (prefixStack (doc st)) ln) as Hs.
            destruct (scan_property _ ln) as [[entry prefix'] prop].
            destruct Hs as (_ & _ & _ & _ & _ & _ & Hm).
            destruct (isMultiLine (value prop)); [by apply Hprops |].
            cbn [doc insert_prop push_line props]. intros Hp Hnone.
            apply (Hins (with_value prop _)) in Hp as [Hp | Hp];
              [by eapply Hprops | done |].
            by cbn [with_value modified]. }
    apply (H (getlines buf) (parse_init d)); [done |].
    intros k p Hp Hnone. cbn [parse_init doc] in Hp. congruence.
Qed.

Lemma parse_only_adds_witness :
  let d := (put empty_doc "a" "0").1 in
  let d' := after (parse d duplicate_input) in
  (forall k p, props d !! k = Some p -> props d' !! k = Some p)
  /\ lines d `prefix_of` lines d'
  /\ line <$> lines d' = (line <$> lines d) ++ getlines duplicate_input
  /\ (forall k p, props d' !! k = Some p -> props d !! k = None ->
                  modified p = false).
Proof.
  apply (parse_only_adds _ duplicate_input duplicate_input).
  vm_compute. reflexivity.
Defined.

(** ** Values over several lines *)

(** The inner loop over lines that end in a backslash: each adds its piece
    to the value and nothing to the table. *)
Lemma parse_lines_continuation conts :
  forall st prop,
    pending st = Some prop ->
    Forall (fun c => isMultiLine (trim c) = true) conts ->
    pending (parse_lines st conts)
    = Some (with_value prop (value prop ++ flat_map continuation_piece conts))
    /\ props (doc (parse_lines st conts)) = props (doc st).
Proof.
  induction conts as [|c conts IH]; intros st prop Hp Hc.
  - cbn. rewrite app_nil_r. by destruct prop.
  - apply Forall_cons in Hc as [Hc Hcs].
    change (parse_lines st (c :: conts))
      with (parse_lines (parse_line st c) conts).
    assert (parse_line st c
            = {| doc := push_line (doc st)
                          (with_linetype (mkLine c) MultilineValue);
                 prefix := prefix st;
                 pending := Some (with_value prop
                                    (value prop ++ continuation_piece c)) |})
      as Hstep.
    { unfold parse_line. by rewrite Hp, Hc. }
    destruct (IH (parse_line st c)
                (with_value prop (value prop ++ continuation_piece c)))
      as [H1 H2]; [by rewrite Hstep | done |].
    rewrite H1, H2, Hstep. cbn [with_value pkey value modified flat_map doc
                                 push_line props].
    by rewrite <- app_assoc.
Qed.

(** X16.  A value that ends in a backslash is continued on the lines that
    follow, up to and including the first line that does not end in one:
    each of these lines is taken as text, whatever it looks like, and
    [get] returns the first piece, trimmed on the right and unquoted,
    followed by the pieces of the lines that end in a backslash and the
    trimmed and unquoted last line, when the key had no Property before. *)
Theorem multiline_value_is_joined
    (d : Properties) (stream buf : cstring) (ls1 conts ls2 : list cstring)
    (ln final : cstring) :
  preprocess stream = inr buf ->
  getlines buf = ls1 ++ ln :: conts ++ final :: ls2 ->
  pending (parse_lines (parse_init d) ls1) = None ->
  classify ln = Property ->
  isMultiLine (unescape (line_value ln)) = true ->
  Forall (fun c => isMultiLine (trim c) = true) conts ->
  isMultiLine (trim final) = false ->
  let st1 := parse_lines (parse_init d) ls1 in
  let k := prependPrefix (prefixStack (doc st1)) (line_key ln) in
  props (doc st1) !! k = None ->
  get (after (parse d stream)) k
  = unquote (trimright (pop_back (unescape (line_value ln))))
    ++ flat_map continuation_piece conts
    ++ unquote (trim final)
  /\ pending (parse_lines st1 (ln :: conts ++ [final])) = None.
Proof.
  intros Hpre Hls Hpend Hcls Hml Hconts Hfinal st1 k Hnone.
  rewrite (parse_Returned _ _ _ Hpre), Hls. cbn [after].
  rewrite parse_lines_app. fold st1.
  pose proof (parse_line_property st1 ln Hpend Hcls) as Hstep.
  pose proof (scan_property_key (prefixStack (doc st1)) ln) as Hscan.
  destruct (scan_property (prefixStack (doc st1)) ln)
    as [[entry prefix'] prop].
  destruct Hscan as (_ & Hkp & _ & _ & _ & Hv & Hm).
  rewrite Hv, Hml in Hstep. fold k in Hkp.
  set (first := unquote (trimright (pop_back (unescape (line_value ln))))) in *.
  set (st2 := parse_line st1 ln) in *.
  destruct (parse_lines_continuation conts st2 (with_value prop first))
    as [Hp3 Hprops3]; [by rewrite Hstep | done |].
  set (st3 := parse_lines st2 conts) in *.
  cbn [with_value pkey value modified] in Hp3.
  assert (parse_line st3 final
          = {| doc := insert_prop
                        (push_line (doc st3)
                           (with_linetype (mkLine final) MultilineValue))
                        {| pkey := k;
                           value := (first ++ flat_map continuation_piece conts)
                                    ++ unquote (trim final);
                           modified := false |};
               prefix := prefix st3; pending := None |}) as Hstep4.
  { unfold parse_line. rewrite Hp3, Hfinal.
    unfold with_value. cbn [pkey value modified]. by rewrite Hkp, Hm. }
  assert (props (doc (parse_line st3 final)) !! k
          = Some {| pkey := k;
                    value := (first ++ flat_map continuation_piece conts)
                             ++ unquote (trim final);
                    modified := false |}) as Hk.
  { rewrite Hstep4. cbn [doc insert_prop push_line props pkey].
    apply props_insert_lookup_new. rewrite Hprops3, Hstep.
    by cbn [doc push_line props]. }
  split.
  - change (parse_lines st1 (ln :: conts ++ final :: ls2))
      with (parse_lines st2 (conts ++ final :: ls2)).
    rewrite parse_lines_app. fold st3.
    change (parse_lines st3 (final :: ls2))
      with (parse_lines (parse_line st3 final) ls2).
    unfold get.
    rewrite (parse_end_props_mono _ _ _
               (parse_lines_props_mono _ ls2 _ _ Hk)).
    cbn [value]. by rewrite <- app_assoc.
  - change (parse_lines st1 (ln :: conts ++ [final]))
      with (parse_lines st2 (conts ++ [final])).
    rewrite parse_lines_app. fold st3.
    change (parse_lines st3 [final]) with (parse_line st3 final).
    by rewrite Hstep4.
Qed.

Lemma multiline_value_is_joined_witness :
  get (after (parse empty_doc
                (unlines (cstrings ["# text"; "words = a few \";
                                    "   # words on \"; "   { separate } \";
                                    "   lines"; "next = 1"]))))
    "words"
  = "a few# words on { separate } lines".
Proof.
  eapply (proj1 (multiline_value_is_joined empty_doc _ _
                   (cstrings ["# text"])
                   (cstrings ["   # words on \"; "   { separate } \"])
                   (cstrings ["next = 1"]) "words = a few \" "   lines"
                   _ _ _ _ _ _ _ _)).
  Unshelve.
  all: try (vm_compute; reflexivity).
  repeat constructor.
Defined.

(** ** Rendering after [remove] *)

(** In original mode an entry is rendered the same way whatever the entry
    before it was. *)
Lemma text_line_original_prev d st st' e :
  ss st = ss st' -> prefixDepth st = prefixDepth st' ->
  match text_line d false st e, text_line d false st' e with
  | inr r, inr r' => ss r = ss r' /\ prefixDepth r = prefixDepth r'
  | inl x, inl x' => x = x'
  | _, _ => False
  end.
Proof.
  intros Hs Hd. unfold text_line. rewrite Hs, Hd.
  destruct (linetype e); try done.
  - by destruct (props d !! key e).
  - by destruct (string_n _ _).
  - by destruct (string_n _ _).
Qed.

(** X17.  After [remove(key)], [text] in original mode is the text of the
    object without the property entries of the key: their lines are left
    out and every other line is written as before. *)
Theorem remove_drops_lines (d : Properties) (k : cstring) :
  text (remove d k) false
  = text {| props := props d;
            lines := filter (fun e => ~ (linetype e = Property /\ key e = k))
                       (lines d);
            prefixStack := prefixStack d |} false.
Proof.
  set (keep := fun e : Line => ~ (linetype e = Property /\ key e = k)).
  set (d' := {| props := props d; lines := filter keep (lines d);
                prefixStack := prefixStack d |}).
  assert (forall ls st st',
            ss st = ss st' -> prefixDepth st = prefixDepth st' ->
            match text_lines (remove d k) false st ls,
                  text_lines d' false st' (filter keep ls) with
            | inr r, inr r' => ss r = ss r'
            | inl x, inl x' => x = x'
            | _, _ => False
            end) as H.
  { induction ls as [|e ls IH]; intros st st' Hs Hd; [done |].
    cbn [text_lines]. rewrite filter_cons.
    destruct (decide (keep e)) as [Hk | Hk].
    - cbn [text_lines].
      rewrite (text_line_props_ext (remove d k) d' false st e).
      2:{ intros Ht. cbn [remove props d']. apply lookup_delete_ne.
          intros Heq. by apply Hk. }
      pose proof (text_line_original_prev d' st st' e Hs Hd) as Hstep.
      destruct (text_line d' false st e), (text_line d' false st' e);
        try done.
      destruct Hstep. by apply IH.
    - apply dec_stable in Hk as [Ht <-].
      assert (text_line (remove d (key e)) false st e
              = inr {| ss := ss st; prev := Some e;
                       prefixDepth := prefixDepth st |}) as ->.
      { unfold text_line. rewrite Ht. cbn [remove props].
        by rewrite lookup_delete_eq. }
      by apply IH. }
  specialize (H (lines d) text_init text_init eq_refl eq_refl).
  unfold text. cbn [remove lines] in *. cbn [d' lines].
  destruct (text_lines _ false text_init (lines d)),
    (text_lines d' false text_init (filter keep (lines d))); try done;
    congruence.
Qed.

(** ** Quoted values *)

(** X18.  One pair of quotes around a value protects what is between them:
    for a plain key and any text without a newline, the line
    [key = "text"] (or with single quotes) is read as the text itself, with
    its leading and trailing whitespace and even a backslash at its end;
    only for the empty text the two quotes are the value. *)
Theorem quoted_value_is_read_back (k w : cstring) (q : ascii) :
  plain_key k = true ->
  q = SQUOTE \/ q = DQUOTE ->
  LF ∉ w ->
  exists d,
    parse empty_doc (k ++ " = " ++ (q :: w ++ [q]) ++ [LF]) = Returned d
    /\ get d k = if bool_decide (w = []) then [q; q] else w.
Proof.
  intros Hk Hq Hlfw.
  pose proof (plain_key_facts k Hk)
    as (_ & Hlfk & c1 & c2 & Hh & _ & Hn1 & _ & Hs).
  assert ((q ∉ WS) /\ q ≠ BSLASH /\ q ≠ LF) as (Hqn & Hqb & Hql).
  { destruct Hq as [-> | ->]; (split; [not_ws | split; discriminate]). }
  set (w' := q :: w ++ [q]).
  set (ln := k ++ " = " ++ w').
  assert (head ln = Some c1) as Hhl by (unfold ln; by destruct k).
  destruct (classify_plain_start ln c1 Hhl Hn1 Hs) as (Hcls & Hts & Htv).
  assert (last w' = Some q) as Hlast.
  { unfold w'. by rewrite app_comm_cons, last_snoc. }
  assert (LF ∉ ln) as Hlfl.
  { assert (LF ∉ list_ascii_of_string " = ") by not_ws.
    unfold ln, w'. rewrite !elem_of_app, elem_of_cons, elem_of_app.
    rewrite list_elem_of_singleton.
    intros [? | [? | [? | [? | ?]]]]; done || congruence. }
  assert (k ++ " = " ++ w' ++ [LF] = unlines [ln]) as ->.
  { unfold unlines, ln. cbn [flat_map]. by rewrite app_nil_r, <- !app_assoc. }
  assert (preprocess (unlines [ln]) = inr (unlines [ln])) as Hpre.
  { unfold preprocess. rewrite getlines_unlines by (by constructor).
    by rewrite (preprocess_lines_plain pre_init) by (by repeat constructor). }
  eexists. split; [by apply parse_Returned |].
  rewrite getlines_unlines by (by constructor).
  change (parse_lines (parse_init empty_doc) [ln])
    with (parse_line (parse_init empty_doc) ln).
  pose proof (parse_line_property (parse_init empty_doc) ln eq_refl Hcls)
    as Hstep.
  change (prefixStack (doc (parse_init empty_doc))) with (@nil cstring)
    in Hstep.
  unfold ln in Hstep.
  rewrite (scan_property_written [] k w' Hk) in Hstep.
  2:{ right. by exists q, q. }
  cbn [value] in Hstep.
  rewrite (unescape_id w') in Hstep by (cbn; congruence).
  assert (isMultiLine w' = false) as Hml.
  { unfold isMultiLine. rewrite (endswith_last w' q BSLASH Hlast Hqn).
    by apply bool_decide_eq_false_2. }
  rewrite Hml in Hstep. subst ln. rewrite Hstep.
  unfold parse_end, get.
  cbn [pending doc insert_prop push_line props with_value pkey value modified].
  rewrite prependPrefix_nil, props_insert_lookup_new by done. cbn [value].
  unfold unquote. rewrite Hlast. cbn [head w'].
  assert (bool_decide (Some q = Some SQUOTE)
          && bool_decide (Some q = Some SQUOTE)
          || bool_decide (Some q = Some DQUOTE)
             && bool_decide (Some q = Some DQUOTE) = true) as ->
    by (by destruct Hq as [-> | ->]).
  rewrite andb_true_r.
  destruct w as [|x w0].
  - done.
  - rewrite bool_decide_eq_true_2.
    2:{ unfold w'. cbn [length]. rewrite length_app. simpl. lia. }
    rewrite (bool_decide_eq_false_2 (x :: w0 = [])) by done.
    apply (substr_inner q q (x :: w0)).
Qed.

Lemma quoted_value_is_read_back_witness :
  exists d,
    parse empty_doc
      ("spaces" ++ " = " ++ (DQUOTE :: "  to spaces before and after  "
                               ++ [DQUOTE]) ++ [LF])
    = Returned d
    /\ get d "spaces" = "  to spaces before and after  ".
Proof.
  apply (quoted_value_is_read_back "spaces" "  to spaces before and after  "
           DQUOTE).
  - vm_compute. reflexivity.
  - by right.
  - apply (bool_decide_unpack _). vm_compute. exact I.
Defined.

(** ** Trimming *)

(** X19.  [trim] cuts whitespace off both ends and nothing else: the string
    is the whitespace cut off on the left, the result, and the whitespace
    cut off on the right; the result neither starts nor ends with
    whitespace, it is empty exactly for a string of whitespace only, and
    trimming it again changes nothing. *)
Theorem trim_cuts_whitespace (str : cstring) :
  (exists l r, str = l ++ trim str ++ r
               /\ Forall (fun c => c ∈ WS) l /\ Forall (fun c => c ∈ WS) r)
  /\ (forall c, head (trim str) = Some c -> c ∉ WS)
  /\ (forall c, last (trim str) = Some c -> c ∉ WS)
  /\ (trim str = [] <-> Forall (fun c => c ∈ WS) str)
  /\ trim (trim str) = trim str.
Proof.
  destruct (has_nonws str) eqn:E.
  - destruct (trim3_decompose str [] [] E)
      as (core & l & r & c1 & c2 & H1 & H2 & Hh & Hn1 & Hl & Hn2 & Hwl & Hwr).
    assert (trim str = core) as -> by (unfold trim; by rewrite H1).
    split; [by exists l, r |]. split; [congruence |]. split; [congruence |].
    split; [| by apply (trim_tight core c1 c2)].
    split.
    + intros ->. done.
    + intros Hall. apply has_nonws_true in E as [i Hi].
      apply (find_first_not_of_None WS) in Hall. congruence.
  - rewrite (trim_all_ws _ E).
    assert (Forall (fun c => c ∈ WS) str) as Hall.
    { apply (find_first_not_of_None WS). unfold has_nonws in E.
      apply bool_decide_eq_false in E.
      destruct (find_first_not_of str WS); [destruct E; eauto | done]. }
    split; [exists str, []; by rewrite app_nil_r |].
    split; [done |]. split; [done |]. split; [done | done].
Qed.

Lemma trim_cuts_whitespace_witness :
  ("a"%char ∉ WS) /\ trim (trim "  a b  ") = trim "  a b  ".
Proof.
  split.
  - apply (proj1 (proj2 (trim_cuts_whitespace "  a b  ")) "a"%char).
    vm_compute. reflexivity.
  - apply (trim_cuts_whitespace "  a b  ").
Defined.

(** ** Appending a commented property *)

(** X20.  An empty line, a comment and a new property appended one after
    the other come out at the end of the text, in this order and each on its
    line, behind the text of the object as it was: a newline, the comment
    behind a hash and a space, and [key = escape(value)].  The key has no
    Property and no entry before, and the comment starts with neither a hash
    nor an exclamation mark. *)
Theorem append_commented_property
    (d : Properties) (comment k v s : cstring) :
  props d !! k = None ->
  (forall e, e ∈ lines d -> linetype e = Property -> key e ≠ k) ->
  has_nonws comment = true ->
  head (trim comment) ≠ Some "#"%char ->
  head (trim comment) ≠ Some "!"%char ->
  text d false = inr s ->
  text (put (putComment (putEmptyLine d) comment) k v).1 false
  = inr (s ++ [LF] ++ ("# " ++ trim comment) ++ [LF]
           ++ k ++ " = " ++ escape v ++ [LF]).
Proof.
  intros Hnone Hfresh Hnw Hc1 Hc2 Htext.
  assert (putComment (putEmptyLine d) comment
          = push_line (putEmptyLine d)
              (with_linetype (mkLine ("# " ++ trim comment)) Comment)) as Hpc.
  { unfold putComment.
    rewrite bool_decide_eq_false_2 by (by apply trim_nonempty).
    by rewrite !bool_decide_eq_false_2. }
  rewrite Hpc. unfold put, putEmptyLine.
  cbn [push_line props lines prefixStack]. rewrite Hnone.
  unfold props_insert. rewrite Hnone. cbn [fst].
  unfold text in *. cbn [lines props].
  set (d' := {| props := <[k:=_]> (props d) |}).
  rewrite !text_lines_app.
  rewrite (text_lines_props_ext d' d).
  2:{ intros e He Ht. cbn [d' props]. rewrite lookup_insert_ne; [done |].
      intros Heq. by apply (Hfresh e He Ht). }
  destruct (text_lines d false text_init (lines d)) as [x | st]; [done |].
  injection Htext as <-.
  cbn [text_lines]. unfold text_line at 1. cbn [with_linetype linetype negb orb].
  unfold text_line at 1. cbn [with_linetype linetype mkLine line].
  rewrite (text_line_put_line d' _ k v
             {| pkey := k; value := v; modified := true |});
    [| by cbn [d' props]; rewrite lookup_insert_eq | done].
  cbn [ss]. by rewrite <- !app_assoc.
Qed.

Lemma append_commented_property_witness :
  text (put (putComment (putEmptyLine
                           (after (parse empty_doc
                                     (unlines (cstrings ["a = 1"])))))
               "A new property") "somekey" "some value").1 false
  = inr (unlines (cstrings ["a = 1"; ""; "# A new property";
                            "somekey = some value"])).
Proof.
  apply (append_commented_property
           (after (parse empty_doc (unlines (cstrings ["a = 1"]))))
           "A new property" "somekey" "some value"
           (unlines (cstrings ["a = 1"]))).
  - vm_compute. reflexivity.
  - intros e He _ Hk. vm_compute in He.
    apply list_elem_of_singleton in He. subst e. vm_compute in Hk.
    discriminate.
  - vm_compute. reflexivity.
  - vm_compute. discriminate.
  - vm_compute. discriminate.
  - vm_compute. reflexivity.
Defined.

(** ** Updating a value in place *)

(** What an entry adds to the text depends on the entry before it and on
    the depth, not on the text so far. *)
Lemma text_line_shift d prettyPrint st e r :
  text_line d prettyPrint st e = inr r ->
  exists delta,
    ss r = ss st ++ delta
    /\ forall st',
         prev st' = prev st -> prefixDepth st' = prefixDepth st ->
         text_line d prettyPrint st' e
         = inr {| ss := ss st' ++ delta; prev := prev r;
                  prefixDepth := prefixDepth r |}.
Proof.
  unfold text_line.
  assert (forall (a : cstring) (depth : Z),
            exists delta,
              ss {| ss := ss st ++ a; prev := Some e; prefixDepth := depth |}
              = ss st ++ delta
              /\ forall st' : TextState,
                   inr {| ss := ss st' ++ a; prev := Some e;
                          prefixDepth := depth |}
                   = (inr {| ss := ss st' ++ delta; prev := Some e;
                             prefixDepth := depth |} : exn + TextState))
    as Happ by (intros a depth; by exists a).
  assert (forall (depth : Z),
            exists delta,
              ss {| ss := ss st; prev := Some e; prefixDepth := depth |}
              = ss st ++ delta
              /\ forall st' : TextState,
                   inr {| ss := ss st'; prev := Some e;
                          prefixDepth := depth |}
                   = (inr {| ss := ss st' ++ delta; prev := Some e;
                             prefixDepth := depth |} : exn + TextState))
    as Hnil.
  { intros depth. exists []. split; [by rewrite app_nil_r |].
    intros st'. by rewrite app_nil_r. }
  destruct (linetype e).
  - destruct (props d !! key e) as [p|].
    + destruct prettyPrint.
      * destruct (if (0 <? prefixDepth st)%Z then _ else _) as [x | indent]
          eqn:E; [done |].
        intros [= <-]. destruct (Happ (indent ++ bareKey e
                        ++ (if negb (bool_decide (value p = []))
                            then " = " ++ escape (value p) else [])
                        ++ [LF]) (prefixDepth st)) as (delta & H1 & H2).
        exists delta. split; [done |]. intros st' Hp Hd. rewrite Hd, E.
        by rewrite <- H2.
      * intros [= <-]. destruct (Happ (beforeKey e ++ bareKey e ++ afterKey e
                        ++ (if negb (lacksAssignment e) || modified p
                            then "=" ++ beforeValue e ++ escape (value p)
                                   ++ afterValue e
                            else [])
                        ++ [LF]) (prefixDepth st)) as (delta & H1 & H2).
        exists delta. split; [done |]. intros st' Hp Hd. rewrite Hd.
        by rewrite <- H2.
    + intros [= <-]. destruct (Hnil (prefixDepth st)) as (delta & H1 & H2).
      exists delta. split; [done |]. intros st' Hp Hd. rewrite Hd.
      by rewrite <- H2.
  - intros [= <-].
    destruct (Happ ((if prettyPrint then trim (line e) else line e) ++ [LF])
                (prefixDepth st)) as (delta & H1 & H2).
    exists delta. split; [done |]. intros st' Hp Hd. rewrite Hd.
    by rewrite <- H2.
  - destruct (negb prettyPrint
              || negb (bool_decide (linetype <$> prev st = Some Empty))) eqn:E;
      intros [= <-].
    + destruct (Happ [LF] (prefixDepth st)) as (delta & H1 & H2).
      exists delta. split; [done |]. intros st' Hp Hd. rewrite Hp, Hd, E.
      by rewrite <- H2.
    + destruct (Hnil (prefixDepth st)) as (delta & H1 & H2).
      exists delta. split; [done |]. intros st' Hp Hd. rewrite Hp, Hd, E.
      by rewrite <- H2.
  - intros [= <-]. destruct (Hnil (prefixDepth st)) as (delta & H1 & H2).
    exists delta. split; [done |]. intros st' Hp Hd. rewrite Hd.
    by rewrite <- H2.
  - destruct (string_n (prefixDepth st * 4) " ") as [x | indent] eqn:E;
      [done |].
    intros [= <-].
    destruct (Happ (indent ++ "{" ++ [LF]) (prefixDepth st + 1)%Z)
      as (delta & H1 & H2).
    exists delta. split; [done |]. intros st' Hp Hd. rewrite Hd, E.
    by rewrite <- H2.
  - destruct (string_n ((prefixDepth st - 1) * 4) " ") as [x | indent] eqn:E;
      [done |].
    intros [= <-].
    destruct (Happ (indent ++ "}" ++ [LF]) (prefixDepth st - 1)%Z)
      as (delta & H1 & H2).
    exists delta. split; [done |]. intros st' Hp Hd. rewrite Hd, E.
    by rewrite <- H2.
  - intros [= <-]. destruct (Hnil (prefixDepth st)) as (delta & H1 & H2).
    exists delta. split; [done |]. intros st' Hp Hd. rewrite Hd.
    by rewrite <- H2.
  - intros [= <-]. destruct (Hnil (prefixDepth st)) as (delta & H1 & H2).
    exists delta. split; [done |]. intros st' Hp Hd. rewrite Hd.
    by rewrite <- H2.
  - intros [= <-]. destruct (Hnil (prefixDepth st)) as (delta & H1 & H2).
    exists delta. split; [done |]. intros st' Hp Hd. rewrite Hd.
    by rewrite <- H2.
Qed.

Lemma text_lines_shift d prettyPrint ls :
  forall st r,
    text_lines d prettyPrint st ls = inr r ->
    exists delta,
      ss r = ss st ++ delta
      /\ forall st',
           prev st' = prev st -> prefixDepth st' = prefixDepth st ->
           exists r',
             text_lines d prettyPrint st' ls = inr r'
             /\ ss r' = ss st' ++ delta.
Proof.
  induction ls as [|e ls IH]; intros st r.
  - intros [= <-]. exists []. split; [by rewrite app_nil_r |].
    intros st' _ _. exists st'. by rewrite app_nil_r.
  - cbn [text_lines].
    destruct (text_line d prettyPrint st e) as [x | r1] eqn:E; [done |].
    intros Hrest.
    destruct (text_line_shift _ _ _ _ _ E) as (delta1 & H1 & H1').
    destruct (IH _ _ Hrest) as (delta2 & H2 & H2').
    exists (delta1 ++ delta2). split; [by rewrite H2, H1, <- app_assoc |].
    intros st' Hp Hd. rewrite (H1' st' Hp Hd).
    destruct (H2' {| ss := ss st' ++ delta1; prev := prev r1;
                     prefixDepth := prefixDepth r1 |} eq_refl eq_refl)
      as (r' & Hr' & Hss).
    exists r'. split; [done |]. cbn [ss] in Hss. by rewrite Hss, <- app_assoc.
Qed.

(** The round trip, stopped between two lines *)
Lemma roundtrip_lines_split l1 :
  forall read st depth l2,
    roundtrip_inv read st depth ->
    faithful_lines depth (l1 ++ l2) = true ->
    Forall (fun ln => LF ∉ ln) l1 ->
    NoDup (entry_keys (doc (parse_lines st l1))) ->
    exists depth1,
      roundtrip_inv (read ++ l1) (parse_lines st l1) depth1
      /\ faithful_lines depth1 l2 = true.
Proof.
  induction l1 as [|ln l1 IH]; intros read st depth l2 Hinv Hf Hlf Hnd.
  - exists depth. by rewrite app_nil_r.
  - cbn [app faithful_lines] in Hf.
    destruct (faithful_line depth ln) as [depth1|] eqn:Hln; [| done].
    apply Forall_cons in Hlf as [Hlf1 Hlf].
    change (parse_lines st (ln :: l1))
      with (parse_lines (parse_line st ln) l1) in *.
    destruct (IH (read ++ [ln]) (parse_line st ln) depth1 l2)
      as (depth' & H & H'); [| done | done | done |].
    + apply (roundtrip_step read st depth ln depth1); [done | done | done |].
      eapply NoDup_prefix; [| exact Hnd].
      apply entry_keys_prefix, parse_lines_prefix.
    + exists depth'. by rewrite <- app_assoc in H.
Qed.

(** What the scanner does with a [key=value] line of the round trip *)
Lemma faithful_assignment_step ls st depth ln pos :
  roundtrip_inv ls st depth ->
  classify ln = Property -> find_first_of ln "=" = Some pos ->
  faithful_property ln = true -> LF ∉ ln ->
  NoDup (entry_keys (doc (parse_line st ln))) ->
  exists bk ak bv av,
    ln = bk ++ line_key ln ++ ak ++ "=" ++ bv ++ line_value ln ++ av
    /\ props (doc st) !! prependPrefix (prefixStack (doc st)) (line_key ln)
       = None
    /\ parse_line st ln
       = {| doc :=
              insert_prop
                (push_line (doc st)
                   {| line := ln; linetype := Property;
                      key := prependPrefix (prefixStack (doc st)) (line_key ln);
                      bareKey := line_key ln;
                      beforeKey := bk; afterKey := ak;
                      beforeValue := bv; afterValue := av;
                      lacksAssignment := false |})
                {| pkey := prependPrefix (prefixStack (doc st)) (line_key ln);
                   value := line_value ln; modified := false |};
            prefix := []; pending := None |}.
Proof.
  intros (Hpend & Hprops & _) Hcls Hpos Hfp Hlf Hnd.
  unfold faithful_property in Hfp. rewrite Hpos in Hfp.
  apply andb_true_iff in Hfp as [_ [Hk Hplain]%andb_true_iff].
  pose proof (parse_line_property st ln Hpend Hcls) as Hstep.
  assert (has_nonws (substr_from ln (pos + 1)) = true) as Hv.
  { destruct (has_nonws (substr_from ln (pos + 1))) eqn:E; [done |].
    unfold line_value in Hplain. rewrite Hpos, (trim_all_ws _ E) in Hplain.
    done. }
  destruct (scan_property_assign_parts (prefixStack (doc st)) ln pos
              Hpos Hk Hv)
    as (k & bk & ak & v & bv & av & c1 & c2
        & Hscan & Hln & Hkey & Hval & Hc1 & Hn1 & Hc2 & Hn2).
  rewrite <- Hval, <- Hkey in *.
  assert (LF ∉ v) as Hlfv.
  { intros Hin. apply Hlf. rewrite Hln, !elem_of_app. auto 10. }
  destruct (plain_value_roundtrip v c1 c2 Hplain Hc1 Hn1 Hc2 Hn2 Hlfv)
    as (Hml & Huq & Hesc).
  rewrite Hscan in Hstep. cbn [value] in Hstep. rewrite Hml in Hstep.
  unfold with_value in Hstep. cbn [value pkey modified] in Hstep.
  rewrite Huq in Hstep.
  exists bk, ak, bv, av. split; [done |]. split; [| done].
  destruct (props (doc st) !! prependPrefix (prefixStack (doc st)) k)
    as [p|] eqn:E; [| done].
  destruct (Hprops _ p E) as [_ Hin].
  rewrite Hstep in Hnd. cbn [doc] in Hnd.
  rewrite (entry_keys_snoc (doc st) _
             {| line := ln; linetype := Property;
                key := prependPrefix (prefixStack (doc st)) k;
                bareKey := k; beforeKey := bk; afterKey := ak;
                beforeValue := bv; afterValue := av;
                lacksAssignment := false |}) in Hnd by done.
  rewrite decide_True in Hnd by done.
  apply NoDup_app in Hnd as (_ & Hdisj & _).
  destruct (Hdisj _ Hin). by apply list_elem_of_singleton.
Qed.

(** X21.  [put] on a key that a [key=value] line of the input defined
    returns the value read from that line, and [text(false)] is then the
    input with the value on that line replaced by the escaped new value: the
    whitespace around the key and around the value, every other line and the
    order are as they were read.  The input is one of the round trip. *)
Theorem put_keeps_formatting (pre post : list cstring) (ln v' : cstring) pos :
  Forall (fun l => LF ∉ l) (pre ++ ln :: post) ->
  faithful_lines 0 (pre ++ ln :: post) = true ->
  NoDup (entry_keys (after (parse empty_doc (unlines (pre ++ ln :: post))))) ->
  classify ln = Property -> find_first_of ln "=" = Some pos ->
  exists d bk ak bv av,
    parse empty_doc (unlines (pre ++ ln :: post)) = Returned d
    /\ ln = bk ++ line_key ln ++ ak ++ "=" ++ bv ++ line_value ln ++ av
    /\ let k :=
         prependPrefix
           (prefixStack (doc (parse_lines (parse_init empty_doc) pre)))
           (line_key ln) in
       (put d k v').2 = line_value ln
       /\ text (put d k v').1 false
          = inr (unlines
                   (pre ++ (bk ++ line_key ln ++ ak ++ "=" ++ bv ++ escape v'
                              ++ av) :: post)).
Proof.
  intros Hlf Hf Hnd Hcls Hpos.
  assert (preprocess (unlines (pre ++ ln :: post))
          = inr (unlines (pre ++ ln :: post))) as Hpre.
  { unfold preprocess. rewrite (getlines_unlines _ Hlf).
    rewrite (preprocess_lines_plain pre_init); [done | done |].
    by eapply faithful_lines_not_template. }
  rewrite (parse_Returned _ _ _ Hpre) in Hnd |- *. cbn [after] in Hnd.
  rewrite (getlines_unlines _ Hlf) in Hnd |- *.
  rewrite parse_lines_app in Hnd |- *.
  set (st1 := parse_lines (parse_init empty_doc) pre) in *.
  change (parse_lines st1 (ln :: post))
    with (parse_lines (parse_line st1 ln) post) in *.
  assert (NoDup (entry_keys (doc (parse_lines (parse_line st1 ln) post))))
    as Hnd3.
  { revert Hnd. unfold parse_end.
    destruct (pending (parse_lines (parse_line st1 ln) post)); [| done].
    unfold entry_keys. by cbn [insert_prop lines]. }
  assert (NoDup (entry_keys (doc (parse_line st1 ln)))) as Hnd2.
  { eapply NoDup_prefix; [| exact Hnd3].
    apply entry_keys_prefix, parse_lines_prefix. }
  assert (NoDup (entry_keys (doc st1))) as Hnd1.
  { eapply NoDup_prefix; [| exact Hnd2].
    apply entry_keys_prefix. apply (parse_lines_prefix st1 [ln]). }
  apply Forall_app in Hlf as [Hlf1 [Hlfln Hlf3]%Forall_cons].
  destruct (roundtrip_lines_split pre [] (parse_init empty_doc) 0 (ln :: post)
              roundtrip_inv_init Hf Hlf1 Hnd1) as (depth1 & Hinv1 & Hf1).
  cbn [app] in Hinv1. fold st1 in Hinv1. cbn [faithful_lines] in Hf1.
  destruct (faithful_line depth1 ln) as [depth2|] eqn:Hfl; [| done].
  pose proof (roundtrip_step pre st1 depth1 ln depth2 Hinv1 Hfl Hlfln Hnd2)
    as Hinv2.
  destruct (roundtrip_lines post (pre ++ [ln]) (parse_line st1 ln) depth2
              Hinv2 Hf1 Hlf3 Hnd3) as (depth3 & Hinv3).
  assert (faithful_property ln = true) as Hfp.
  { unfold faithful_line in Hfl. rewrite Hcls in Hfl.
    by destruct (faithful_property ln). }
  destruct (faithful_assignment_step pre st1 depth1 ln pos
              Hinv1 Hcls Hpos Hfp Hlfln Hnd2)
    as (bk & ak & bv & av & Hln & Hnone & Hstep).
  set (qk := prependPrefix (prefixStack (doc st1)) (line_key ln)) in *.
  set (e := {| line := ln; linetype := Property; key := qk;
               bareKey := line_key ln; beforeKey := bk; afterKey := ak;
               beforeValue := bv; afterValue := av;
               lacksAssignment := false |}) in *.
  set (st2 := parse_line st1 ln) in *.
  set (st3 := parse_lines st2 post) in *.
  destruct Hinv3 as (Hpend3 & _ & _ & tst3 & Htext3 & Hss3 & _).
  destruct Hinv2 as (_ & _ & Hkeys2 & tst2 & Htext2 & Hss2 & _).
  destruct Hinv1 as (_ & _ & Hkeys1 & tst1 & Htext1 & Hss1 & _).
  assert (lines (doc st2) = lines (doc st1) ++ [e]) as Hl2
    by (by rewrite Hstep).
  destruct (parse_lines_prefix st2 post) as [E3 Hl3]. fold st3 in Hl3.
  assert (props (doc st2) !! qk
          = Some {| pkey := qk; value := line_value ln; modified := false |})
    as Hp2.
  { rewrite Hstep. cbn [doc insert_prop props push_line pkey].
    by apply props_insert_lookup_new. }
  pose proof (parse_lines_props_mono st2 post _ _ Hp2) as Hp3. fold st3 in Hp3.
  assert (forall e', e' ∈ lines (doc st1) \/ e' ∈ E3 ->
                     linetype e' = Property -> key e' ≠ qk) as Hother.
  { intros e' Hin Ht Heq. revert Hnd3. unfold entry_keys. fold st2 st3.
    rewrite Hl3, Hl2, !filter_app, !fmap_app, filter_cons, filter_nil.
    rewrite decide_True by done. cbn [fmap list_fmap].
    intros (Hnd12 & Hdisj3 & _)%NoDup_app.
    apply NoDup_app in Hnd12 as (_ & Hdisj1 & _).
    assert (forall l : list Line, e' ∈ l ->
              qk ∈ key <$> filter (fun e0 => linetype e0 = Property) l)
      as Hmem.
    { intros l Hl. rewrite <- Heq. apply list_elem_of_fmap. exists e'.
      split; [done |]. by apply list_elem_of_filter. }
    destruct Hin as [Hin | Hin].
    - apply (Hdisj1 qk); [by apply Hmem | by apply list_elem_of_singleton].
    - apply (Hdisj3 qk); [| by apply Hmem].
      apply elem_of_app. right. by apply list_elem_of_singleton. }
  assert (forall e', e' ∈ lines (doc st2) -> linetype e' = Property ->
            props (doc st3) !! key e' = props (doc st2) !! key e') as Hext2.
  { intros e' Hin Ht.
    destruct (Hkeys2 (key e')) as [p Hp].
    { apply list_elem_of_fmap. exists e'. split; [done |].
      by apply list_elem_of_filter. }
    rewrite Hp. by apply parse_lines_props_mono. }
  assert (forall e', e' ∈ lines (doc st1) -> linetype e' = Property ->
            props (doc st2) !! key e' = props (doc st1) !! key e') as Hext1.
  { intros e' Hin Ht.
    destruct (Hkeys1 (key e')) as [p Hp].
    { apply list_elem_of_fmap. exists e'. split; [done |].
      by apply list_elem_of_filter. }
    rewrite Hp. by apply parse_line_props_mono. }
  (* the entries before the line, the line, and the entries behind it, as
     the object renders them before the update *)
  rewrite Hl2, text_lines_app in Htext2.
  rewrite (text_lines_props_ext (doc st2) (doc st1)) in Htext2 by done.
  rewrite Htext1 in Htext2. cbn [text_lines] in Htext2.
  destruct (text_line (doc st2) false tst1 e) as [x | tst2'] eqn:Hline2;
    [done |].
  injection Htext2 as ->.
  assert (prev tst2 = Some e /\ prefixDepth tst2 = prefixDepth tst1)
    as [Hprev2 Hdepth2].
  { revert Hline2. unfold text_line. cbn [linetype e key]. rewrite Hp2.
    by intros [= <-]. }
  rewrite Hl3, text_lines_app in Htext3.
  rewrite (text_lines_props_ext (doc st3) (doc st2)) in Htext3 by done.
  rewrite Hl2, text_lines_app in Htext3.
  rewrite (text_lines_props_ext (doc st2) (doc st1)) in Htext3 by done.
  rewrite Htext1 in Htext3. cbn [text_lines] in Htext3.
  rewrite Hline2 in Htext3.
  (* the same entries, as the object renders them after the update *)
  pose (d' := {| props := <[qk := {| pkey := qk; value := v';
                                     modified := true |}]> (props (doc st3));
                 lines := lines (doc st3);
                 prefixStack := prefixStack (doc st3) |}).
  assert (forall e', e' ∈ lines (doc st1) \/ e' ∈ E3 ->
                     linetype e' = Property ->
                     props d' !! key e' = props (doc st3) !! key e') as Hext.
  { intros e' Hin Ht. cbn [d' props]. apply lookup_insert_ne.
    intros Heq. by apply (Hother e' Hin Ht). }
  rewrite <- (text_lines_props_ext d' (doc st3)) in Htext3 by auto.
  destruct (text_lines_shift _ _ _ _ _ Htext3) as (delta & Hdelta & Hshift).
  assert (delta = unlines post) as ->.
  { rewrite Hss3, Hss2, unlines_app in Hdelta.
    by apply app_inv_head in Hdelta. }
  exists (doc st3), bk, ak, bv, av.
  split; [unfold parse_end; by rewrite Hpend3 |]. split; [done |].
  cbn zeta. unfold put. rewrite Hp3. cbn [fst snd pkey value].
  split; [done |]. fold d'. unfold text. cbn [lines d'].
  rewrite Hl3, Hl2, !text_lines_app.
  rewrite (text_lines_props_ext d' (doc st1)).
  2:{ intros e' Hin Ht. rewrite Hext by auto.
      rewrite Hext2; [auto | rewrite Hl2, elem_of_app; auto | done]. }
  rewrite Htext1. cbn [text_lines]. unfold text_line at 1.
  cbn [linetype e key d' props]. rewrite lookup_insert_eq.
  cbn [negb orb value modified lacksAssignment beforeKey bareKey afterKey
       beforeValue afterValue].
  match goal with
  | |- context [text_lines d' false ?st E3] =>
      destruct (Hshift st) as (r' & Hr & Hss');
        [by rewrite Hprev2 | by rewrite Hdepth2 |]
  end.
  rewrite Hr, Hss'. cbn [ss]. f_equal.
  rewrite Hss1, unlines_app, <- !app_assoc. f_equal. unfold unlines, e.
  cbn [flat_map negb orb lacksAssignment beforeKey bareKey afterKey
       beforeValue afterValue]. by repeat (rewrite <- ?app_assoc; cbn [app]).
Qed.

Lemma put_keeps_formatting_witness :
  let pre := cstrings ["# settings"; "server"; "{"] in
  let ln : cstring := "    port  =  8080 " in
  let post := cstrings ["}"; "name = x"] in
  exists d bk ak bv av,
    parse empty_doc (unlines (pre ++ ln :: post)) = Returned d
    /\ ln = bk ++ line_key ln ++ ak ++ "=" ++ bv ++ line_value ln ++ av
    /\ let k :=
         prependPrefix
           (prefixStack (doc (parse_lines (parse_init empty_doc) pre)))
           (line_key ln) in
       (put d k "9090").2 = line_value ln
       /\ text (put d k "9090").1 false
          = inr (unlines
                   (pre ++ (bk ++ line_key ln ++ ak ++ "=" ++ bv
                              ++ escape "9090" ++ av) :: post)).
Proof.
  apply (put_keeps_formatting _ _ _ _ 10).
  - apply (bool_decide_unpack _). vm_compute. exact I.
  - vm_compute. reflexivity.
  - apply (bool_decide_unpack _). vm_compute. exact I.
  - vm_compute. reflexivity.
  - vm_compute. reflexivity.
Defined.
